(** * Product data-access and search subsystem: query builder, repository
      facade, duplicate detector and tier engine.

    Shallow embedding of
      - backend/src/database/repositories/BaseRepository.ts
      - backend/src/database/repositories/ProductRepository.ts
      - backend/src/database/repositories/UserRepository.ts
      - backend/src/database/connection.ts and errors.ts
      - the submission routes (POST /, GET /my-submissions) and the reward
        snippet of the development plan

    SQL text is modelled as [string], exactly as the template literals build
    it; JavaScript values handed to the driver are modelled by [value], and
    the numbers the code computes with by [Float64.number]. *)

From Stdlib Require Import String Ascii List Bool Arith ZArith QArith Qround Lia.
From Stdlib Require Import Permutation Sorted DecimalString.
From Stdlib Require DecimalNat DecimalFacts.
Import ListNotations.

Close Scope Q_scope.
Local Open Scope nat_scope.
Local Open Scope list_scope.
Local Open Scope string_scope.

(* ===================================================================== *)
(** ** JavaScript numbers: IEEE 754 binary64                              *)
(* ===================================================================== *)

Module Float64.

Local Open Scope Z_scope.

(** A finite number is written [mant * 2^expo]; the same number has many
    such writings, and every operation below depends on the number only.
    The sign of zero is not modelled. *)
Record float := { mant : Z; expo : Z }.

Inductive number : Type :=
| Fin (f : float)
| Inf (negative : bool)
| NaN.

(** The length of [a] in bits, for [a >= 0]. *)
Definition bits (a : Z) : Z := if a <=? 0 then 0 else Z.log2 a + 1.

(** [a / 2^s] rounded to the nearest integer, a tie to the even one, for
    [0 <= a] and [0 < s]. *)
Definition shift_round (a s : Z) : Z :=
  let q := a / 2 ^ s in
  let r := a mod 2 ^ s in
  let half := 2 ^ (s - 1) in
  if r <? half then q
  else if half <? r then q + 1
  else if Z.even q then q else q + 1.

(** The binary64 number nearest to [M * 2^E] (round to nearest, ties to
    even): at most 53 significant bits, no exponent below -1074, infinity
    from [2^1024] on. *)
Definition round (M E : Z) : number :=
  let a := Z.abs M in
  let s := Z.max (bits a - 53) (-1074 - E) in
  let m := if s <=? 0 then a else shift_round a s in
  let e := if s <=? 0 then E else E + s in
  if (0 <? m) && (1024 <? bits m + e) then Inf (M <? 0)
  else Fin {| mant := Z.sgn M * m; expo := e |}.

(** An integer as a number. *)
Definition of_Z (z : Z) : number := round z 0.

(** The decimal literal [n/d], for [0 <= n] and [0 < d]: the quotient is
    cut after at least 56 bits and a last bit records whether anything was
    cut off, so that rounding sees on which side of a tie it is. *)
Definition literal (n d : Z) : number :=
  let t := 56 - (bits n - bits d) in
  let num := if 0 <=? t then n * 2 ^ t else n in
  let den := if 0 <=? t then d else d * 2 ^ (- t) in
  let sticky := if num mod den =? 0 then 0 else 1 in
  round (2 * (num / den) + sticky) (- t - 1).

Definition neg (x : number) : number :=
  match x with
  | Fin f => Fin {| mant := - mant f; expo := expo f |}
  | Inf s => Inf (negb s)
  | NaN => NaN
  end.

(** [x + y] *)
Definition add (x y : number) : number :=
  match x, y with
  | Fin a, Fin b =>
      let e := Z.min (expo a) (expo b) in
      round (mant a * 2 ^ (expo a - e) + mant b * 2 ^ (expo b - e)) e
  | Fin _, Inf s => Inf s
  | Inf s, Fin _ => Inf s
  | Inf s, Inf s' => if Bool.eqb s s' then Inf s else NaN
  | _, _ => NaN
  end.

(** [x - y] *)
Definition sub (x y : number) : number := add x (neg y).

(** [x * y] *)
Definition mul (x y : number) : number :=
  match x, y with
  | Fin a, Fin b => round (mant a * mant b) (expo a + expo b)
  | Fin a, Inf s => if mant a =? 0 then NaN else Inf (xorb (mant a <? 0) s)
  | Inf s, Fin b => if mant b =? 0 then NaN else Inf (xorb s (mant b <? 0))
  | Inf s, Inf s' => Inf (xorb s s')
  | _, _ => NaN
  end.

(** [Math.floor(x)]; the result is written with exponent 0. *)
Definition floor (x : number) : number :=
  match x with
  | Fin f =>
      if 0 <=? expo f
      then Fin {| mant := mant f * 2 ^ expo f; expo := 0 |}
      else Fin {| mant := mant f / 2 ^ (- expo f); expo := 0 |}
  | _ => x
  end.

(** The integer a number is, when it is finite and integral. *)
Definition integral (x : number) : option Z :=
  match x with
  | Fin f =>
      if 0 <=? expo f then Some (mant f * 2 ^ expo f)
      else if mant f mod 2 ^ (- expo f) =? 0
           then Some (mant f / 2 ^ (- expo f))
           else None
  | _ => None
  end.

(** Truthiness of a number: [0] and [NaN] are falsy. *)
Definition truthy_number (x : number) : bool :=
  match x with
  | Fin f => negb (mant f =? 0)
  | Inf _ => true
  | NaN => false
  end.

Definition zero : float := {| mant := 0; expo := 0 |}.
Definition one : float := {| mant := 1; expo := 0 |}.

(** [a <= b] on finite numbers. *)
Definition le (a b : float) : Prop :=
  let e := Z.min (expo a) (expo b) in
  mant a * 2 ^ (expo a - e) <= mant b * 2 ^ (expo b - e).

(** [floor (k * f)] in exact arithmetic, with no rounding of the
    product. *)
Definition exact_floor_times (k : Z) (f : float) : Z :=
  if 0 <=? expo f then k * mant f * 2 ^ expo f
  else (k * mant f) / 2 ^ (- expo f).

(** Strictly negative, respectively positive, and integral or infinite. *)
Definition negative (x : number) : Prop :=
  match x with
  | Fin f => mant f < 0 /\ 0 <= expo f
  | Inf s => s = true
  | NaN => False
  end.

Definition positive (x : number) : Prop :=
  match x with
  | Fin f => 0 < mant f /\ 0 <= expo f
  | Inf s => s = false
  | NaN => False
  end.

(** The integers every one of which is a binary64 number. *)
Definition safe (z : Z) : Prop := Z.abs z < 2 ^ 53.

End Float64.

(* ===================================================================== *)
(** ** JavaScript values and string helpers                               *)
(* ===================================================================== *)

Module Js.

(** The values a filter, a row field or a bound parameter can hold.
    [VNum] holds a finite integral number, [VNumber] any other number (a
    fraction, an infinity, [NaN]); dates are epoch offsets. *)
#[warnings="-register-all"]
Inductive value : Type :=
| VUndefined
| VNull
| VBool (b : bool)
| VNum (z : Z)
| VStr (s : string)
| VDate (t : Z)
| VArr (vs : list value)
| VNumber (n : Float64.number).

(** A computed number as a value. *)
Definition num (n : Float64.number) : value :=
  match Float64.integral n with
  | Some z => VNum z
  | None => VNumber n
  end.

(** [(page - 1) * limit] on integral numbers, in binary64 arithmetic. *)
Definition page_offset (page limit : Z) : value :=
  num (Float64.mul (Float64.sub (Float64.of_Z page) (Float64.of_Z 1))
                   (Float64.of_Z limit)).

(** [String(n)] for a non-negative integer. *)
Definition decimal (n : nat) : string :=
  NilEmpty.string_of_uint (Nat.to_uint n).

(** The line break of a template literal. *)
Definition nl : string := String (ascii_of_nat 10) EmptyString.

(** [Array.prototype.join]. *)
Definition join (sep : string) (l : list string) : string :=
  String.concat sep l.

(** [s.includes(c)] for a one-character needle. *)
Fixpoint includes (s : string) (c : ascii) : bool :=
  match s with
  | EmptyString => false
  | String a rest => Ascii.eqb a c || includes rest c
  end.

(** [a.push(...xs)] *)
Definition push {A : Type} (a xs : list A) : list A := (a ++ xs)%list.

(** Truthiness of an optional number, [if (x)]: [undefined] and [0] are
    falsy; a truthy number is handed on. *)
Definition truthy (o : option Z) : option Z :=
  match o with
  | Some z => if Z.eqb z 0 then None else Some z
  | None => None
  end.

(** Truthiness of an optional string: [undefined] and [''] are falsy. *)
Definition truthy_str (o : option string) : bool :=
  match o with
  | Some EmptyString => false
  | Some _ => true
  | None => false
  end.

(** [a || b] on optional numbers. *)
Definition or_num (o : option Z) (dflt : Z) : Z :=
  match truthy o with
  | Some z => z
  | None => dflt
  end.

End Js.

Import Js.

(* ===================================================================== *)
(** ** BaseRepository.ts: the query builder                               *)
(* ===================================================================== *)

Module QueryBuilder.

(** [FilterOptions]: the object's entries in [Object.entries] order. *)
Definition FilterOptions := list (string * value).

Record SortOptions := { field : string; direction : string }.

(** [PaginationOptions]: the fields hold integral numbers. *)
Record PaginationOptions := {
  page : option Z;
  limit : option Z;
  offset : option Z
}.

(** The [{ clause, params }] pair the builders return. *)
Record built := { clause : string; params : list value }.

(** [`$${n}`] *)
Definition placeholder (n : nat) : string := "$" ++ decimal n.

(** Loop state of [buildWhereClause]. *)
Record where_state := {
  conditions : list string;
  acc_params : list value;
  paramIndex : nat
}.

Definition where_init : where_state :=
  {| conditions := []; acc_params := []; paramIndex := 1 |}.

Definition push_condition (st : where_state) (c : string)
           (vs : list value) : where_state :=
  {| conditions := push (conditions st) [c];
     acc_params := push (acc_params st) vs;
     paramIndex := paramIndex st + length vs |}.

(** One iteration of [for (const [key, value] of Object.entries(filters))]. *)
Definition where_step (st : where_state) (kv : string * value) : where_state :=
  let (key, v) := kv in
  match v with
  | VUndefined | VNull => st
  | VArr vs =>
      let placeholders :=
        join ", " (map placeholder (seq (paramIndex st) (length vs))) in
      push_condition st (key ++ " IN (" ++ placeholders ++ ")") vs
  | VStr s =>
      if includes s "%"%char
      then push_condition st (key ++ " ILIKE " ++ placeholder (paramIndex st)) [v]
      else push_condition st (key ++ " = " ++ placeholder (paramIndex st)) [v]
  | _ => push_condition st (key ++ " = " ++ placeholder (paramIndex st)) [v]
  end.

Definition where_of (conds : list string) : string :=
  match conds with
  | [] => ""
  | _ => "WHERE " ++ join " AND " conds
  end.

Definition buildWhereClause (filters : FilterOptions) : built :=
  let st := fold_left where_step filters where_init in
  {| clause := where_of (conditions st); params := acc_params st |}.

Definition buildOrderClause (primaryKey : string) (sorts : list SortOptions)
  : string :=
  match sorts with
  | [] => "ORDER BY " ++ primaryKey ++ " DESC"
  | _ => "ORDER BY " ++
         join ", " (map (fun s => field s ++ " " ++ direction s) sorts)
  end.

(** [params.push(v)] together with [clause += ` KW $${params.length + 1}`]. *)
Definition push_clause (b : built) (kw : string) (v : value) : built :=
  {| clause := clause b ++ kw ++ placeholder (length (params b) + 1);
     params := push (params b) [v] |}.

Definition buildLimitClause (pagination : PaginationOptions) : built :=
  let b0 := {| clause := ""; params := [] |} in
  let b1 :=
    match truthy (limit pagination) with
    | Some l => push_clause b0 " LIMIT " (VNum l)
    | None => b0
    end in
  match truthy (offset pagination) with
  | Some o => push_clause b1 " OFFSET " (VNum o)
  | None =>
      match truthy (page pagination), truthy (limit pagination) with
      | Some p, Some l => push_clause b1 " OFFSET " (page_offset p l)
      | _, _ => b1
      end
  end.

(** *** What the specification says of [buildWhere]

    Written from the specification's words: one condition per present
    value, chosen by the value's shape, numbered from the count of the
    parameters that precede it. *)

Definition present (v : value) : bool :=
  match v with
  | VUndefined | VNull => false
  | _ => true
  end.

Definition is_wildcard_string (v : value) : bool :=
  match v with
  | VStr s => includes s "%"%char
  | _ => false
  end.

(** The parameters one filter value contributes. *)
Definition bound_values (v : value) : list value :=
  match v with
  | VUndefined | VNull => []
  | VArr vs => vs
  | _ => [v]
  end.

Definition in_condition (key : string) (first n : nat) : string :=
  key ++ " IN (" ++ join ", " (map placeholder (seq first n)) ++ ")".

Definition ilike_condition (key : string) (first : nat) : string :=
  key ++ " ILIKE " ++ placeholder first.

Definition eq_condition (key : string) (first : nat) : string :=
  key ++ " = " ++ placeholder first.

Definition spec_condition (key : string) (v : value) (first : nat) : string :=
  match v with
  | VArr vs => in_condition key first (length vs)
  | _ => if is_wildcard_string v
         then ilike_condition key first
         else eq_condition key first
  end.

Fixpoint spec_conditions (filters : FilterOptions) (first : nat) : list string :=
  match filters with
  | [] => []
  | (key, v) :: rest =>
      if present v
      then spec_condition key v first
           :: spec_conditions rest (first + length (bound_values v))
      else spec_conditions rest first
  end.

Definition spec_params (filters : FilterOptions) : list value :=
  flat_map (fun kv => bound_values (snd kv)) filters.

(** The shape of a filter value: all that the clause text may depend on. *)
Inductive shape : Type :=
| Absent
| ListOf (n : nat)
| Wildcard
| Plain.

Definition shape_of (v : value) : shape :=
  match v with
  | VUndefined | VNull => Absent
  | VArr vs => ListOf (length vs)
  | _ => if is_wildcard_string v then Wildcard else Plain
  end.

Definition same_shape (a b : string * value) : Prop :=
  fst a = fst b /\ shape_of (snd a) = shape_of (snd b).

End QueryBuilder.

Import QueryBuilder.

(* ===================================================================== *)
(** ** The store's reading of a LIMIT / OFFSET clause                     *)
(* ===================================================================== *)

Module Store.

(** Split a clause at blanks. *)
Fixpoint words_aux (cur : string) (s : string) : list string :=
  match s with
  | EmptyString => match cur with EmptyString => [] | _ => [cur] end
  | String c rest =>
      if Ascii.eqb c " "%char
      then match cur with
           | EmptyString => words_aux EmptyString rest
           | _ => cur :: words_aux EmptyString rest
           end
      else words_aux (cur ++ String c EmptyString) rest
  end.

Definition words (s : string) : list string := words_aux EmptyString s.

(** [$n]: the 1-based index of a bound parameter. *)
Definition parse_placeholder (w : string) : option nat :=
  match w with
  | String "$"%char digits =>
      match digits with
      | EmptyString => None
      | _ => option_map Nat.of_uint (NilEmpty.uint_of_string digits)
      end
  | _ => None
  end.

(** The integer bound to a placeholder. *)
Definition bound_int (ps : list value) (w : string) : option Z :=
  match parse_placeholder w with
  | Some (S i) =>
      match nth_error ps i with
      | Some (VNum z) => Some z
      | _ => None
      end
  | _ => None
  end.

(** The row window a clause asks for: [(limit, offset)]. *)
Record window := { w_limit : option Z; w_offset : option Z }.

Fixpoint read_window (ws : list string) (ps : list value) (w : window)
  : option window :=
  match ws with
  | [] => Some w
  | kw :: arg :: rest =>
      match bound_int ps arg with
      | Some z =>
          if String.eqb kw "LIMIT"
          then read_window rest ps {| w_limit := Some z; w_offset := w_offset w |}
          else if String.eqb kw "OFFSET"
          then read_window rest ps {| w_limit := w_limit w; w_offset := Some z |}
          else None
      | None => None
      end
  | _ => None
  end.

(** PostgreSQL refuses a negative LIMIT or OFFSET; otherwise the rows
    after the first [offset] are cut to at most [limit]. *)
Definition apply_window {A : Type} (w : window) (rows : list A)
  : option (list A) :=
  let off := match w_offset w with Some o => o | None => 0%Z end in
  if (off <? 0)%Z then None
  else
    let rest := skipn (Z.to_nat off) rows in
    match w_limit w with
    | Some l => if (l <? 0)%Z then None else Some (firstn (Z.to_nat l) rest)
    | None => Some rest
    end.

(** Running [... <clause>] with its own parameter list over the full
    ordered result set. *)
Definition run_limit_clause {A : Type} (b : built) (rows : list A)
  : option (list A) :=
  match read_window (words (clause b)) (params b)
          {| w_limit := None; w_offset := None |} with
  | Some w => apply_window w rows
  | None => None
  end.

End Store.

Import Store.

(* ===================================================================== *)
(** ** ProductRepository.ts: search                                       *)
(* ===================================================================== *)

Module ProductSearch.

Record SearchFilters := {
  query : option string;
  category : option (list string);
  brand : option (list string);
  country : option (list string);
  countryOfOrigin : option (list string);
  priceRange : option (Z * Z);
  isRegional : option bool;
  verificationStatus : option (list string);
  dateRange : option (Z * Z);
  isNpd : option bool
}.

Record search_state := {
  whereConditions : list string;
  s_params : list value;
  s_paramIndex : nat
}.

Definition search_init : search_state :=
  {| whereConditions := []; s_params := []; s_paramIndex := 1 |}.

(** The text-search condition; the template writes [${paramIndex}]. *)
Definition fulltext_condition (i : nat) : string :=
  nl ++ "        to_tsvector('english', " ++
  nl ++ "          COALESCE(name, '') || ' ' || " ++
  nl ++ "          COALESCE(brand, '') || ' ' || " ++
  nl ++ "          COALESCE(description, '') || ' ' || " ++
  nl ++ "          COALESCE(ingredients_list, '')" ++
  nl ++ "        ) @@ plainto_tsquery('english', " ++ decimal i ++ ")" ++
  nl ++ "      ".

Definition step_query (sf : SearchFilters) (st : search_state) : search_state :=
  match query sf with
  | Some q =>
      if truthy_str (Some q)
      then {| whereConditions := push (whereConditions st) [fulltext_condition (s_paramIndex st)];
              s_params := push (s_params st) [VStr q];
              s_paramIndex := s_paramIndex st + 1 |}
      else st
  | None => st
  end.

(** [if (xs && xs.length > 0)]: an [IN] list, one [${paramIndex++}] per
    element. *)
Definition step_in (column : string) (xs : option (list string))
           (st : search_state) : search_state :=
  match xs with
  | Some (x :: rest) =>
      let l := x :: rest in
      let placeholders :=
        join ", " (map decimal (seq (s_paramIndex st) (length l))) in
      {| whereConditions := push (whereConditions st) [column ++ " IN (" ++ placeholders ++ ")"];
         s_params := push (s_params st) (map VStr l);
         s_paramIndex := s_paramIndex st + length l |}
  | _ => st
  end.

Definition step_between (column : string) (mk : Z -> value)
           (r : option (Z * Z)) (st : search_state) : search_state :=
  match r with
  | Some (lo, hi) =>
      {| whereConditions :=
           push (whereConditions st) [column ++ " BETWEEN " ++ decimal (s_paramIndex st) ++ " AND " ++
             decimal (s_paramIndex st + 1)];
         s_params := push (s_params st) [mk lo; mk hi];
         s_paramIndex := s_paramIndex st + 2 |}
  | None => st
  end.

Definition step_flag (column : string) (b : option bool)
           (st : search_state) : search_state :=
  match b with
  | Some v =>
      {| whereConditions :=
           push (whereConditions st) [column ++ " = " ++ decimal (s_paramIndex st)];
         s_params := push (s_params st) [VBool v];
         s_paramIndex := s_paramIndex st + 1 |}
  | None => st
  end.

(** The filters in the order [search] visits them. *)
Definition search_where (sf : SearchFilters) : search_state :=
  let st := step_query sf search_init in
  let st := step_in "category" (category sf) st in
  let st := step_in "brand" (brand sf) st in
  let st := step_in "country" (country sf) st in
  let st := step_between "mrp" VNum (priceRange sf) st in
  let st := step_flag "is_regional_exclusive" (isRegional sf) st in
  let st := step_flag "is_npd" (isNpd sf) st in
  let st := step_in "verification_status" (verificationStatus sf) st in
  step_between "created_at" VDate (dateRange sf) st.

Definition ranked_order : string :=
  nl ++ "        ORDER BY " ++
  nl ++ "          ts_rank(" ++
  nl ++ "            to_tsvector('english', " ++
  nl ++ "              COALESCE(name, '') || ' ' || " ++
  nl ++ "              COALESCE(brand, '') || ' ' || " ++
  nl ++ "              COALESCE(description, '') || ' ' || " ++
  nl ++ "              COALESCE(ingredients_list, '')" ++
  nl ++ "            ), " ++
  nl ++ "            plainto_tsquery('english', $1)" ++
  nl ++ "          ) DESC," ++
  nl ++ "          ai_confidence_score DESC," ++
  nl ++ "          created_at DESC" ++
  nl ++ "      ".

(** The two statements [search] sends, each with its parameter list. *)
Record search_queries := {
  mainQuery : string;
  mainParams : list value;
  countQuery : string;
  countParams : list value
}.

Definition search (sf : SearchFilters) (pagination : PaginationOptions)
  : search_queries :=
  let st := search_where sf in
  let whereClause := where_of (whereConditions st) in
  let limit := or_num (limit pagination) 20 in
  let offset :=
    or_num (offset pagination)
           (match truthy (page pagination) with
            | Some p => ((p - 1) * limit)%Z
            | None => 0%Z
            end) in
  let orderClause :=
    if truthy_str (query sf) then ranked_order
    else "ORDER BY created_at DESC" in
  {| mainQuery :=
       nl ++ "      SELECT * FROM products" ++
       nl ++ "      " ++ whereClause ++
       nl ++ "      " ++ orderClause ++
       nl ++ "      LIMIT " ++ decimal (s_paramIndex st) ++
             " OFFSET " ++ decimal (s_paramIndex st + 1) ++
       nl ++ "    ";
     mainParams := push (s_params st) [VNum limit; VNum offset];
     countQuery :=
       nl ++ "      SELECT COUNT(*) as total FROM products" ++
       nl ++ "      " ++ whereClause ++
       nl ++ "    ";
     countParams := s_params st |}.

End ProductSearch.

Import ProductSearch.

(* ===================================================================== *)
(** ** Pagination: the clause of [buildLimitClause] run by the store      *)
(* ===================================================================== *)

Module Pagination.

(** The page a caller gets: the clause, with the parameter list the
    builder returned with it, applied to the full ordered result set. *)
Definition paginate {A : Type} (pagination : PaginationOptions)
           (rows : list A) : option (list A) :=
  run_limit_clause (buildLimitClause pagination) rows.

(** The contiguous slice of at most [l] rows starting at offset [off]. *)
Definition slice {A : Type} (off l : Z) (rows : list A) : list A :=
  firstn (Z.to_nat l) (skipn (Z.to_nat off) rows).

(** The offset as the specification words it: the explicit one when
    given, otherwise [(page-1)*limit] when page and limit are given. *)
Inductive stated_offset (pg : PaginationOptions) : Z -> Prop :=
| stated_explicit o :
    offset pg = Some o -> stated_offset pg o
| stated_derived p l :
    offset pg = None -> page pg = Some p -> limit pg = Some l ->
    stated_offset pg ((p - 1) * l)%Z.

(** The page as the specification words it, for 1-based pages. *)
Definition paginate_as_stated {A : Type} (pg : PaginationOptions)
           (rows : list A) : Prop :=
  forall p l off,
    page pg = Some p -> (1 <= p)%Z ->
    limit pg = Some l -> (0 <= l)%Z ->
    stated_offset pg off -> (0 <= off)%Z ->
    paginate pg rows = Some (slice off l rows).

(** The offset the code takes: a field counts as given only when it is
    neither absent nor zero, and the derived offset is the product
    [(page - 1) * limit] as long as the page, the limit and the product
    are below [2^53] in absolute value, where binary64 arithmetic is
    exact. *)
Inductive code_offset (pg : PaginationOptions) : Z -> Prop :=
| code_explicit o :
    offset pg = Some o -> o <> 0%Z -> code_offset pg o
| code_derived p l :
    truthy (offset pg) = None ->
    page pg = Some p -> p <> 0%Z ->
    limit pg = Some l -> l <> 0%Z ->
    Float64.safe p -> Float64.safe l -> Float64.safe ((p - 1) * l) ->
    code_offset pg ((p - 1) * l)%Z.

End Pagination.

Import Pagination.

(* ===================================================================== *)
(** ** errors.ts and connection.ts                                        *)
(* ===================================================================== *)

Module Connection.

(** What a [catch] can receive: the error classes of errors.ts, and the
    driver's own error when nothing has wrapped it yet. *)
Inductive error : Type :=
| DatabaseError (message : string) (code : option string)
| ValidationError (message : string)
| NotFoundError (message : string)
| DuplicateError (message : string)
| DriverError (message : string) (code : option string).

(** [error.code] *)
Definition code_of (e : error) : option string :=
  match e with
  | DatabaseError _ c => c
  | DriverError _ c => c
  | _ => None
  end.

Definition message_of (e : error) : string :=
  match e with
  | DatabaseError m _ | ValidationError m | NotFoundError m
  | DuplicateError m | DriverError m _ => m
  end.

(** [new NotFoundError(resource, id)] and [new DuplicateError(resource, field)] *)
Definition newNotFoundError (resource : string) (id : option string) : error :=
  NotFoundError (resource ++
                 (if truthy_str id
                  then " with id " ++ match id with Some i => i | None => "" end
                  else "") ++ " not found").

Definition newDuplicateError (resource : string) (field : option string) : error :=
  DuplicateError (resource ++
                  (if truthy_str field
                   then " with " ++ match field with Some f => f | None => "" end
                   else "") ++ " already exists").

Definition Row := list (string * value).

Record QueryResult := { rows : list Row; rowCount : nat }.

(** [new DatabaseError(error.message, error.code || 'UNKNOWN')] *)
Definition wrap (e : error) : error :=
  DatabaseError (message_of e)
                (Some (if truthy_str (code_of e)
                       then match code_of e with Some c => c | None => "" end
                       else "UNKNOWN")).

(** *** One-shot queries through the pool

    [driver] is the answer of [pool.query]. *)
Definition driver := string -> list value -> error + QueryResult.

Definition query (d : driver) (text : string) (ps : list value)
  : error + QueryResult :=
  match d text ps with
  | inr r => inr r
  | inl e => inl (wrap e)
  end.

(** *** A connection with transactions

    The rows of the table the repository writes to: those committed, and
    the working copy of the transaction the connection has open.  Every
    statement the connection receives is journalled. *)
Record session := {
  committed : list Row;
  tx : option (list Row);
  journal : list string
}.

(** The rows a statement of this connection sees. *)
Definition visible (s : session) : list Row :=
  match tx s with
  | Some w => w
  | None => committed s
  end.

Definition log (text : string) (s : session) : session :=
  {| committed := committed s; tx := tx s;
     journal := push (journal s) [text] |}.

Definition set_visible (w : list Row) (s : session) : session :=
  match tx s with
  | Some _ => {| committed := committed s; tx := Some w; journal := journal s |}
  | None => {| committed := w; tx := None; journal := journal s |}
  end.

(** How the table answers a writing statement, given the rows it sees:
    a refusal (a constraint violation, say), or the row it stores and
    returns, if it stores one. *)
Definition table_rule :=
  string -> list value -> list Row -> error + option Row.

Definition no_rows : QueryResult := {| rows := []; rowCount := 0 |}.

(** [client.query(text, params)] *)
Definition client_query (rule : table_rule) (text : string) (ps : list value)
           (s0 : session) : (error + QueryResult) * session :=
  let s := log text s0 in
  if String.eqb text "BEGIN" then
    (inr no_rows,
     match tx s with
     | Some _ => s
     | None => {| committed := committed s; tx := Some (committed s);
                  journal := journal s |}
     end)
  else if String.eqb text "COMMIT" then
    (inr no_rows,
     {| committed := visible s; tx := None; journal := journal s |})
  else if String.eqb text "ROLLBACK" then
    (inr no_rows,
     {| committed := committed s; tx := None; journal := journal s |})
  else
    match rule text ps (visible s) with
    | inl e => (inl e, s)
    | inr None => (inr no_rows, s)
    | inr (Some row) =>
        (inr {| rows := [row]; rowCount := 1 |},
         set_visible (push (visible s) [row]) s)
    end.

(** Code that runs against a connection and may throw. *)
Definition M (A : Type) : Type := session -> (error + A) * session.

Definition ret {A : Type} (a : A) : M A := fun s => (inr a, s).

Definition throw {A : Type} (e : error) : M A := fun s => (inl e, s).

Definition bind {A B : Type} (m : M A) (k : A -> M B) : M B :=
  fun s =>
    match m s with
    | (inr a, s') => k a s'
    | (inl e, s') => (inl e, s')
    end.

(** [try { m } catch (error) { h error }] *)
Definition try_catch {A : Type} (m : M A) (h : error -> M A) : M A :=
  fun s =>
    match m s with
    | (inr a, s') => (inr a, s')
    | (inl e, s') => h e s'
    end.

Declare Scope conn_scope.
Delimit Scope conn_scope with conn.
Notation "x <- m ;; k" := (bind m (fun x => k))
  (at level 61, m at next level, right associativity) : conn_scope.
Notation "m ;;; k" := (bind m (fun _ => k))
  (at level 61, right associativity) : conn_scope.

Local Open Scope conn_scope.

(** The bare [client.query]: the driver's error is thrown as it is. *)
Definition raw_query (rule : table_rule) (text : string) (ps : list value)
  : M QueryResult :=
  fun s => client_query rule text ps s.

(** [queryWithClient]: the driver's error is wrapped. *)
Definition queryWithClient (rule : table_rule) (text : string)
           (ps : list value) : M QueryResult :=
  try_catch (raw_query rule text ps) (fun e => throw (wrap e)).

(** [transaction(callback)].  Taking the connection from the pool and
    releasing it in [finally] leave the rows untouched and are not
    journalled. *)
Definition transaction {A : Type} (rule : table_rule) (callback : M A) : M A :=
  try_catch
    (raw_query rule "BEGIN" [] ;;;
     result <- callback ;;
     raw_query rule "COMMIT" [] ;;;
     ret result)
    (fun e => raw_query rule "ROLLBACK" [] ;;; throw e).

End Connection.

Import Connection.

(* ===================================================================== *)
(** ** BaseRepository.ts: create and bulkInsert                           *)
(* ===================================================================== *)

Module Repository.

Local Open Scope conn_scope.

(** [values.map((_, index) => `$${index + 1}`).join(', ')] *)
Definition value_placeholders (n : nat) : string :=
  join ", " (map (fun index => placeholder (index + 1)) (seq 0 n)).

(** The INSERT of [create]. *)
Definition create_text (tableName : string) (data : Row) : string :=
  nl ++ "      INSERT INTO " ++ tableName ++ " (" ++ join ", " (map fst data) ++ ")" ++
  nl ++ "      VALUES (" ++ value_placeholders (length data) ++ ")" ++
  nl ++ "      RETURNING *" ++
  nl ++ "    ".

Definition create (d : driver) (tableName : string) (data : Row)
  : error + Row :=
  let attempt :=
    match query d (create_text tableName data) (map snd data) with
    | inl e => inl e
    | inr result =>
        match rows result with
        | [] => inl (DatabaseError ("Failed to create " ++ tableName)
                                   (Some "NO_ROWS_RETURNED"))
        | r :: _ => inr r
        end
    end in
  match attempt with
  | inr r => inr r
  | inl dbError =>
      match code_of dbError with
      | Some c =>
          if String.eqb c "23505"
          then inl (DatabaseError ("Duplicate entry in " ++ tableName) (code_of dbError))
          else inl (DatabaseError ("Failed to create " ++ tableName) (code_of dbError))
      | None => inl (DatabaseError ("Failed to create " ++ tableName) (code_of dbError))
      end
  end.

(** The two statements of [find], each with its parameter list. *)
Record find_statements := {
  dataQuery : string;
  dataParams : list value;
  totalQuery : string;
  totalParams : list value
}.

Definition find (tableName primaryKey : string) (filters : FilterOptions)
           (sorts : list SortOptions) (pagination : PaginationOptions)
  : find_statements :=
  let w := buildWhereClause filters in
  let orderClause := buildOrderClause primaryKey sorts in
  let l := buildLimitClause pagination in
  {| dataQuery :=
       nl ++ "      SELECT * FROM " ++ tableName ++
       nl ++ "      " ++ clause w ++
       nl ++ "      " ++ orderClause ++
       nl ++ "      " ++ clause l ++
       nl ++ "    ";
     dataParams := push (params w) (params l);
     totalQuery :=
       nl ++ "      SELECT COUNT(*) as total FROM " ++ tableName ++
       nl ++ "      " ++ clause w ++
       nl ++ "    ";
     totalParams := params w |}.

(** The INSERT of [bulkInsert]. *)
Definition bulk_text (tableName : string) (item : Row) : string :=
  nl ++ "          INSERT INTO " ++ tableName ++ " (" ++ join ", " (map fst item) ++ ")" ++
  nl ++ "          VALUES (" ++ value_placeholders (length item) ++ ")" ++
  nl ++ "          RETURNING *" ++
  nl ++ "        ".

(** The [for (const item of items)] loop of the callback. *)
Fixpoint bulk_loop (rule : table_rule) (tableName : string)
         (items : list Row) (results : list Row) : M (list Row) :=
  match items with
  | [] => ret results
  | item :: rest =>
      result <- queryWithClient rule (bulk_text tableName item) (map snd item) ;;
      bulk_loop rule tableName rest
                (match rows result with
                 | r :: _ => push results [r]
                 | [] => results
                 end)
  end.

Definition bulkInsert (rule : table_rule) (tableName : string)
           (items : list Row) : M (list Row) :=
  match items with
  | [] => ret []
  | _ => transaction rule (bulk_loop rule tableName items [])
  end.

End Repository.

Import Repository.

(** *** All-or-nothing, as the specification words it

    The batch is accepted only if the table accepts every item in turn,
    each seeing the rows accepted before it; the first refusal is the
    batch's error. *)
Module Batch.

Fixpoint accept_all (rule : table_rule) (tableName : string)
         (items : list Row) (seen : list Row) : error + list Row :=
  match items with
  | [] => inr []
  | item :: rest =>
      match rule (bulk_text tableName item) (map snd item) seen with
      | inl e => inl (wrap e)
      | inr None => accept_all rule tableName rest seen
      | inr (Some row) =>
          match accept_all rule tableName rest (push seen [row]) with
          | inl e => inl e
          | inr stored => inr (row :: stored)
          end
      end
  end.

(** The rows persisted once the batch is over. *)
Definition persisted (before : list Row) (outcome : error + list Row)
  : list Row :=
  match outcome with
  | inl _ => before
  | inr stored => push before stored
  end.

(** The number of inserts sent before the batch stopped. *)
Fixpoint attempted (rule : table_rule) (tableName : string)
         (items : list Row) (seen : list Row) : nat :=
  match items with
  | [] => 0
  | item :: rest =>
      match rule (bulk_text tableName item) (map snd item) seen with
      | inl _ => 1
      | inr None => S (attempted rule tableName rest seen)
      | inr (Some row) => S (attempted rule tableName rest (push seen [row]))
      end
  end.

Definition closing (outcome : error + list Row) : string :=
  match outcome with
  | inl _ => "ROLLBACK"
  | inr _ => "COMMIT"
  end.

End Batch.

Import Batch.

(* ===================================================================== *)
(** ** UserRepository.ts: createUser and updateUserTier                   *)
(* ===================================================================== *)

Module UserRepository.

Record CreateUserData := {
  email : string;
  phone : string;
  password : string;
  full_name : string
}.

Definition find_user_text : string :=
  nl ++ "      SELECT * FROM users " ++
  nl ++ "      WHERE email = $1 OR phone = $2" ++
  nl ++ "      LIMIT 1" ++
  nl ++ "    ".

Definition insert_user_text : string :=
  nl ++ "      INSERT INTO users (email, phone, password_hash, full_name)" ++
  nl ++ "      VALUES ($1, $2, $3, $4)" ++
  nl ++ "      RETURNING *" ++
  nl ++ "    ".

Definition findByEmailOrPhone (d : driver) (email phone : string)
  : error + option Row :=
  match query d find_user_text [VStr email; VStr phone] with
  | inr result => inr (hd_error (rows result))
  | inl e =>
      inl (DatabaseError "Failed to find user by email or phone" (code_of e))
  end.

(** [hash] stands for [bcrypt.hash(password, 12)]. *)
Definition createUser (hash : string -> string) (d : driver)
           (userData : CreateUserData) : error + option Row :=
  match findByEmailOrPhone d (email userData) (phone userData) with
  | inl e => inl e
  | inr (Some _) => inl (newDuplicateError "User" (Some "email or phone"))
  | inr None =>
      let password_hash := hash (password userData) in
      match query d insert_user_text
                  [VStr (email userData); VStr (phone userData);
                   VStr password_hash; VStr (full_name userData)] with
      | inr result => inr (hd_error (rows result))
      | inl e =>
          match code_of e with
          | Some c =>
              if String.eqb c "23505"
              then inl (newDuplicateError "User" (Some "email or phone"))
              else inl (DatabaseError "Failed to create user" (code_of e))
          | None => inl (DatabaseError "Failed to create user" (code_of e))
          end
      end
  end.

End UserRepository.

Import UserRepository.

(** *** Sample stores *)
Module Samples.

(** A driver that refuses every statement with the given error. *)
Definition refusing (message : string) (code : option string) : driver :=
  fun _ _ => inl (DriverError message code).

(** A driver that answers every statement with the given rows. *)
Definition answering (rs : list Row) : driver :=
  fun _ _ => inr {| rows := rs; rowCount := length rs |}.

(** A driver for a users table that holds no matching user when asked,
    and meets a unique index on insert (a concurrent registration). *)
Definition racing_users : driver :=
  fun text _ =>
    if String.eqb text find_user_text
    then inr {| rows := []; rowCount := 0 |}
    else inl (DriverError "duplicate key value violates unique constraint"
                          (Some "23505")).

Definition first_param (ps : list value) : value :=
  match ps with
  | v :: _ => v
  | [] => VNull
  end.

Definition same_value (a b : value) : bool :=
  match a, b with
  | VStr x, VStr y => String.eqb x y
  | VNum x, VNum y => Z.eqb x y
  | _, _ => false
  end.

Definition row_key (r : Row) : value :=
  match r with
  | (_, v) :: _ => v
  | [] => VNull
  end.

(** A table with a unique index on its first column: a statement whose
    first parameter is already stored is refused with code 23505. *)
Definition unique_first_column : table_rule :=
  fun _ ps seen =>
    if existsb (fun r => same_value (row_key r) (first_param ps)) seen
    then inl (DriverError "duplicate key value violates unique constraint"
                          (Some "23505"))
    else inr (Some [("name", first_param ps)]).

Definition idle (stored : list Row) : session :=
  {| committed := stored; tx := None; journal := [] |}.

End Samples.

Import Samples.

(* ===================================================================== *)
(** ** The submission route: POST /                                       *)
(* ===================================================================== *)

Module Submissions.

(** *** PostgreSQL's ILIKE

    [%] matches any run of characters, [_] any one character, a
    backslash takes the next pattern character literally; a pattern
    that ends in a lone backslash is an error once the matcher reaches
    it with text left ([None]).  The letters A-Z are compared without
    regard to case; texts are taken to be ASCII, where that is all the
    case folding there is. *)

Definition lower (c : ascii) : ascii :=
  let n := nat_of_ascii c in
  if Nat.leb 65 n && Nat.leb n 90 then ascii_of_nat (n + 32) else c.

Definition or3 (a b : option bool) : option bool :=
  match a with
  | Some true => Some true
  | Some false => b
  | None => None
  end.

Fixpoint like (p : list ascii) : list ascii -> option bool :=
  match p with
  | [] => fun s => match s with [] => Some true | _ => Some false end
  | c :: p' =>
      if Ascii.eqb c "%"%char then
        fix star (s : list ascii) : option bool :=
          or3 (like p' s)
              (match s with
               | [] => Some false
               | _ :: s' => star s'
               end)
      else if Ascii.eqb c "_"%char then
        fun s => match s with
                 | [] => Some false
                 | _ :: s' => like p' s'
                 end
      else if Ascii.eqb c "\"%char then
        match p' with
        | [] => fun s => match s with [] => Some false | _ => None end
        | e :: p'' =>
            fun s => match s with
                     | [] => Some false
                     | x :: s' => if Ascii.eqb x e then like p'' s' else Some false
                     end
        end
      else
        fun s => match s with
                 | [] => Some false
                 | x :: s' => if Ascii.eqb x c then like p' s' else Some false
                 end
  end.

Definition lower_string (s : string) : list ascii :=
  map lower (list_ascii_of_string s).

(** [text ILIKE pattern] *)
Definition ilike (text pattern : string) : option bool :=
  like (lower_string pattern) (lower_string text).

(** *** The table and the handler *)

Record submission := {
  row_id : nat;
  user_id : string;
  submitted_product_name : string;
  submitted_brand : string;
  created_at : Z
}.

(** The store the handler talks to: [npd_submissions], and
    [users.total_submissions] per user id.  Time is in seconds. *)
Record store := {
  npd_submissions : list submission;
  total_submissions : string -> Z
}.

Record request := {
  user : string;
  product_name : string;
  brand : string;
  optional_fields_valid : bool
}.

Inductive response : Type :=
| Status400
| Status409 (error : string)
| Status201 (created : submission)
| Status500 (error : string).

Definition day : Z := 86400.

(** The WHERE of the duplicate check on one row, conjunct by conjunct. *)
Definition duplicate_row (now : Z) (req : request) (r : submission)
  : option bool :=
  if String.eqb (user_id r) (user req) then
    match ilike (submitted_product_name r) (product_name req) with
    | None => None
    | Some false => Some false
    | Some true =>
        match ilike (submitted_brand r) (brand req) with
        | None => None
        | Some false => Some false
        | Some true => Some (now - day <? created_at r)%Z
        end
    end
  else Some false.

(** The rows of the duplicate check, or [None] when the statement fails. *)
Fixpoint duplicateCheck (now : Z) (req : request) (table : list submission)
  : option (list submission) :=
  match table with
  | [] => Some []
  | r :: rest =>
      match duplicate_row now req r, duplicateCheck now req rest with
      | Some true, Some found => Some (r :: found)
      | Some false, Some found => Some found
      | _, _ => None
      end
  end.

Definition fresh_id (table : list submission) : nat :=
  S (fold_right (fun r m => Nat.max (row_id r) m) 0 table).

(** Whether the store serves the three statements of the handler.  A
    statement fails when a value does not fit its column, a constraint is
    violated or the connection is lost; the handler sends each statement
    on its own, outside any transaction. *)
Record acceptance := {
  select_answered : store -> bool;
  insert_accepted : store -> submission -> bool;
  update_accepted : store -> string -> bool
}.

(** A store that serves every statement. *)
Definition accepting : acceptance :=
  {| select_answered := fun _ => true;
     insert_accepted := fun _ _ => true;
     update_accepted := fun _ _ => true |}.

Definition post_submission_on (a : acceptance) (now : Z) (req : request)
           (st : store) : response * store :=
  if negb (Nat.leb 2 (String.length (product_name req))
           && Nat.leb 2 (String.length (brand req))
           && optional_fields_valid req)
  then (Status400, st)
  else if negb (select_answered a st)
  then (Status500 "Failed to create submission", st)
  else
    match duplicateCheck now req (npd_submissions st) with
    | None => (Status500 "Failed to create submission", st)
    | Some (_ :: _) =>
        (Status409 "Similar submission already exists within 24 hours", st)
    | Some [] =>
        let row := {| row_id := fresh_id (npd_submissions st);
                      user_id := user req;
                      submitted_product_name := product_name req;
                      submitted_brand := brand req;
                      created_at := now |} in
        if negb (insert_accepted a st row)
        then (Status500 "Failed to create submission", st)
        else
          let stored := {| npd_submissions := push (npd_submissions st) [row];
                           total_submissions := total_submissions st |} in
          if negb (update_accepted a stored (user req))
          then (Status500 "Failed to create submission", stored)
          else
            (Status201 row,
             {| npd_submissions := push (npd_submissions st) [row];
                total_submissions :=
                  fun u => if String.eqb u (user req)
                           then (total_submissions st u + 1)%Z
                           else total_submissions st u |})
    end.

(** The handler over a store that serves every statement. *)
Definition post_submission (now : Z) (req : request) (st : store)
  : response * store :=
  post_submission_on accepting now req st.

(** *** The hard reject, as the specification words it *)

(** The same user holds a submission whose name and brand equal the
    request's up to letter case, created within the last 24 hours. *)
Definition exact_recent_match (now : Z) (req : request) (r : submission)
  : Prop :=
  user_id r = user req
  /\ lower_string (submitted_product_name r) = lower_string (product_name req)
  /\ lower_string (submitted_brand r) = lower_string (brand req)
  /\ (now - day < created_at r)%Z.

Definition rejected (out : response * store) (st : store) : Prop :=
  (forall row, fst out <> Status201 row)
  /\ npd_submissions (snd out) = npd_submissions st.

Definition hard_reject_as_stated (now : Z) (req : request) (st : store)
  : Prop :=
  (exists r, In r (npd_submissions st) /\ exact_recent_match now req r) ->
  rejected (post_submission now req st) st.

Definition backslash_free (s : string) : Prop :=
  ~ In "\"%char (list_ascii_of_string s).

End Submissions.

Import Submissions.

(* ===================================================================== *)
(** ** ORDER BY: a stable insertion sort                                  *)
(* ===================================================================== *)

Module OrderBy.

Section Sort.

Variable A : Type.
(** [before x y]: [x] may stand before [y]. *)
Variable before : A -> A -> bool.

Fixpoint insert (x : A) (l : list A) : list A :=
  match l with
  | [] => [x]
  | y :: l' => if before x y then x :: l else y :: insert x l'
  end.

Fixpoint sort (l : list A) : list A :=
  match l with
  | [] => []
  | x :: l' => insert x (sort l')
  end.

End Sort.

Arguments insert {A} before x l.
Arguments sort {A} before l.

End OrderBy.

Import OrderBy.

(* ===================================================================== *)
(** ** ProductRepository.ts: findSimilarProducts                          *)
(* ===================================================================== *)

Module Catalog.

Inductive VerificationStatus : Type := pending | verified | rejected | flagged.

(** The columns of [products] the query reads. *)
Record Product := {
  id : string;
  name : string;
  brand : string;
  verification_status : VerificationStatus
}.

(** A result row: [SELECT *, ... as sim_score]. *)
Record scored := { product : Product; sim_score : Q }.

Definition is_verified (p : Product) : bool :=
  match verification_status p with
  | verified => true
  | _ => false
  end.

Definition Qlt_bool (x y : Q) : bool := negb (Qle_bool y x).

Section Detector.

(** [similarity] is pg_trgm's trigram similarity of two texts. *)
Variable similarity : string -> string -> Q.

(** [similarity(name, $1) + similarity(brand, $2)] *)
Definition score (name1 brand2 : string) (p : Product) : Q :=
  (similarity (name p) name1 + similarity (brand p) brand2)%Q.

Definition default_threshold : Q := (7 # 10)%Q.

(** [findSimilarProducts(name, brand, threshold = 0.7)] run over the
    rows of [products]. *)
Definition findSimilarProducts (catalog : list Product)
           (name1 brand2 : string) (threshold : option Q) : list scored :=
  let t := match threshold with Some t => t | None => default_threshold end in
  let selected :=
    filter (fun r => Qlt_bool t (sim_score r)
                     && is_verified (product r))
           (map (fun p => {| product := p; sim_score := score name1 brand2 p |})
                catalog) in
  firstn 10
    (sort (fun x y => Qle_bool (sim_score y) (sim_score x)) selected).


End Detector.

(** A stand-in similarity for worked examples: 1 on equal texts, 0
    otherwise. *)
Definition exact_similarity (a b : string) : Q :=
  if String.eqb a b then 1%Q else 0%Q.

Definition choco (status : VerificationStatus) : Product :=
  {| id := "p1"; name := "Choco Munch"; brand := "ABC";
     verification_status := status |}.

End Catalog.

(* ===================================================================== *)
(** ** The reward computation (development plan, Reward System)           *)
(* ===================================================================== *)

Module Rewards.

Import Float64.

(** Numbers are binary64 numbers, as in the code. *)
Record NPDSubmission := {
  aiConfidence : number;
  isRegionalExclusive : bool
}.

(** [const tierMultipliers = { bronze: 1.0, silver: 1.1, gold: 1.2,
    platinum: 1.3 }]: the own properties of the object literal. *)
Definition tierMultipliers : list (string * number) :=
  [("bronze", literal 10 10); ("silver", literal 11 10);
   ("gold", literal 12 10); ("platinum", literal 13 10)].

(** The property names an object literal inherits from
    [Object.prototype]; each holds a function or an object. *)
Definition object_prototype_keys : list string :=
  ["constructor"; "hasOwnProperty"; "isPrototypeOf"; "propertyIsEnumerable";
   "toLocaleString"; "toString"; "valueOf"; "__proto__";
   "__defineGetter__"; "__defineSetter__"; "__lookupGetter__";
   "__lookupSetter__"].

(** What [object[key]] finds. *)
Inductive property : Type :=
| Own (n : number)
| Inherited
| Missing.

Fixpoint own (table : list (string * number)) (key : string) : option number :=
  match table with
  | [] => None
  | (k, v) :: rest => if String.eqb k key then Some v else own rest key
  end.

(** [table[key]] *)
Definition get (table : list (string * number)) (key : string) : property :=
  match own table key with
  | Some n => Own n
  | None =>
      if existsb (String.eqb key) object_prototype_keys then Inherited
      else Missing
  end.

(** [tierMultipliers[userTier] || 1.0]: an own multiplier is kept when
    truthy, a missing one gives [1.0], and an inherited function or
    object, being truthy, is kept and counts as [NaN] in the product. *)
Definition multiplier_or_default (p : property) : number :=
  match p with
  | Own m => if truthy_number m then m else literal 10 10
  | Inherited => NaN
  | Missing => literal 10 10
  end.

Definition calculateReward (submission : NPDSubmission) (userTier : string)
  : number :=
  let reward := of_Z 300 in
  let reward :=
    add reward (floor (mul (aiConfidence submission) (of_Z 50))) in
  let reward :=
    if isRegionalExclusive submission then add reward (of_Z 50) else reward in
  let reward :=
    mul reward (multiplier_or_default (get tierMultipliers userTier)) in
  floor reward.

(** *** The formula of the specification, over exact arithmetic *)


(** The multipliers as decimal fractions; a tier without one counts 1. *)
Definition stated_multiplier (userTier : string) : Q :=
  if String.eqb userTier "silver" then (11 # 10)%Q
  else if String.eqb userTier "gold" then (12 # 10)%Q
  else if String.eqb userTier "platinum" then (13 # 10)%Q
  else 1%Q.

Definition regionalBonus (regional : bool) : Z :=
  if regional then 50%Z else 0%Z.

(** [floor(floor(base + qualityBonus + regionalBonus) * multiplier)] *)
Definition stated_reward (base : Q) (qualityBonus : Z) (regional : bool)
           (multiplier : Q) : Z :=
  Qfloor (inject_Z (Qfloor (base + inject_Z qualityBonus
                            + inject_Z (regionalBonus regional)))
          * multiplier)%Q.


(** The rest of [calculateReward] once
    [Math.floor(submission.aiConfidence * 50)] is known. *)
Definition reward_after (bonus : number) (regional : bool) (userTier : string)
  : number :=
  let reward := add (of_Z 300) bonus in
  let reward := if regional then add reward (of_Z 50) else reward in
  floor (mul reward (multiplier_or_default (get tierMultipliers userTier))).

End Rewards.

(* ===================================================================== *)
(** ** Tier selection                                                     *)
(* ===================================================================== *)

Module Tiers.

Inductive user_tier : Type := bronze | silver | gold | platinum | diamond.

(** UserRepository.ts, [updateUserTier]: the CASE of the UPDATE, over the
    columns [total_submissions] (INTEGER) and [quality_score] (a decimal,
    compared exactly).  No other column is read. *)
Definition updateUserTier (submissions : Z) (quality : Q) : user_tier :=
  if (100 <=? submissions)%Z && Qle_bool 9 quality then diamond
  else if (50 <=? submissions)%Z && Qle_bool (85 # 10) quality then platinum
  else if (25 <=? submissions)%Z && Qle_bool 8 quality then gold
  else if (10 <=? submissions)%Z && Qle_bool 7 quality then silver
  else bronze.

(** *** Tier selection as the specification words it *)

(** A threshold row: [(tier, min_submissions, min_quality_score,
    min_approval_rate)]. *)
Record tier_config := {
  tier : user_tier;
  min_submissions : Z;
  min_quality_score : Q;
  min_approval_rate : Q
}.

(** A contributor statistics record. *)
Record user_stats := {
  total_submissions : Z;
  quality_score : Q;
  approval_rate : Q
}.

(** All three minimums are met. *)
Definition meets (stats : user_stats) (c : tier_config) : bool :=
  (min_submissions c <=? total_submissions stats)%Z
  && Qle_bool (min_quality_score c) (quality_score stats)
  && Qle_bool (min_approval_rate c) (approval_rate stats).

(** The higher threshold: more submissions, then a higher quality. *)
Definition ranks_before (a b : tier_config) : bool :=
  (min_submissions b <? min_submissions a)%Z
  || ((min_submissions a =? min_submissions b)%Z
      && Qle_bool (min_quality_score b) (min_quality_score a)).

(** The highest-threshold tier whose three minimums are met; bronze when
    there is none. *)
Definition stated_selection (configs : list tier_config) (stats : user_stats)
  : user_tier :=
  match sort ranks_before (filter (meets stats) configs) with
  | c :: _ => tier c
  | [] => bronze
  end.

(** The thresholds the CASE spells out, with an approval minimum for
    each tier. *)
Definition case_thresholds (approval : user_tier -> Q) : list tier_config :=
  [ {| tier := diamond; min_submissions := 100; min_quality_score := 9;
       min_approval_rate := approval diamond |};
    {| tier := platinum; min_submissions := 50; min_quality_score := 85 # 10;
       min_approval_rate := approval platinum |};
    {| tier := gold; min_submissions := 25; min_quality_score := 8;
       min_approval_rate := approval gold |};
    {| tier := silver; min_submissions := 10; min_quality_score := 7;
       min_approval_rate := approval silver |} ].


(** The approval minimum of the specification's example: 80% for gold. *)
Definition gold_needs_80 (t : user_tier) : Q :=
  match t with
  | gold => 80%Q
  | _ => 0%Q
  end.



End Tiers.


(* ===================================================================== *)
(** ** BaseRepository.ts: findById, update, delete, count, exists         *)
(* ===================================================================== *)

Module Facade.

(** [row[key]] *)
Fixpoint get (r : Row) (key : string) : value :=
  match r with
  | [] => VUndefined
  | (k, v) :: rest => if String.eqb k key then v else get rest key
  end.

Definition is_digit (c : ascii) : bool :=
  let n := nat_of_ascii c in Nat.leb 48 n && Nat.leb n 57.

Definition digit_value (c : ascii) : Z := Z.of_nat (nat_of_ascii c - 48).

Definition is_space (c : ascii) : bool :=
  let n := nat_of_ascii c in
  Nat.eqb n 32 || (Nat.leb 9 n && Nat.leb n 13).

(** The longest run of digits at the head of [s], read in base 10;
    [None] when [s] does not start with a digit. *)
Fixpoint read_digits (s : string) (acc : option Z) : option Z :=
  match s with
  | String c rest =>
      if is_digit c
      then read_digits rest
             (Some (10 * match acc with Some a => a | None => 0 end
                    + digit_value c)%Z)
      else acc
  | EmptyString => acc
  end.

Fixpoint skip_spaces (s : string) : string :=
  match s with
  | String c rest => if is_space c then skip_spaces rest else s
  | EmptyString => s
  end.

(** [parseInt(s, 10)]; [None] stands for [NaN]. *)
Definition parseInt (s : string) : option Z :=
  match skip_spaces s with
  | String "-"%char rest => option_map Z.opp (read_digits rest None)
  | String "+"%char rest => read_digits rest None
  | t => read_digits t None
  end.

Definition findById_text (tableName primaryKey : string) : string :=
  "SELECT * FROM " ++ tableName ++ " WHERE " ++ primaryKey ++ " = $1".

Definition findById (d : driver) (tableName primaryKey id : string)
  : error + option Row :=
  match query d (findById_text tableName primaryKey) [VStr id] with
  | inr result => inr (hd_error (rows result))
  | inl dbError =>
      inl (DatabaseError ("Failed to find " ++ tableName ++ " by ID")
                         (code_of dbError))
  end.

(** [fields.map((field, index) => `${field} = $${index + 2}`).join(', ')] *)
Definition setClause (fields : list string) : string :=
  join ", "
       (map (fun fi => fst fi ++ " = " ++ placeholder (snd fi + 2))
            (combine fields (seq 0 (length fields)))).

Definition update_text (tableName primaryKey : string) (data : Row) : string :=
  nl ++ "      UPDATE " ++ tableName ++
  nl ++ "      SET " ++ setClause (map fst data) ++
  nl ++ "      WHERE " ++ primaryKey ++ " = $1" ++
  nl ++ "      RETURNING *" ++
  nl ++ "    ".

Definition update (d : driver) (tableName primaryKey id : string) (data : Row)
  : error + Row :=
  match data with
  | [] => inl (ValidationError "No data provided for update")
  | _ =>
      let attempt :=
        match query d (update_text tableName primaryKey data)
                    (VStr id :: map snd data) with
        | inl e => inl e
        | inr result =>
            match rows result with
            | [] => inl (newNotFoundError tableName (Some id))
            | r :: _ => inr r
            end
        end in
      match attempt with
      | inr r => inr r
      | inl (NotFoundError m) => inl (NotFoundError m)
      | inl dbError =>
          inl (DatabaseError ("Failed to update " ++ tableName) (code_of dbError))
      end
  end.

Definition delete_text (tableName primaryKey : string) : string :=
  "DELETE FROM " ++ tableName ++ " WHERE " ++ primaryKey ++ " = $1".

Definition delete (d : driver) (tableName primaryKey id : string)
  : error + bool :=
  match query d (delete_text tableName primaryKey) [VStr id] with
  | inr result => inr (Nat.ltb 0 (rowCount result))
  | inl dbError =>
      inl (DatabaseError ("Failed to delete " ++ tableName) (code_of dbError))
  end.

(** [rows[0]?.total || '0'], for the column typed [string] by
    [query<{ total: string }>]. *)
Definition total_cell (rs : list Row) : string :=
  match rs with
  | [] => "0"
  | r :: _ =>
      match get r "total" with
      | VStr EmptyString => "0"
      | VStr s => s
      | _ => "0"
      end
  end.

Definition count_text (tableName : string) (filters : FilterOptions) : string :=
  "SELECT COUNT(*) as total FROM " ++ tableName ++ " " ++
  clause (buildWhereClause filters).

Definition count (d : driver) (tableName : string) (filters : FilterOptions)
  : error + option Z :=
  match query d (count_text tableName filters)
              (params (buildWhereClause filters)) with
  | inr result => inr (parseInt (total_cell (rows result)))
  | inl dbError =>
      inl (DatabaseError ("Failed to count " ++ tableName) (code_of dbError))
  end.

Definition exists_text (tableName primaryKey : string) : string :=
  "SELECT 1 FROM " ++ tableName ++ " WHERE " ++ primaryKey ++ " = $1 LIMIT 1".

Definition exists_ (d : driver) (tableName primaryKey id : string)
  : error + bool :=
  match query d (exists_text tableName primaryKey) [VStr id] with
  | inr result => inr (Nat.ltb 0 (length (rows result)))
  | inl dbError =>
      inl (DatabaseError ("Failed to check existence in " ++ tableName)
                         (code_of dbError))
  end.

(** An error of the failure kind the facade reports: [DatabaseError] with
    the operation's own message and a non-empty code. *)
Definition storage_failure (message : string) (e : error) : Prop :=
  exists c, e = DatabaseError message (Some c) /\ c <> "".

(** ProductRepository.ts, [updateVerificationStatus]; [now] stands for
    [new Date()]. *)
Definition updateVerificationStatus (d : driver) (now : Z)
           (productId status : string) (confidenceScore : option value)
  : error + Row :=
  let updateData :=
    [("verification_status", VStr status); ("last_verified_at", VDate now)] in
  let updateData :=
    match confidenceScore with
    | Some c => push updateData [("ai_confidence_score", c)]
    | None => updateData
    end in
  update d "products" "id" productId updateData.

End Facade.


(* ===================================================================== *)
(** ** UserRepository.ts: the tier and earnings updates                   *)
(* ===================================================================== *)

Module UserOps.

Definition tier_text : string :=
  nl ++ "      UPDATE users " ++
  nl ++ "      SET user_tier = CASE" ++
  nl ++ "        WHEN total_submissions >= 100 AND quality_score >= 9.0 THEN 'diamond'" ++
  nl ++ "        WHEN total_submissions >= 50 AND quality_score >= 8.5 THEN 'platinum'" ++
  nl ++ "        WHEN total_submissions >= 25 AND quality_score >= 8.0 THEN 'gold'" ++
  nl ++ "        WHEN total_submissions >= 10 AND quality_score >= 7.0 THEN 'silver'" ++
  nl ++ "        ELSE 'bronze'" ++
  nl ++ "      END" ++
  nl ++ "      WHERE id = $1" ++
  nl ++ "      RETURNING *" ++
  nl ++ "    ".

(** The [try] block shared by [updateUserTier] and [updateEarnings]:
    the first row, or [NotFoundError('User', userId)] thrown inside it. *)
Definition first_user_row (d : driver) (text : string) (ps : list value)
           (userId : string) : error + Row :=
  match query d text ps with
  | inl e => inl e
  | inr result =>
      match rows result with
      | [] => inl (newNotFoundError "User" (Some userId))
      | r :: _ => inr r
      end
  end.

(** [catch (error) { throw new DatabaseError(message, error.code) }] *)
Definition rethrow_as_database (message : string) (attempt : error + Row)
  : error + Row :=
  match attempt with
  | inr r => inr r
  | inl e => inl (DatabaseError message (code_of e))
  end.

Definition updateUserTier (d : driver) (userId : string) : error + Row :=
  rethrow_as_database "Failed to update user tier"
    (first_user_row d tier_text [VStr userId] userId).

Definition earnings_text : string :=
  nl ++ "      UPDATE users " ++
  nl ++ "      SET total_earnings = total_earnings + $2" ++
  nl ++ "      WHERE id = $1" ++
  nl ++ "      RETURNING *" ++
  nl ++ "    ".

Definition updateEarnings (d : driver) (userId : string) (amount : value)
  : error + Row :=
  rethrow_as_database "Failed to update user earnings"
    (first_user_row d earnings_text [VStr userId; amount] userId).

End UserOps.


(** *** Callbacks of a transaction *)
Module Callbacks.


(** A callback that leaves the transaction it runs in open and the
    committed rows alone. *)
Definition stays_in_tx {A : Type} (cb : M A) : Prop :=
  forall s w,
    tx s = Some w ->
    committed (snd (cb s)) = committed s
    /\ exists w', tx (snd (cb s)) = Some w'.


End Callbacks.


(** *** The numbering of [search] *)
Module SearchSpec.

(** The next index [search] would write is one past the parameters it has
    collected. *)
Definition aligned (st : search_state) : Prop :=
  s_paramIndex st = S (length (s_params st)).

End SearchSpec.

(** *** The store's reading of placeholders *)
Module Scan.

(** The parameter numbers a statement text refers to, in order: each [$]
    followed by digits (PostgreSQL's [$n]). *)
Fixpoint placeholders_of (s : string) : list nat :=
  match s with
  | EmptyString => []
  | String c rest =>
      if Ascii.eqb c "$"%char then
        match Facade.read_digits rest None with
        | Some z => Z.to_nat z :: placeholders_of rest
        | None => placeholders_of rest
        end
      else placeholders_of rest
  end.

(** A text that does not go on with a digit. *)
Definition ends_number (s : string) : bool :=
  match s with
  | String c _ => negb (Facade.is_digit c)
  | EmptyString => true
  end.

(** Field names without [$]. *)
Definition plain_keys (filters : FilterOptions) : Prop :=
  Forall (fun kv => includes (fst kv) "$"%char = false) filters.

End Scan.

(** *** Requests the route accepts *)
Module Requests.

(** A text of ASCII characters: one byte is one character, and folding
    the letters A-Z is all that a case-insensitive comparison does. *)
Definition ascii_text (s : string) : Prop :=
  Forall (fun c => nat_of_ascii c < 128) (list_ascii_of_string s).

Definition ascii_row (r : submission) : Prop :=
  ascii_text (submitted_product_name r) /\ ascii_text (submitted_brand r).

(** The request passes the validators of the route, with a name and a
    brand of ASCII characters. *)
Definition well_formed (req : request) : Prop :=
  ascii_text (product_name req)
  /\ ascii_text (Submissions.brand req)
  /\ 2 <= String.length (product_name req)
  /\ 2 <= String.length (Submissions.brand req)
  /\ optional_fields_valid req = true.


(** A store that takes the INSERT and fails the UPDATE of the counter. *)
Definition update_failing : acceptance :=
  {| select_answered := fun _ => true;
     insert_accepted := fun _ _ => true;
     update_accepted := fun _ _ => false |}.


End Requests.


(* ===================================================================== *)
(** ** The submission route: GET /my-submissions                          *)
(* ===================================================================== *)

Module MySubmissions.

(** *** [parseInt(string)], called without a radix

    A string is the UTF-8 text of the JavaScript string.  Leading white
    space is skipped (the ASCII blanks and line ends, and U+00A0, U+1680,
    U+2000 to U+200A, U+2028, U+2029, U+202F, U+205F, U+3000, U+FEFF), then
    a sign; a [0x] or [0X] that follows makes the base 16, any other
    start base 10; the longest run of digits of that base is read and
    rounded to the nearest number; no digit gives [NaN]. *)

Definition wide_space (b1 b2 b3 : nat) : bool :=
  (Nat.eqb b1 225 && Nat.eqb b2 154 && Nat.eqb b3 128)
  || (Nat.eqb b1 226 && Nat.eqb b2 128
      && ((Nat.leb 128 b3 && Nat.leb b3 138)
          || Nat.eqb b3 168 || Nat.eqb b3 169 || Nat.eqb b3 175))
  || (Nat.eqb b1 226 && Nat.eqb b2 129 && Nat.eqb b3 159)
  || (Nat.eqb b1 227 && Nat.eqb b2 128 && Nat.eqb b3 128)
  || (Nat.eqb b1 239 && Nat.eqb b2 187 && Nat.eqb b3 191).

Fixpoint trim_start (s : string) : string :=
  match s with
  | String c1 r1 =>
      if Facade.is_space c1 then trim_start r1
      else
        match r1 with
        | String c2 r2 =>
            if Nat.eqb (nat_of_ascii c1) 194 && Nat.eqb (nat_of_ascii c2) 160
            then trim_start r2
            else
              match r2 with
              | String c3 r3 =>
                  if wide_space (nat_of_ascii c1) (nat_of_ascii c2)
                                (nat_of_ascii c3)
                  then trim_start r3
                  else s
              | EmptyString => s
              end
        | EmptyString => s
        end
  | EmptyString => s
  end.

Definition hex_value (c : ascii) : option Z :=
  let n := nat_of_ascii c in
  if Nat.leb 48 n && Nat.leb n 57 then Some (Z.of_nat (n - 48))
  else if Nat.leb 97 n && Nat.leb n 102 then Some (Z.of_nat (n - 87))
  else if Nat.leb 65 n && Nat.leb n 70 then Some (Z.of_nat (n - 55))
  else None.

(** The longest run of hexadecimal digits at the head of [s]. *)
Fixpoint read_hex (s : string) (acc : option Z) : option Z :=
  match s with
  | String c rest =>
      match hex_value c with
      | Some d =>
          read_hex rest
            (Some (16 * match acc with Some a => a | None => 0 end + d)%Z)
      | None => acc
      end
  | EmptyString => acc
  end.

Definition parseInt (s : string) : Float64.number :=
  let t := trim_start s in
  let negative := match t with String "-"%char _ => true | _ => false end in
  let t := match t with
           | String "-"%char r => r
           | String "+"%char r => r
           | _ => t
           end in
  let digits :=
    match t with
    | String "0"%char (String "x"%char r) => read_hex r None
    | String "0"%char (String "X"%char r) => read_hex r None
    | _ => Facade.read_digits t None
    end in
  match digits with
  | Some z => Float64.of_Z (if negative then (- z)%Z else z)
  | None => Float64.NaN
  end.

(** [const { page = '1', limit = '20', status } = req.query] *)
Definition or_default (o : option string) (dflt : string) : string :=
  match o with
  | Some s => s
  | None => dflt
  end.

Record statements := {
  listText : string;
  listParams : list value;
  totalText : string;
  totalParams : list value
}.

Definition build (userId : string) (page limit status : option string)
  : statements :=
  let page := or_default page "1" in
  let limit := or_default limit "20" in
  let offset :=
    Float64.mul (Float64.sub (parseInt page) (Float64.of_Z 1))
                (parseInt limit) in
  let whereClause := "WHERE user_id = $1" in
  let ps := [VStr userId] in
  let paramIndex := 2 in
  let '(whereClause, ps, paramIndex) :=
    match status with
    | Some s =>
        if truthy_str (Some s)
        then (whereClause ++ " AND status = " ++ placeholder paramIndex,
              push ps [VStr s], paramIndex + 1)
        else (whereClause, ps, paramIndex)
    | None => (whereClause, ps, paramIndex)
    end in
  {| listText :=
       nl ++ "      SELECT " ++
       nl ++ "        id, submitted_product_name, submitted_brand, submitted_category," ++
       nl ++ "        status, ai_confidence_score, base_reward, bonus_reward, total_reward," ++
       nl ++ "        reward_status, store_name, purchase_price, created_at, reviewed_at" ++
       nl ++ "      FROM npd_submissions" ++
       nl ++ "      " ++ whereClause ++
       nl ++ "      ORDER BY created_at DESC" ++
       nl ++ "      LIMIT " ++ placeholder paramIndex ++
             " OFFSET " ++ placeholder (paramIndex + 1) ++
       nl ++ "    ";
     listParams := push ps [num (parseInt limit); num offset];
     totalText :=
       nl ++ "      SELECT COUNT(*) as total" ++
       nl ++ "      FROM npd_submissions" ++
       nl ++ "      " ++ whereClause ++
       nl ++ "    ";
     totalParams := ps |}.

(** The [pagination] object of the answer, for a non-zero [limit] (with
    [limit = 0] the quotient is not a number of pages). *)
Record pagination := {
  currentPage : Z;
  totalPages : Z;
  totalItems : Z;
  itemsPerPage : Z;
  hasNextPage : bool;
  hasPreviousPage : bool
}.

Definition paging (page limit total : Z) : option pagination :=
  if (limit =? 0)%Z then None
  else
    let totalPages := Qceiling (inject_Z total / inject_Z limit) in
    Some {| currentPage := page;
            totalPages := totalPages;
            totalItems := total;
            itemsPerPage := limit;
            hasNextPage := (page <? totalPages)%Z;
            hasPreviousPage := (1 <? page)%Z |}.

End MySubmissions.

(** *** Tier order *)
Module TierFacts.

Import Tiers.

(** The position of a tier on the ladder. *)
Definition rank (t : user_tier) : nat :=
  match t with
  | bronze => 0
  | silver => 1
  | gold => 2
  | platinum => 3
  | diamond => 4
  end.

End TierFacts.


(* ===================================================================== *)
(** ** Callers of [find]                                                  *)
(* ===================================================================== *)

Module Callers.

(** ProductRepository.ts, [getRecentNPDProducts(limit = 20)]: the
    statements its [find] sends. *)
Definition getRecentNPDProducts (limit : option Z) : find_statements :=
  let limit := match limit with Some l => l | None => 20%Z end in
  find "products" "id"
       [("is_npd", VBool true); ("verification_status", VStr "verified")]
       [{| field := "discovery_date"; direction := "DESC" |}]
       {| page := None; QueryBuilder.limit := Some limit; offset := None |}.

(** ProductRepository.ts, [getProductsByDiscoverer(userId)]. *)
Definition getProductsByDiscoverer (userId : string) : find_statements :=
  find "products" "id"
       [("first_discovered_by", VStr userId); ("is_npd", VBool true)]
       [{| field := "discovery_date"; direction := "DESC" |}]
       {| page := None; QueryBuilder.limit := None; offset := None |}.

(** UserRepository.ts, [getUsersByTier(tier)]. *)
Definition getUsersByTier (tier : string) : find_statements :=
  find "users" "id"
       [("user_tier", VStr tier); ("is_active", VBool true)]
       [{| field := "quality_score"; direction := "DESC" |}]
       {| page := None; QueryBuilder.limit := None; offset := None |}.

(** Names without [$]. *)
Definition plain_name (name : string) : Prop := includes name "$"%char = false.

End Callers.

(** *** Texts without pattern characters *)
Module Patterns.

Definition special (c : ascii) : bool :=
  Ascii.eqb c "%"%char || Ascii.eqb c "_"%char || Ascii.eqb c "\"%char.

(** A text in which ILIKE finds no wildcard and no escape. *)
Definition literal (s : string) : Prop :=
  Forall (fun c => special c = false) (list_ascii_of_string s).

(** A text of two or more characters, all of them [%]. *)
Definition wildcards (s : string) : Prop :=
  2 <= String.length s
  /\ Forall (fun c => c = "%"%char) (list_ascii_of_string s).

End Patterns.

(* ===================================================================== *)
(** * Properties                                                          *)
(* ===================================================================== *)

(** ** Binary64 arithmetic *)

Module Float64Facts.

Import Float64.
Local Open Scope Z_scope.

Lemma bits_nonneg (a : Z) : 0 <= bits a.
Proof.
  unfold bits. destruct (Z.leb_spec a 0); [lia |].
  pose proof (Z.log2_nonneg a). lia.
Qed.

Lemma bits_below (a n : Z) : 0 <= n -> a < 2 ^ n -> bits a <= n.
Proof.
  intros Hn Ha. unfold bits. destruct (Z.leb_spec a 0); [lia |].
  assert (Z.log2 a < n) by (apply Z.log2_lt_pow2; lia). lia.
Qed.

Lemma bits_spec (a : Z) : 0 < a -> 2 ^ (bits a - 1) <= a < 2 ^ bits a.
Proof.
  intros Ha. unfold bits. destruct (Z.leb_spec a 0); [lia |].
  replace (Z.log2 a + 1 - 1) with (Z.log2 a) by lia.
  replace (Z.log2 a + 1) with (Z.succ (Z.log2 a)) by lia.
  apply Z.log2_spec. exact Ha.
Qed.

Lemma shift_round_between (a s : Z) :
  0 < s -> a / 2 ^ s <= shift_round a s <= a / 2 ^ s + 1.
Proof.
  intros Hs. unfold shift_round.
  destruct (_ <? _); [lia |]. destruct (_ <? _); [lia |].
  destruct (Z.even _); lia.
Qed.

(** Rounding never crosses a multiple of the unit it rounds to. *)
Lemma shift_round_le (a s n : Z) :
  0 < s -> a <= n * 2 ^ s -> shift_round a s <= n.
Proof.
  intros Hs Ha.
  assert (Hp : 0 < 2 ^ s) by (apply Z.pow_pos_nonneg; lia).
  assert (Hh : 2 ^ s = 2 * 2 ^ (s - 1)).
  { rewrite <- Z.pow_succ_r by lia. f_equal. lia. }
  assert (Hq : a / 2 ^ s <= n).
  { apply Z.div_le_upper_bound; [exact Hp | lia]. }
  pose proof (Z.div_mod a (2 ^ s) ltac:(lia)) as Hdm.
  pose proof (Z.mod_pos_bound a (2 ^ s) Hp) as Hm.
  unfold shift_round.
  destruct (Z.ltb_spec (a mod 2 ^ s) (2 ^ (s - 1))); [exact Hq |].
  assert (a / 2 ^ s < n) by nia.
  destruct (_ <? _); [lia |]. destruct (Z.even _); lia.
Qed.

Lemma shift_round_ge (a s n : Z) :
  0 < s -> n * 2 ^ s <= a -> n <= shift_round a s.
Proof.
  intros Hs Ha.
  assert (Hp : 0 < 2 ^ s) by (apply Z.pow_pos_nonneg; lia).
  assert (Hq : n <= a / 2 ^ s).
  { apply Z.div_le_lower_bound; [exact Hp | lia]. }
  pose proof (shift_round_between a s Hs). lia.
Qed.

Lemma round_exact (M : Z) :
  Z.abs M < 2 ^ 53 -> round M 0 = Fin {| mant := M; expo := 0 |}.
Proof.
  intros HM. unfold round.
  pose proof (bits_below (Z.abs M) 53 ltac:(lia) HM) as Hb.
  pose proof (bits_nonneg (Z.abs M)) as Hb0.
  replace (Z.max (bits (Z.abs M) - 53) (-1074 - 0) <=? 0) with true
    by (symmetry; apply Z.leb_le; lia).
  replace (1024 <? bits (Z.abs M) + 0) with false
    by (symmetry; apply Z.ltb_ge; lia).
  rewrite andb_false_r. do 2 f_equal. destruct M; reflexivity.
Qed.

Lemma round_mant_pos (a E : Z) :
  0 < a -> 0 <= E ->
  let s := Z.max (bits a - 53) (-1074 - E) in
  0 < (if s <=? 0 then a else shift_round a s)
  /\ 0 <= (if s <=? 0 then E else E + s).
Proof.
  intros Ha HE s.
  destruct (Z.leb_spec s 0) as [Hs | Hs]; [lia |].
  assert (Hs' : s = bits a - 53) by lia.
  split; [| lia].
  apply Z.lt_le_trans with (2 ^ 52); [reflexivity |].
  apply shift_round_ge; [exact Hs |].
  rewrite <- Z.pow_add_r by lia.
  replace (52 + s) with (bits a - 1) by lia.
  apply bits_spec. exact Ha.
Qed.

Lemma round_positive (M E : Z) : 0 < M -> 0 <= E -> positive (round M E).
Proof.
  intros HM HE. unfold round.
  replace (Z.abs M) with M by lia.
  pose proof (round_mant_pos M E HM HE) as [Hm He]. cbv zeta in Hm, He.
  destruct (_ && _).
  - cbn [positive]. apply Z.ltb_ge. lia.
  - cbn [positive mant expo]. rewrite (Z.sgn_pos M HM). lia.
Qed.

Lemma round_negative (M E : Z) : M < 0 -> 0 <= E -> negative (round M E).
Proof.
  intros HM HE. unfold round.
  pose proof (round_mant_pos (Z.abs M) E ltac:(lia) HE) as [Hm He].
  cbv zeta in Hm, He.
  destruct (_ && _).
  - cbn [negative]. apply Z.ltb_lt. lia.
  - cbn [negative mant expo]. rewrite (Z.sgn_neg M HM). lia.
Qed.

Lemma floor_round_bounds (a e lo hi : Z) :
  0 <= a -> e < 0 -> hi < 2 ^ 53 ->
  lo * 2 ^ (- e) <= a -> a <= hi * 2 ^ (- e) ->
  exists z, floor (round a e) = Fin {| mant := z; expo := 0 |}
            /\ lo <= z <= hi.
Proof.
  intros Ha He Hhi Hlo Hup.
  set (t := - e) in *.
  assert (Ht : 0 < t) by lia.
  assert (Hpt : 0 < 2 ^ t) by (apply Z.pow_pos_nonneg; lia).
  assert (Hbits : bits a <= 53 + t).
  { apply bits_below; [lia |]. rewrite Z.pow_add_r by lia. nia. }
  pose proof (bits_nonneg a) as Hb0.
  unfold round. rewrite (Z.abs_eq a Ha).
  set (s := Z.max (bits a - 53) (-1074 - e)).
  assert (Hst : s <= t) by (unfold s; lia).
  destruct (Z.leb_spec s 0) as [Hs | Hs].
  - replace ((0 <? a) && (1024 <? bits a + e)) with false
      by (symmetry; apply andb_false_iff; right; apply Z.ltb_ge; lia).
    assert (Hsg : Z.sgn a * a = a) by (destruct a; cbn; lia).
    rewrite Hsg. unfold floor. cbn [mant expo].
    replace (0 <=? e) with false by (symmetry; apply Z.leb_gt; lia).
    eexists; split; [reflexivity |]. fold t. split.
    + apply Z.div_le_lower_bound; lia.
    + apply Z.div_le_upper_bound; lia.
  - set (m := shift_round a s).
    assert (Hpd : 0 < 2 ^ (t - s)) by (apply Z.pow_pos_nonneg; lia).
    assert (Hsplit : 2 ^ t = 2 ^ (t - s) * 2 ^ s).
    { rewrite <- Z.pow_add_r by lia. f_equal. lia. }
    assert (Hm1 : lo * 2 ^ (t - s) <= m).
    { apply shift_round_ge; [exact Hs |]. rewrite Hsplit in Hlo. lia. }
    assert (Hm2 : m <= hi * 2 ^ (t - s)).
    { apply shift_round_le; [exact Hs |]. rewrite Hsplit in Hup. lia. }
    assert (Hm0 : 0 <= m).
    { apply shift_round_ge; [exact Hs | lia]. }
    assert (Hbm : bits m <= 53 + (t - s)).
    { apply bits_below; [lia |]. rewrite Z.pow_add_r by lia. nia. }
    replace ((0 <? m) && (1024 <? bits m + (e + s))) with false
      by (symmetry; apply andb_false_iff; right; apply Z.ltb_ge; lia).
    assert (Hsg : Z.sgn a * m = m).
    { destruct (Z.eq_dec a 0) as [-> | Hne].
      - unfold m, shift_round. rewrite Z.div_0_l, Z.mod_0_l by lia.
        replace (0 <? 2 ^ (s - 1)) with true; [reflexivity |].
        symmetry. apply Z.ltb_lt. apply Z.pow_pos_nonneg; lia.
      - rewrite Z.sgn_pos by lia. lia. }
    rewrite Hsg. unfold floor. cbn [mant expo].
    destruct (Z.leb_spec 0 (e + s)) as [H0 | H0].
    + assert (Hts : t - s = 0) by lia. rewrite Hts in *.
      replace (e + s) with 0 by lia.
      eexists; split; [reflexivity |]. cbn. lia.
    + replace (- (e + s)) with (t - s) by lia.
      eexists; split; [reflexivity |]. split.
      * apply Z.div_le_lower_bound; lia.
      * apply Z.div_le_upper_bound; lia.
Qed.

Lemma of_Z_50 : of_Z 50 = Fin {| mant := 50; expo := 0 |}.
Proof. reflexivity. Qed.

(** [Math.floor(confidence * 50)] for a confidence in [0, 1]. *)
Lemma quality_bonus_bounds (confidence : float) :
  le zero confidence -> le confidence one ->
  exists z, floor (mul (Fin confidence) (of_Z 50))
            = Fin {| mant := z; expo := 0 |}
            /\ 0 <= z <= 50
            /\ (z = exact_floor_times 50 confidence
                \/ z = exact_floor_times 50 confidence + 1).
Proof.
  destruct confidence as [m e]. unfold le, zero, one. cbn [mant expo].
  intros H0 H1. rewrite of_Z_50. unfold mul, exact_floor_times. cbn [mant expo].
  rewrite Z.add_0_r.
  destruct (Z.leb_spec 0 e) as [He | He].
  - rewrite Z.min_l in H0 by lia. rewrite Z.min_r in H1 by lia.
    rewrite Z.sub_0_r in *. cbn in H0, H1.
    assert (Hp : 0 < 2 ^ e) by (apply Z.pow_pos_nonneg; lia).
    assert (Hm : m = 0 \/ (m = 1 /\ e = 0)).
    { assert (0 <= m) by nia. assert (m <= 1) by nia.
      destruct (Z.eq_dec m 0); [left; lia | right].
      split; [lia |]. assert (m = 1) by lia. subst m.
      destruct (Z.eq_dec e 0); [assumption |].
      assert (2 ^ 1 <= 2 ^ e) by (apply Z.pow_le_mono_r; lia).
      change (2 ^ 1) with 2 in *. lia. }
    destruct Hm as [-> | [-> ->]].
    + exists 0. unfold round. cbn [Z.mul Z.abs bits Z.leb Z.compare].
      replace (Z.max (0 - 53) (-1074 - e) <=? 0) with true
        by (symmetry; apply Z.leb_le; lia).
      cbn [Z.ltb Z.compare andb Z.sgn Z.mul floor mant expo].
      replace (0 <=? e) with true by (symmetry; apply Z.leb_le; lia).
      cbn. split; [reflexivity |]. split; [lia |]. left. reflexivity.
    + exists 50. vm_compute. split; [reflexivity |].
      split; [split; discriminate |]. left. reflexivity.
  - rewrite Z.min_r in H0 by lia. rewrite Z.min_l in H1 by lia.
    rewrite Z.sub_diag in *. replace (0 - e) with (- e) in * by lia.
    cbn in H0. rewrite Z.mul_1_r, Z.mul_1_l in *.
    assert (Hp : 0 < 2 ^ (- e)) by (apply Z.pow_pos_nonneg; lia).
    assert (Hm0 : 0 <= m) by lia.
    set (F := (50 * m) / 2 ^ (- e)).
    assert (HF0 : 0 <= F) by (apply Z.div_pos; lia).
    assert (HF50 : F <= 50) by (apply Z.div_le_upper_bound; lia).
    pose proof (Z.mul_div_le (50 * m) (2 ^ (- e)) Hp) as Hlo.
    pose proof (Z.mul_succ_div_gt (50 * m) (2 ^ (- e)) Hp) as Hhi.
    fold F in Hlo, Hhi.
    destruct (floor_round_bounds (m * 50) e F (F + 1)) as [z [Hz Hb]];
      try lia.
    destruct (floor_round_bounds (m * 50) e 0 50) as [z' [Hz' Hb']];
      try lia.
    rewrite Hz in Hz'. injection Hz' as <-.
    exists z. split; [exact Hz |]. split; [lia |]. lia.
Qed.

(** Binary64 arithmetic is exact on integers below [2^53]. *)
Lemma page_offset_exact (p l : Z) :
  safe p -> safe (p - 1) -> safe l -> safe ((p - 1) * l) ->
  page_offset p l = VNum ((p - 1) * l).
Proof.
  unfold safe. intros Hp Hp1 Hl Hpl. unfold page_offset, of_Z.
  rewrite (round_exact p Hp), (round_exact l Hl), (round_exact 1 eq_refl).
  unfold sub, neg, add. cbn [mant expo Z.min Z.compare Z.sub Z.opp Z.add].
  change (2 ^ 0) with 1. rewrite !Z.mul_1_r.
  replace (p + -1) with (p - 1) by lia.
  rewrite (round_exact (p - 1) Hp1). unfold mul. cbn [mant expo Z.add].
  rewrite (round_exact ((p - 1) * l) Hpl).
  unfold num, integral. cbn [mant expo Z.leb Z.compare].
  change (2 ^ 0) with 1. rewrite Z.mul_1_r. reflexivity.
Qed.

Lemma sub_one_negative (x : number) :
  negative x -> negative (sub x (of_Z 1)).
Proof.
  rewrite (round_exact 1 eq_refl : of_Z 1 = _).
  destruct x as [[m e] | s |]; cbn [negative mant expo]; [| | tauto].
  - intros [Hm He]. unfold sub, neg, add. cbn [mant expo].
    rewrite Z.min_r by lia. rewrite Z.sub_0_r.
    apply round_negative; [| lia].
    assert (0 < 2 ^ e) by (apply Z.pow_pos_nonneg; lia).
    change (2 ^ (0 - 0)) with 1. nia.
  - intros ->. reflexivity.
Qed.

Lemma mul_negative_positive (x y : number) :
  negative x -> positive y -> negative (mul x y).
Proof.
  destruct x as [[m e] | s |], y as [[m' e'] | s' |];
    cbn [negative positive mant expo]; try tauto.
  - intros [Hm He] [Hm' He']. unfold mul. cbn [mant expo].
    apply round_negative; [nia | lia].
  - intros [Hm He] ->. unfold mul. cbn [mant expo].
    destruct (Z.eqb_spec m 0); [lia |].
    destruct (Z.ltb_spec m 0); [reflexivity | lia].
  - intros -> [Hm' He']. unfold mul. cbn [mant expo].
    destruct (Z.eqb_spec m' 0); [lia |].
    destruct (Z.ltb_spec m' 0); [lia | reflexivity].
  - intros -> ->. reflexivity.
Qed.

(** A negative page gives a negative offset, or no finite one. *)
Lemma page_offset_negative (p l : Z) :
  p < 0 -> 0 < l ->
  (exists z, page_offset p l = VNum z /\ z < 0)
  \/ (exists n, page_offset p l = VNumber n).
Proof.
  intros Hp Hl. unfold page_offset.
  pose proof (mul_negative_positive _ _
                (sub_one_negative _ (round_negative p 0 Hp (Z.le_refl 0)))
                (round_positive l 0 Hl (Z.le_refl 0))) as H.
  fold (of_Z p) in H. fold (of_Z l) in H.
  destruct (mul (sub (of_Z p) (of_Z 1)) (of_Z l)) as [[m e] | s |];
    cbn [negative mant expo] in H; [| | contradiction].
  - destruct H as [Hm He]. left. unfold num, integral. cbn [mant expo].
    destruct (Z.leb_spec 0 e); [| lia].
    eexists; split; [reflexivity |].
    assert (0 < 2 ^ e) by (apply Z.pow_pos_nonneg; lia). nia.
  - right. eexists. reflexivity.
Qed.

(** Known values of binary64 arithmetic: 0.1 + 0.2 and 0.1 * 3 are both
    0.30000000000000004, which is not the number the literal 0.3 denotes;
    2^53 + 1 is not a number and reads as 2^53; the largest number doubled
    is infinite; the smallest positive number halved is 0. *)
Example binary64_samples :
  add (literal 1 10) (literal 2 10)
  = Fin {| mant := 5404319552844596; expo := -54 |}
  /\ mul (literal 1 10) (of_Z 3)
     = Fin {| mant := 5404319552844596; expo := -54 |}
  /\ literal 3 10 = Fin {| mant := 5404319552844595; expo := -54 |}
  /\ of_Z (2 ^ 53 + 1) = Fin {| mant := 2 ^ 52; expo := 1 |}
  /\ mul (Fin {| mant := 2 ^ 53 - 1; expo := 971 |}) (of_Z 2) = Inf false
  /\ mul (Fin {| mant := 1; expo := -1074 |}) (literal 5 10)
     = Fin {| mant := 0; expo := -1074 |}
  /\ floor (literal (-0 + 7) 2) = Fin {| mant := 3; expo := 0 |}
  /\ floor (neg (literal 7 2)) = Fin {| mant := -4; expo := 0 |}.
Proof. repeat split; vm_compute; reflexivity. Qed.

End Float64Facts.

(** ** The WHERE builder *)

Section WhereBuilder.

(** The loop invariant of [buildWhereClause]: started from any state, the
    loop appends the specification's conditions, numbered from the
    state's index, and the values they bind. *)
Lemma where_loop_spec (filters : FilterOptions) :
  forall st,
    let st' := fold_left where_step filters st in
    conditions st' = (conditions st ++ spec_conditions filters (paramIndex st))%list
    /\ acc_params st' = (acc_params st ++ spec_params filters)%list
    /\ paramIndex st' = paramIndex st + length (spec_params filters).
Proof.
  induction filters as [| [key v] rest IH]; intros st; cbn zeta.
  - cbn. rewrite !app_nil_r. repeat split; lia.
  - cbn [fold_left].
    destruct (IH (where_step st (key, v))) as (Hc & Hp & Hi).
    rewrite Hc, Hp, Hi. clear IH Hc Hp Hi.
    unfold spec_params. cbn [flat_map snd spec_conditions].
    rewrite length_app.
    destruct v as [ | | b | z | s | t | vs | n ];
      cbn [where_step present bound_values length Nat.add];
      unfold spec_condition, is_wildcard_string, in_condition, ilike_condition,
        eq_condition;
      try destruct (includes s "%");
      unfold push_condition, push;
      cbn [conditions acc_params paramIndex length];
      rewrite <- ?app_assoc; cbn [app];
      repeat split; try reflexivity; lia.
Qed.

End WhereBuilder.

(** C8. [buildWhereClause] translates each present filter value by its
    shape: a list becomes an [IN] condition with exactly one placeholder per
    element, a string holding the wildcard marker ['%'] becomes an [ILIKE]
    condition, anything else an equality; the conditions are numbered in
    the order of the bound values, joined with [AND] behind [WHERE], and no
    present filter gives the empty clause. *)
Theorem buildWhereClause_shapes (filters : FilterOptions) :
  clause (buildWhereClause filters) =
    match spec_conditions filters 1 with
    | [] => ""
    | conds => "WHERE " ++ join " AND " conds
    end
  /\ params (buildWhereClause filters) = spec_params filters
  /\ (forall key vs first,
        spec_condition key (VArr vs) first =
          key ++ " IN (" ++ join ", " (map placeholder (seq first (length vs))) ++ ")"
        /\ length (map placeholder (seq first (length vs))) = length vs)
  /\ (forall key s first,
        spec_condition key (VStr s) first =
          key ++ (if includes s "%" then " ILIKE " else " = ") ++ placeholder first)
  /\ (forall key first b z t,
        spec_condition key (VBool b) first = key ++ " = " ++ placeholder first
        /\ spec_condition key (VNum z) first = key ++ " = " ++ placeholder first
        /\ spec_condition key (VDate t) first = key ++ " = " ++ placeholder first)
  /\ clause (buildWhereClause []) = "".
Proof.
  destruct (where_loop_spec filters where_init) as (Hc & Hp & _).
  cbn zeta in Hc, Hp. cbn [where_init conditions acc_params paramIndex app] in Hc, Hp.
  split; [| split; [| split; [| split; [| split]]]].
  - unfold buildWhereClause. cbn [clause]. rewrite Hc.
    destruct (spec_conditions filters 1); reflexivity.
  - unfold buildWhereClause. cbn [params]. exact Hp.
  - intros key vs first. split; [reflexivity |].
    rewrite length_map, length_seq. reflexivity.
  - intros key s first.
    unfold spec_condition, is_wildcard_string, ilike_condition, eq_condition.
    destruct (includes s "%"); reflexivity.
  - intros key first b z t. repeat split.
  - reflexivity.
Qed.

(** The clause text depends on the keys and on the shapes of the values
    only: no value finds its way into the text. *)
Lemma spec_conditions_by_shape (f g : FilterOptions) :
  Forall2 same_shape f g ->
  forall first, spec_conditions f first = spec_conditions g first.
Proof.
  induction 1 as [| [k1 v1] [k2 v2] f g [Hk Hs] _ IH]; intros first;
    [reflexivity |].
  cbn in Hk, Hs. subst k2. cbn [spec_conditions].
  assert (Hp : present v1 = present v2).
  { destruct v1, v2; cbn in Hs |- *; try reflexivity; try discriminate Hs;
      repeat match type of Hs with
             | context [if ?b then _ else _] => destruct b
             end; discriminate Hs. }
  assert (Hn : length (bound_values v1) = length (bound_values v2)).
  { destruct v1, v2; cbn in Hs |- *; try reflexivity; try discriminate Hs;
      repeat match type of Hs with
             | context [if ?b then _ else _] => destruct b
             end; try discriminate Hs.
    injection Hs as Hs. exact Hs. }
  assert (Hc : present v1 = true ->
               spec_condition k1 v1 first = spec_condition k1 v2 first).
  { intros _. unfold spec_condition.
    destruct v1, v2; cbn in Hs |- *; try reflexivity; try discriminate Hs;
      repeat match type of Hs with
             | context [if ?b then _ else _] => destruct b eqn:?
             end; try discriminate Hs; try reflexivity.
    injection Hs as ->. reflexivity. }
  rewrite <- Hp, <- Hn. destruct (present v1); [| apply IH].
  rewrite (Hc eq_refl), IH. reflexivity.
Qed.

(** Filter maps of the same keys and value shapes give the same text. *)
Lemma buildWhereClause_text_by_shape (f g : FilterOptions) :
  Forall2 same_shape f g ->
  clause (buildWhereClause f) = clause (buildWhereClause g).
Proof.
  intros H.
  destruct (where_loop_spec f where_init) as (Hf & _).
  destruct (where_loop_spec g where_init) as (Hg & _).
  cbn zeta in Hf, Hg. unfold buildWhereClause. cbn [clause].
  rewrite Hf, Hg. cbn [where_init conditions paramIndex app].
  rewrite (spec_conditions_by_shape f g H 1). reflexivity.
Qed.

(** A worked instance: a list, a wildcard string, an absent value and a
    plain value. *)
Example buildWhereClause_sample :
  buildWhereClause
    [("brand", VArr [VStr "ABC"; VStr "XYZ"]); ("name", VStr "%choco%");
     ("sku", VNull); ("is_npd", VBool true)]
  = {| clause := "WHERE brand IN ($1, $2) AND name ILIKE $3 AND is_npd = $4";
       params := [VStr "ABC"; VStr "XYZ"; VStr "%choco%"; VBool true] |}.
Proof. reflexivity. Qed.

(** ** Pagination *)

Example paginate_page2 :
  paginate {| page := Some 2%Z; limit := Some 3%Z; offset := None |}
           [0; 1; 2; 3; 4; 5; 6; 7; 8; 9] = Some [3; 4; 5].
Proof. reflexivity. Qed.

Lemma buildLimitClause_both (pg : PaginationOptions) (l off : Z) :
  limit pg = Some l -> l <> 0%Z -> code_offset pg off ->
  buildLimitClause pg =
    {| clause := " LIMIT $1 OFFSET $2"; params := [VNum l; VNum off] |}.
Proof.
  intros Hl Hl0 Hoff. unfold buildLimitClause.
  assert (Htl : truthy (limit pg) = Some l).
  { unfold truthy. rewrite Hl. destruct (Z.eqb_spec l 0); [contradiction | reflexivity]. }
  rewrite Htl.
  destruct Hoff as [o Ho Ho0 | p l' Ho Hp Hp0 Hl' Hl'0 Sp Sl Spl].
  - unfold truthy at 1. rewrite Ho.
    destruct (Z.eqb_spec o 0); [contradiction | reflexivity].
  - rewrite Ho. rewrite Hl in Hl'. injection Hl' as <-.
    unfold truthy at 1. rewrite Hp.
    destruct (Z.eqb_spec p 0); [contradiction |].
    assert (Sp1 : Float64.safe (p - 1)).
    { unfold Float64.safe in *. nia. }
    rewrite (Float64Facts.page_offset_exact p l Sp Sp1 Sl Spl). reflexivity.
Qed.

(** C7 (amended). For integral numbers below [2^53] in absolute value:
    with a non-zero limit [l], [buildLimitClause] binds
    [LIMIT $1 OFFSET $2] to [l] and to the explicit offset when that is
    given and non-zero, and otherwise to [(page-1)*limit] when page and
    limit are both given and non-zero (the product is computed in binary64
    arithmetic, which is exact on these numbers).  Run with these
    parameters over the full ordered result set, the clause is refused by
    the store when the limit or the offset is negative, and otherwise
    yields the contiguous slice that starts at that offset, of at most
    [l] rows. *)
Theorem buildLimitClause_slice (A : Type) (rows : list A)
        (pg : PaginationOptions) (l off : Z) :
  limit pg = Some l -> l <> 0%Z -> Float64.safe l ->
  code_offset pg off -> Float64.safe off ->
  buildLimitClause pg =
    {| clause := " LIMIT $1 OFFSET $2"; params := [VNum l; VNum off] |}
  /\ paginate pg rows =
       (if ((l <? 0) || (off <? 0))%Z then None
        else Some (slice off l rows))
  /\ length (slice off l rows) <= Z.to_nat l.
Proof.
  intros Hl Hl0 _ Hoff _.
  assert (Hb := buildLimitClause_both pg l off Hl Hl0 Hoff).
  split; [exact Hb |]. split.
  - unfold paginate, run_limit_clause. rewrite Hb.
    cbn -[apply_window]. unfold apply_window, slice. cbn [w_offset w_limit].
    destruct (Z.ltb_spec off 0); [rewrite orb_true_r; reflexivity |].
    rewrite orb_false_r. destruct (Z.ltb_spec l 0); reflexivity.
  - unfold slice. rewrite length_firstn. lia.
Qed.

Lemma buildLimitClause_slice_witness :
  paginate {| page := Some 2%Z; limit := Some 3%Z; offset := None |}
           [0; 1; 2; 3; 4; 5; 6; 7; 8; 9] = Some [3; 4; 5].
Proof.
  refine (proj1 (proj2 (buildLimitClause_slice nat [0; 1; 2; 3; 4; 5; 6; 7; 8; 9]
            {| page := Some 2%Z; limit := Some 3%Z; offset := None |}
            3%Z 3%Z eq_refl _ _ _ _))).
  - lia.
  - reflexivity.
  - apply (code_derived {| page := Some 2%Z; limit := Some 3%Z; offset := None |}
             2%Z 3%Z); try reflexivity; lia.
  - reflexivity.
Defined.

(** The derived offset past [2^53]: page 94906268 with limit 94906267
    binds the offset ...288, the binary64 number nearest to the product
    ...289. *)
Example buildLimitClause_rounds_large_offset :
  buildLimitClause
    {| page := Some 94906268%Z; limit := Some 94906267%Z; offset := None |}
  = {| clause := " LIMIT $1 OFFSET $2";
       params := [VNum 94906267; VNum 9007199515875288] |}
  /\ ((94906268 - 1) * 94906267 = 9007199515875289)%Z.
Proof. split; reflexivity. Qed.

(** A negative limit or offset is refused by the store. *)
Example paginate_negative_limit :
  paginate {| page := None; limit := Some (-1)%Z; offset := Some 2%Z |}
           [0; 1; 2; 3] = None.
Proof. reflexivity. Qed.

(** [find] hands the store the filter values followed by the limit and
    offset, while the clause of [buildLimitClause] numbers its placeholders
    from 1: with filters present, [LIMIT $1] names the first filter value. *)
Example find_limit_placeholder_clash :
  let q := find "products" "id"
             [("is_npd", VBool true); ("verification_status", VStr "verified")]
             [{| field := "discovery_date"; direction := "DESC" |}]
             {| page := None; limit := Some 20%Z; offset := None |} in
  dataQuery q =
    nl ++ "      SELECT * FROM products" ++
    nl ++ "      WHERE is_npd = $1 AND verification_status = $2" ++
    nl ++ "      ORDER BY discovery_date DESC" ++
    nl ++ "       LIMIT $1" ++
    nl ++ "    "
  /\ dataParams q = [VBool true; VStr "verified"; VNum 20].
Proof. split; reflexivity. Qed.

(** C7 as stated fails when a given field is zero: an explicit offset of 0
    is passed over in favour of the page-derived one, and a limit of 0
    leaves the result uncut. *)
Lemma buildLimitClause_zero_counterexample :
  ~ paginate_as_stated
      {| page := Some 3%Z; limit := Some 2%Z; offset := Some 0%Z |}
      [0; 1; 2; 3; 4; 5; 6; 7]
  /\ ~ paginate_as_stated
      {| page := Some 1%Z; limit := Some 0%Z; offset := None |}
      [0; 1; 2].
Proof.
  split; intros H.
  - specialize (H 3%Z 2%Z 0%Z eq_refl ltac:(lia) eq_refl ltac:(lia)
                  (stated_explicit
                     {| page := Some 3%Z; limit := Some 2%Z; offset := Some 0%Z |}
                     0%Z eq_refl) ltac:(lia)).
    vm_compute in H. discriminate H.
  - specialize (H 1%Z 0%Z 0%Z eq_refl ltac:(lia) eq_refl ltac:(lia)
                  (stated_derived
                     {| page := Some 1%Z; limit := Some 0%Z; offset := None |}
                     1%Z 0%Z eq_refl eq_refl eq_refl) ltac:(lia)).
    vm_compute in H. discriminate H.
Qed.

(** ** The text [search] sends *)

Section NoPlaceholder.

Let dollar : ascii := "$"%char.

Lemma includes_app (a b : string) (c : ascii) :
  includes (a ++ b) c = includes a c || includes b c.
Proof.
  induction a as [| x a IH]; cbn; [reflexivity |].
  rewrite IH. apply orb_assoc.
Qed.

Lemma includes_digits (d : Decimal.uint) :
  includes (NilEmpty.string_of_uint d) dollar = false.
Proof. induction d; cbn; auto. Qed.

Lemma includes_decimal (n : nat) : includes (decimal n) dollar = false.
Proof. apply includes_digits. Qed.

Lemma includes_join (sep : string) (l : list string) (c : ascii) :
  includes sep c = false ->
  Forall (fun s => includes s c = false) l ->
  includes (join sep l) c = false.
Proof.
  intros Hsep Hl. induction Hl as [| x l Hx Hl IH]; [reflexivity |].
  unfold join in *. cbn [String.concat].
  destruct l as [| y l]; [exact Hx |].
  rewrite !includes_app, Hx, Hsep, IH. reflexivity.
Qed.

Definition dollar_free (st : search_state) : Prop :=
  Forall (fun s => includes s dollar = false) (whereConditions st).

Lemma dollar_free_push (st : search_state) (c : string) ps i :
  dollar_free st -> includes c dollar = false ->
  dollar_free {| whereConditions := push (whereConditions st) [c];
                 s_params := ps; s_paramIndex := i |}.
Proof.
  intros Hst Hc. unfold dollar_free, push in *. cbn [whereConditions].
  apply Forall_app. split; [exact Hst |]. constructor; [exact Hc | constructor].
Qed.

Lemma step_query_dollar_free sf st :
  dollar_free st -> dollar_free (step_query sf st).
Proof.
  intros H. unfold step_query. destruct (ProductSearch.query sf) as [q |]; [| exact H].
  destruct (truthy_str (Some q)); [| exact H].
  apply dollar_free_push; [exact H |].
  unfold fulltext_condition. rewrite !includes_app, includes_decimal.
  reflexivity.
Qed.

Lemma step_in_dollar_free column xs st :
  includes column dollar = false ->
  dollar_free st -> dollar_free (step_in column xs st).
Proof.
  intros Hcol H. unfold step_in. destruct xs as [[| x rest] |]; try exact H.
  apply dollar_free_push; [exact H |].
  rewrite !includes_app, Hcol, includes_join; [reflexivity | reflexivity |].
  apply Forall_map, Forall_forall. intros n _. apply includes_decimal.
Qed.

Lemma step_between_dollar_free column mk r st :
  includes column dollar = false ->
  dollar_free st -> dollar_free (step_between column mk r st).
Proof.
  intros Hcol H. unfold step_between. destruct r as [[lo hi] |]; [| exact H].
  apply dollar_free_push; [exact H |].
  rewrite !includes_app, Hcol, !includes_decimal. reflexivity.
Qed.

Lemma step_flag_dollar_free column b st :
  includes column dollar = false ->
  dollar_free st -> dollar_free (step_flag column b st).
Proof.
  intros Hcol H. unfold step_flag. destruct b as [v |]; [| exact H].
  apply dollar_free_push; [exact H |].
  rewrite !includes_app, Hcol, includes_decimal. reflexivity.
Qed.

(** No condition of [search] mentions a placeholder: the template
    literals write the bare index. *)
Lemma search_where_dollar_free (sf : SearchFilters) :
  includes (where_of (whereConditions (search_where sf))) dollar = false.
Proof.
  assert (H : dollar_free (search_where sf)).
  { unfold search_where.
    repeat first
      [ apply step_between_dollar_free; [reflexivity |]
      | apply step_flag_dollar_free; [reflexivity |]
      | apply step_in_dollar_free; [reflexivity |]
      | apply step_query_dollar_free ].
    constructor. }
  unfold where_of. destruct (whereConditions (search_where sf)) eqn:E;
    [reflexivity |].
  rewrite includes_app, includes_join; [reflexivity | reflexivity |].
  rewrite <- E. exact H.
Qed.

End NoPlaceholder.

(** C1 (the code departs from it). For a brand/category search the text
    that [search] produces carries the bare numbers [1, 2] and
    [LIMIT 3 OFFSET 4] where the placeholders [$1, $2], [$3] and [$4]
    belong, so none of the four bound values is referenced by the text;
    and for every input the WHERE clause of [search] holds no [$] at all.
    [buildWhereClause], on the same two values, numbers its placeholders by
    their position in the parameter list. *)
Theorem search_placeholders_missing :
  let sf := {| ProductSearch.query := None;
               ProductSearch.category := Some ["Snacks"; "Drinks"];
               ProductSearch.brand := None; ProductSearch.country := None;
               ProductSearch.countryOfOrigin := None;
               ProductSearch.priceRange := None; ProductSearch.isRegional := None;
               ProductSearch.verificationStatus := None;
               ProductSearch.dateRange := None; ProductSearch.isNpd := None |} in
  let pg := {| page := Some 2%Z; limit := Some 10%Z; offset := None |} in
  search sf pg =
    {| mainQuery :=
         nl ++ "      SELECT * FROM products" ++
         nl ++ "      WHERE category IN (1, 2)" ++
         nl ++ "      ORDER BY created_at DESC" ++
         nl ++ "      LIMIT 3 OFFSET 4" ++
         nl ++ "    ";
       mainParams := [VStr "Snacks"; VStr "Drinks"; VNum 10; VNum 10];
       countQuery :=
         nl ++ "      SELECT COUNT(*) as total FROM products" ++
         nl ++ "      WHERE category IN (1, 2)" ++
         nl ++ "    ";
       countParams := [VStr "Snacks"; VStr "Drinks"] |}
  /\ (forall sf', includes (where_of (whereConditions (search_where sf'))) "$" = false)
  /\ buildWhereClause [("category", VArr [VStr "Snacks"; VStr "Drinks"])] =
       {| clause := "WHERE category IN ($1, $2)";
          params := [VStr "Snacks"; VStr "Drinks"] |}.
Proof.
  cbv zeta. split; [reflexivity |]. split; [| reflexivity].
  exact search_where_dollar_free.
Qed.

(** ** bulkInsert *)

Section BulkInsert.

Variable rule : table_rule.
Variable tableName : string.

Lemma bulk_text_not_control (item : Row) :
  String.eqb (bulk_text tableName item) "BEGIN" = false
  /\ String.eqb (bulk_text tableName item) "COMMIT" = false
  /\ String.eqb (bulk_text tableName item) "ROLLBACK" = false.
Proof. repeat split; reflexivity. Qed.

(** One insert inside an open transaction. *)
Lemma insert_in_tx (item : Row) (s : session) (w : list Row) :
  tx s = Some w ->
  queryWithClient rule (bulk_text tableName item) (map snd item) s =
    match rule (bulk_text tableName item) (map snd item) w with
    | inl e => (inl (wrap e), log (bulk_text tableName item) s)
    | inr None => (inr no_rows, log (bulk_text tableName item) s)
    | inr (Some row) =>
        (inr {| rows := [row]; rowCount := 1 |},
         {| committed := committed s; tx := Some (push w [row]);
            journal := push (journal s) [bulk_text tableName item] |})
    end.
Proof.
  intros Htx.
  unfold queryWithClient, try_catch, raw_query, client_query.
  destruct (bulk_text_not_control item) as (-> & -> & ->).
  unfold visible, set_visible, log. cbn [tx committed journal]. rewrite Htx.
  destruct (rule _ _ w) as [e | [row |]]; reflexivity.
Qed.

(** The loop of the callback: the committed rows stay as they were, the
    working copy gains the accepted rows, the journal the inserts sent. *)
Lemma bulk_loop_spec (items : list Row) :
  forall (results : list Row) (s : session) (w : list Row),
    tx s = Some w ->
    let out := bulk_loop rule tableName items results s in
    let outcome := accept_all rule tableName items w in
    fst out =
      match outcome with
      | inl e => inl e
      | inr stored => inr (push results stored)
      end
    /\ committed (snd out) = committed s
    /\ (forall stored, outcome = inr stored ->
          tx (snd out) = Some (push w stored))
    /\ (exists w', tx (snd out) = Some w')
    /\ journal (snd out) =
         push (journal s)
              (map (bulk_text tableName)
                   (firstn (attempted rule tableName items w) items)).
Proof.
  induction items as [| item rest IH]; intros results s w Htx; cbn zeta.
  - cbn. unfold push. rewrite !app_nil_r.
    repeat split; eauto. intros stored [= <-]. rewrite app_nil_r. exact Htx.
  - cbn [bulk_loop accept_all attempted]. unfold bind.
    rewrite (insert_in_tx item s w Htx).
    destruct (rule (bulk_text tableName item) (map snd item) w) as [e | [row |]].
    + cbn. repeat split; eauto. discriminate.
    + cbn [rows].
      match goal with
      | |- context [bulk_loop rule tableName rest ?r ?s1] =>
          destruct (IH r s1 (push w [row]) eq_refl) as (H1 & H2 & H3 & H4 & H5)
      end.
      cbn zeta in H1, H2, H3, H4, H5. cbn [committed journal] in H2, H5.
      rewrite H1, H2, H5. clear H1 H2 H5.
      split; [| split; [reflexivity | split; [| split; [exact H4 |]]]].
      * destruct (accept_all rule tableName rest (push w [row])); [reflexivity |].
        unfold push. rewrite <- app_assoc. reflexivity.
      * intros stored Hs.
        destruct (accept_all rule tableName rest (push w [row])) as [e | st];
          [discriminate |].
        injection Hs as <-. rewrite (H3 st eq_refl).
        unfold push. rewrite <- app_assoc. reflexivity.
      * cbn [firstn map]. unfold push. rewrite <- app_assoc. reflexivity.
    + cbn [rows no_rows].
      destruct (IH results (log (bulk_text tableName item) s) w Htx)
        as (H1 & H2 & H3 & H4 & H5).
      cbn zeta in H1, H2, H3, H4, H5. cbn [committed journal log] in H2, H5.
      rewrite H1, H2, H5. clear H1 H2 H5.
      split; [reflexivity | split; [reflexivity | split; [exact H3 | split; [exact H4 |]]]].
      cbn [firstn map]. unfold push. rewrite <- app_assoc. reflexivity.
Qed.

End BulkInsert.

(** C6. [bulkInsert([])] returns the empty list and sends nothing.  A
    non-empty batch runs inside one transaction of the connection: one
    [BEGIN], then the inserts, then [COMMIT] or [ROLLBACK].  Its result is
    the error of the first insert the table refuses, or the rows of all
    items; after an error the committed rows are those from before the call
    (zero rows persisted), after success they are extended by all rows. *)
Theorem bulkInsert_all_or_nothing
        (rule : table_rule) (tableName : string)
        (item : Row) (items : list Row) (s : session) :
  tx s = None ->
  let out := bulkInsert rule tableName (item :: items) s in
  let outcome := accept_all rule tableName (item :: items) (committed s) in
  bulkInsert rule tableName [] s = (inr [], s)
  /\ fst out = outcome
  /\ committed (snd out) = persisted (committed s) outcome
  /\ tx (snd out) = None
  /\ journal (snd out) =
       push (journal s)
            ("BEGIN" ::
             push (map (bulk_text tableName)
                       (firstn (attempted rule tableName (item :: items) (committed s))
                               (item :: items)))
                  [closing outcome]).
Proof.
  intros Htx. cbn zeta. split; [reflexivity |].
  unfold bulkInsert, transaction, try_catch, bind.
  set (s1 := {| committed := committed s; tx := Some (committed s);
                journal := push (journal s) ["BEGIN"] |}).
  assert (Hbegin : raw_query rule "BEGIN" [] s = (inr no_rows, s1)).
  { unfold raw_query, client_query, log. cbn. rewrite Htx. reflexivity. }
  rewrite Hbegin.
  destruct (bulk_loop_spec rule tableName (item :: items) [] s1 (committed s) eq_refl)
    as (H1 & H2 & H3 & (w' & H4) & H5).
  cbn zeta in H1, H2, H3, H5.
  destruct (bulk_loop rule tableName (item :: items) [] s1) as [r s2].
  cbn [fst snd] in H1, H2, H3, H4, H5.
  destruct (accept_all rule tableName (item :: items) (committed s)) as [e | stored].
  - subst r. unfold raw_query, client_query, throw, log. cbn.
    rewrite H2, H5. subst s1. cbn [committed journal].
    repeat split. unfold push. rewrite <- !app_assoc. reflexivity.
  - subst r. unfold raw_query, client_query, ret, log, visible. cbn.
    rewrite (H3 stored eq_refl), H5. subst s1. cbn [journal].
    repeat split. unfold push. rewrite <- !app_assoc. reflexivity.
Qed.

Lemma bulkInsert_all_or_nothing_witness :
  let out := bulkInsert unique_first_column "products"
               [[("name", VStr "Choco Munch")]; [("name", VStr "Fizz")];
                [("name", VStr "Choco Munch")]]
               (idle [[("name", VStr "Old")]]) in
  fst out = inl (DatabaseError "duplicate key value violates unique constraint"
                               (Some "23505"))
  /\ committed (snd out) = [[("name", VStr "Old")]]
  /\ tx (snd out) = None.
Proof.
  pose proof (bulkInsert_all_or_nothing unique_first_column "products"
                [("name", VStr "Choco Munch")]
                [[("name", VStr "Fizz")]; [("name", VStr "Choco Munch")]]
                (idle [[("name", VStr "Old")]]) eq_refl) as H.
  cbv zeta in H. destruct H as (_ & H1 & H2 & H3 & _).
  cbv zeta. split; [exact H1 | split; [exact H2 | exact H3]].
Defined.

Example bulkInsert_accepts_distinct :
  let out := bulkInsert unique_first_column "products"
               [[("name", VStr "Choco Munch")]; [("name", VStr "Fizz")]]
               (idle []) in
  fst out = inr [[("name", VStr "Choco Munch")]; [("name", VStr "Fizz")]]
  /\ committed (snd out) = [[("name", VStr "Choco Munch")]; [("name", VStr "Fizz")]]
  /\ journal (snd out) =
       ["BEGIN"; bulk_text "products" [("name", VStr "Choco Munch")];
        bulk_text "products" [("name", VStr "Fizz")]; "COMMIT"].
Proof. vm_compute. repeat split. Qed.

(** ** create *)

(** C9 (the code departs from it). When the store raises a unique
    violation (code 23505), [create] throws a [DatabaseError] with the
    message [Duplicate entry in <table>], not a [DuplicateError];
    [createUser] in the sibling repository throws [DuplicateError] for the
    same code.  On success [create] returns the created row. *)
Theorem create_unique_violation_is_DatabaseError
        (tableName message : string) (data row : Row) (more : list Row)
        (hash : string -> string) (userData : CreateUserData) :
  create (refusing message (Some "23505")) tableName data =
    inl (DatabaseError ("Duplicate entry in " ++ tableName) (Some "23505"))
  /\ (forall m, create (refusing message (Some "23505")) tableName data
                <> inl (DuplicateError m))
  /\ createUser hash racing_users userData =
       inl (DuplicateError "User with email or phone already exists")
  /\ create (answering (row :: more)) tableName data = inr row.
Proof.
  repeat split. intros m H. discriminate H.
Qed.

(** ** The hard reject of the submission route *)

Section Ilike.

Let bs : ascii := "\"%char.

Lemma like_percent (p : list ascii) (s : list ascii) :
  like ("%"%char :: p) s =
    or3 (like p s)
        (match s with
         | [] => Some false
         | _ :: s' => like ("%"%char :: p) s'
         end).
Proof. destruct s; reflexivity. Qed.

Lemma like_plain (c : ascii) (p : list ascii) (x : ascii) (s : list ascii) :
  c <> "%"%char -> c <> "_"%char -> c <> bs ->
  like (c :: p) (x :: s) = if Ascii.eqb x c then like p s else Some false.
Proof.
  intros H1 H2 H3. cbn [like].
  destruct (Ascii.eqb_spec c "%"); [contradiction |].
  destruct (Ascii.eqb_spec c "_"); [contradiction |].
  destruct (Ascii.eqb_spec c "\"); [contradiction |].
  reflexivity.
Qed.

Lemma like_plain_nil (c : ascii) (p : list ascii) :
  c <> "%"%char -> c <> bs -> like (c :: p) [] = Some false.
Proof.
  intros H1 H3. cbn [like].
  destruct (Ascii.eqb_spec c "%"); [contradiction |].
  destruct (Ascii.eqb_spec c "_"); [reflexivity |].
  destruct (Ascii.eqb_spec c "\"); [contradiction |].
  reflexivity.
Qed.

(** A pattern without backslash never makes the matcher fail. *)
Lemma like_total (p : list ascii) :
  ~ In bs p -> forall s, exists b, like p s = Some b.
Proof.
  induction p as [| c p IH]; intros Hp s.
  - destruct s; cbn; eauto.
  - assert (Hc : c <> bs) by (intros ->; apply Hp; left; reflexivity).
    assert (Hp' : ~ In bs p) by (intros H; apply Hp; right; exact H).
    specialize (IH Hp').
    destruct (Ascii.eqb_spec c "%") as [-> | Hpc].
    + induction s as [| x s IHs]; rewrite like_percent.
      * destruct (IH []) as [b ->]. destruct b; cbn; eauto.
      * destruct (IH (x :: s)) as [b ->]. destruct b; cbn; eauto.
    + destruct s as [| x s]; [rewrite like_plain_nil; eauto |].
      destruct (Ascii.eqb_spec c "_") as [-> | Hu].
      * cbn. apply IH.
      * rewrite like_plain by assumption.
        destruct (Ascii.eqb x c); eauto.
Qed.

(** A pattern without backslash matches itself. *)
Lemma like_refl (p : list ascii) : ~ In bs p -> like p p = Some true.
Proof.
  induction p as [| c p IH]; intros Hp; [reflexivity |].
  assert (Hc : c <> bs) by (intros ->; apply Hp; left; reflexivity).
  assert (Hp' : ~ In bs p) by (intros H; apply Hp; right; exact H).
  specialize (IH Hp').
  destruct (Ascii.eqb_spec c "%") as [-> | Hpc].
  - rewrite like_percent.
    destruct (like_total p Hp' ("%"%char :: p)) as [b ->].
    rewrite like_percent, IH. destruct b; reflexivity.
  - destruct (Ascii.eqb_spec c "_") as [-> | Hu].
    + cbn. exact IH.
    + rewrite like_plain by assumption. rewrite Ascii.eqb_refl. exact IH.
Qed.

Lemma lower_not_backslash (c : ascii) : c <> bs -> lower c <> bs.
Proof.
  intros Hc H. apply Hc. clear Hc. revert H.
  destruct c as [[] [] [] [] [] [] [] []]; vm_compute; intros H;
    first [reflexivity | discriminate H].
Qed.

Lemma lower_string_backslash_free (s : string) :
  backslash_free s -> ~ In bs (lower_string s).
Proof.
  unfold backslash_free, lower_string. intros Hs Hin.
  apply in_map_iff in Hin. destruct Hin as (c & Hc & Hin).
  destruct (Ascii.eqb_spec c bs) as [-> | Hne]; [exact (Hs Hin) |].
  exact (lower_not_backslash c Hne Hc).
Qed.

Lemma ilike_total (text pattern : string) :
  backslash_free pattern -> exists b, ilike text pattern = Some b.
Proof.
  intros H. apply like_total, lower_string_backslash_free, H.
Qed.

Lemma ilike_same (text pattern : string) :
  backslash_free pattern ->
  lower_string text = lower_string pattern ->
  ilike text pattern = Some true.
Proof.
  intros H E. unfold ilike. rewrite E.
  apply like_refl, lower_string_backslash_free, H.
Qed.

End Ilike.

Section HardReject.

Variable now : Z.
Variable req : request.
Hypothesis name_plain : backslash_free (product_name req).
Hypothesis brand_plain : backslash_free (brand req).

Lemma duplicate_row_total (r : submission) :
  exists b, duplicate_row now req r = Some b.
Proof.
  unfold duplicate_row. destruct (String.eqb _ _); [| eauto].
  destruct (ilike_total (submitted_product_name r) (product_name req) name_plain)
    as [[] ->]; [| eauto].
  destruct (ilike_total (submitted_brand r) (brand req) brand_plain)
    as [[] ->]; eauto.
Qed.

Lemma duplicate_row_exact (r : submission) :
  exact_recent_match now req r -> duplicate_row now req r = Some true.
Proof.
  intros (Hu & Hn & Hb & Ht). unfold duplicate_row.
  rewrite Hu, String.eqb_refl.
  rewrite (ilike_same _ _ name_plain Hn), (ilike_same _ _ brand_plain Hb).
  f_equal. apply Z.ltb_lt. exact Ht.
Qed.

Lemma duplicateCheck_finds (table : list submission) :
  (exists r, In r table /\ exact_recent_match now req r) ->
  exists r found, duplicateCheck now req table = Some (r :: found).
Proof.
  assert (Htotal : forall t, exists found, duplicateCheck now req t = Some found).
  { induction t as [| r t [found IHt]]; [cbn; eauto |].
    cbn [duplicateCheck]. rewrite IHt.
    destruct (duplicate_row_total r) as [[] ->]; eauto. }
  induction table as [| r0 table IH]; intros (r & Hin & Hr); [destruct Hin |].
  cbn [duplicateCheck]. destruct (Htotal table) as [found Hfound].
  destruct Hin as [<- | Hin].
  - rewrite (duplicate_row_exact r0 Hr), Hfound. eauto.
  - destruct (IH (ex_intro _ r (conj Hin Hr))) as (r1 & found1 & H1).
    rewrite H1. destruct (duplicate_row_total r0) as [[] ->]; eauto.
Qed.

(** Where neither the name nor the brand of the request holds a
    backslash, an exact recent match of the same user blocks the
    submission. *)
Lemma hard_reject_backslash_free (st : store) :
  hard_reject_as_stated now req st.
Proof.
  intros Hex. unfold rejected, post_submission, post_submission_on.
  destruct (negb _).
  - split; [intros row H; discriminate H | reflexivity].
  - cbn [accepting select_answered negb].
    destruct (duplicateCheck_finds (npd_submissions st) Hex) as (r & found & ->).
    split; [intros row H; discriminate H | reflexivity].
Qed.

End HardReject.

(** C4 (the code departs from it). The duplicate check hands the new name
    and brand to ILIKE as patterns, unescaped.  A user who re-submits
    [AC\DC Cola] / [ABC] one hour after submitting exactly that gets
    status 201 and a second row: as a pattern, [AC\DC Cola] stands for
    the text [ACDC Cola] and does not match the stored name. *)
Theorem hard_reject_missed_with_backslash :
  let earlier := {| row_id := 1; user_id := "u1";
                    submitted_product_name := "AC\DC Cola";
                    submitted_brand := "ABC"; created_at := 1000 |} in
  let st := {| npd_submissions := [earlier]; total_submissions := fun _ => 1%Z |} in
  let req := {| user := "u1"; product_name := "AC\DC Cola"; brand := "ABC";
                optional_fields_valid := true |} in
  let again := {| row_id := 2; user_id := "u1";
                  submitted_product_name := "AC\DC Cola";
                  submitted_brand := "ABC"; created_at := 4600 |} in
  exact_recent_match 4600 req earlier
  /\ ilike "AC\DC Cola" "AC\DC Cola" = Some false
  /\ fst (post_submission 4600 req st) = Status201 again
  /\ npd_submissions (snd (post_submission 4600 req st)) = [earlier; again]
  /\ ~ hard_reject_as_stated 4600 req st.
Proof.
  cbv zeta.
  split; [repeat split |]. split; [reflexivity |].
  split; [reflexivity |]. split; [reflexivity |].
  intros H. unfold hard_reject_as_stated in H.
  match type of H with
  | ?P -> _ => assert (HP : P)
  end.
  { eexists. split; [left; reflexivity | repeat split]. }
  destruct (H HP) as [Hno _]. eapply Hno. reflexivity.
Qed.

(** ** ORDER BY *)

Lemma in_firstn {A : Type} (n : nat) (l : list A) (x : A) :
  In x (firstn n l) -> In x l.
Proof.
  intros H. rewrite <- (firstn_skipn n l). apply in_or_app. left. exact H.
Qed.


Section SortFacts.

Variable A : Type.
Variable before : A -> A -> bool.
Hypothesis before_total : forall x y, before x y = true \/ before y x = true.
Hypothesis before_trans :
  forall x y z, before x y = true -> before y z = true -> before x z = true.

Let R (x y : A) : Prop := before x y = true.

Lemma insert_perm (x : A) (l : list A) : Permutation (insert before x l) (x :: l).
Proof.
  induction l as [| y l IH]; cbn; [reflexivity |].
  destruct (before x y); [reflexivity |].
  rewrite IH. apply perm_swap.
Qed.

Lemma sort_perm (l : list A) : Permutation (sort before l) l.
Proof.
  induction l as [| x l IH]; cbn; [reflexivity |].
  rewrite insert_perm. apply perm_skip, IH.
Qed.




(** The head of a sorted list stands before every row of the list. *)
Lemma sorted_head (x : A) (l : list A) :
  StronglySorted R (x :: l) -> forall y, In y l -> R x y.
Proof.
  intros H y Hy. inversion H as [| ? ? _ Hall]; subst.
  rewrite Forall_forall in Hall. exact (Hall y Hy).
Qed.

End SortFacts.

(** ** The duplicate detector *)

Section Detector.

Import Catalog.

Variable similarity : string -> string -> Q.

Let by_score (x y : scored) : bool := Qle_bool (sim_score y) (sim_score x).



Variable catalog : list Product.
Variables name1 brand2 : string.
Variable threshold : option Q.

Let t : Q := match threshold with Some t => t | None => default_threshold end.

Let selected : list scored :=
  filter (fun r => Qlt_bool t (sim_score r) && is_verified (product r))
         (map (fun p => {| product := p;
                           sim_score := score similarity name1 brand2 p |})
              catalog).

Let result : list scored :=
  findSimilarProducts similarity catalog name1 brand2 threshold.

Lemma result_eq : result = firstn 10 (sort by_score selected).
Proof. reflexivity. Qed.

Lemma Qlt_bool_iff (x y : Q) : Qlt_bool x y = true <-> (x < y)%Q.
Proof.
  unfold Qlt_bool. rewrite negb_true_iff. split.
  - intros H. apply Qnot_le_lt. intros Hle.
    apply Qle_bool_iff in Hle. congruence.
  - intros H. destruct (Qle_bool y x) eqn:E; [| reflexivity].
    apply Qle_bool_iff in E. exfalso. exact (Qlt_not_le _ _ H E).
Qed.

Lemma selected_spec (r : scored) :
  In r selected <->
  In (product r) catalog
  /\ sim_score r = score similarity name1 brand2 (product r)
  /\ (t < sim_score r)%Q
  /\ verification_status (product r) = verified.
Proof.
  unfold selected. rewrite filter_In, in_map_iff, andb_true_iff, Qlt_bool_iff.
  unfold is_verified. split.
  - intros [(p & <- & Hp) [Ht Hv]]. cbn in *.
    repeat split; try assumption.
    destruct (verification_status p); congruence.
  - intros (Hp & Hs & Ht & Hv). split; [| split].
    + exists (product r). split; [| exact Hp].
      destruct r as [p s]. cbn in *. subst s. reflexivity.
    + exact Ht.
    + rewrite Hv. reflexivity.
Qed.

Lemma result_in_selected (r : scored) : In r result -> In r selected.
Proof.
  rewrite result_eq. intros H.
  apply (Permutation_in r (sort_perm scored by_score selected)).
  eapply in_firstn. exact H.
Qed.



End Detector.

(** C10. Only rows whose [verification_status] is [verified] are ever
    returned by the duplicate detector, whatever their similarity score:
    a pending, rejected or flagged product is never among the results. *)
Theorem findSimilarProducts_only_verified
        (similarity : string -> string -> Q) (catalog : list Catalog.Product)
        (name brand : string) (threshold : option Q) (r : Catalog.scored) :
  In r (Catalog.findSimilarProducts similarity catalog name brand threshold) ->
  Catalog.verification_status (Catalog.product r) = Catalog.verified.
Proof.
  intros H. apply result_in_selected in H. apply selected_spec in H.
  destruct H as (_ & _ & _ & H). exact H.
Qed.

Lemma findSimilarProducts_only_verified_witness :
  Catalog.verification_status (Catalog.choco Catalog.verified) = Catalog.verified.
Proof.
  refine (findSimilarProducts_only_verified Catalog.exact_similarity
            [Catalog.choco Catalog.pending; Catalog.choco Catalog.verified;
             Catalog.choco Catalog.flagged]
            "Choco Munch" "ABC" None
            {| Catalog.product := Catalog.choco Catalog.verified;
               Catalog.sim_score :=
                 Catalog.score Catalog.exact_similarity "Choco Munch" "ABC"
                               (Catalog.choco Catalog.verified) |} _).
  left. reflexivity.
Defined.




(** ** The reward *)

Section Reward.

Import Float64.

Lemma mul_NaN_r (x : number) : mul x NaN = NaN.
Proof. destruct x; reflexivity. Qed.

Lemma calculateReward_steps
      (submission : Rewards.NPDSubmission) (userTier : string) :
  Rewards.calculateReward submission userTier =
    Rewards.reward_after
      (floor (mul (Rewards.aiConfidence submission) (of_Z 50)))
      (Rewards.isRegionalExclusive submission) userTier.
Proof. reflexivity. Qed.

Lemma stated_multiplier_default (userTier : string) :
  "silver" <> userTier -> "gold" <> userTier -> "platinum" <> userTier ->
  Rewards.stated_multiplier userTier = 1%Q.
Proof.
  intros H1 H2 H3. unfold Rewards.stated_multiplier.
  destruct (String.eqb_spec userTier "silver"); [congruence |].
  destruct (String.eqb_spec userTier "gold"); [congruence |].
  destruct (String.eqb_spec userTier "platinum"); [congruence |].
  reflexivity.
Qed.

(** From a quality bonus in 0..50 on, binary64 arithmetic gives the
    result of the exact formula: checked on each of the 51 bonuses, with
    and without the regional bonus, for each multiplier. *)
Lemma reward_after_bonus (z : Z) (regional : bool) (userTier : string) :
  (0 <= z <= 50)%Z ->
  (In userTier Rewards.object_prototype_keys ->
   Rewards.reward_after (Fin {| mant := z; expo := 0 |}) regional userTier
   = NaN)
  /\ (~ In userTier Rewards.object_prototype_keys ->
      Rewards.reward_after (Fin {| mant := z; expo := 0 |}) regional userTier
      = Fin {| mant := Rewards.stated_reward 300 z regional
                         (Rewards.stated_multiplier userTier);
               expo := 0 |}
      /\ (300 <= Rewards.stated_reward 300 z regional
                   (Rewards.stated_multiplier userTier) <= 520)%Z).
Proof.
  intros Hz.
  assert (Hn : exists n, z = Z.of_nat n /\ n <= 50)
    by (exists (Z.to_nat z); lia).
  destruct Hn as [n [-> Hn]]. clear Hz.
  unfold Rewards.reward_after, Rewards.get, Rewards.tierMultipliers.
  cbn [Rewards.own].
  destruct (String.eqb_spec "bronze" userTier) as [<- | Hb].
  { split; [intros Hin; exfalso; revert Hin; cbn;
            repeat (intros [H | Hin]; [discriminate H | revert Hin]); tauto |].
    intros _. destruct regional;
      do 51 (destruct n as [| n];
             [vm_compute; repeat split; discriminate |]); lia. }
  destruct (String.eqb_spec "silver" userTier) as [<- | Hs].
  { split; [intros Hin; exfalso; revert Hin; cbn;
            repeat (intros [H | Hin]; [discriminate H | revert Hin]); tauto |].
    intros _. destruct regional;
      do 51 (destruct n as [| n];
             [vm_compute; repeat split; discriminate |]); lia. }
  destruct (String.eqb_spec "gold" userTier) as [<- | Hg].
  { split; [intros Hin; exfalso; revert Hin; cbn;
            repeat (intros [H | Hin]; [discriminate H | revert Hin]); tauto |].
    intros _. destruct regional;
      do 51 (destruct n as [| n];
             [vm_compute; repeat split; discriminate |]); lia. }
  destruct (String.eqb_spec "platinum" userTier) as [<- | Hp].
  { split; [intros Hin; exfalso; revert Hin; cbn;
            repeat (intros [H | Hin]; [discriminate H | revert Hin]); tauto |].
    intros _. destruct regional;
      do 51 (destruct n as [| n];
             [vm_compute; repeat split; discriminate |]); lia. }
  rewrite (stated_multiplier_default userTier Hs Hg Hp).
  destruct (existsb (String.eqb userTier) Rewards.object_prototype_keys)
    eqn:Hex.
  - split; [| intros Hnot; exfalso; apply Hnot;
              apply existsb_exists in Hex; destruct Hex as [k [Hk Hek]];
              apply String.eqb_eq in Hek; subst k; exact Hk].
    intros _. cbn [Rewards.multiplier_or_default].
    rewrite mul_NaN_r. reflexivity.
  - split.
    + intros Hin. exfalso.
      assert (existsb (String.eqb userTier) Rewards.object_prototype_keys
              = true).
      { apply existsb_exists. exists userTier. split; [exact Hin |].
        apply String.eqb_refl. }
      congruence.
    + intros _. cbn [Rewards.multiplier_or_default]. destruct regional;
        do 51 (destruct n as [| n];
               [vm_compute; repeat split; discriminate |]); lia.
Qed.

End Reward.




(** The instances behind the amendment: confidence 0.58 pays 328, not
    329; confidence 0.06 has the quality bonus 3, one more than the exact
    floor of 0.06 * 50 taken on the number the code is handed; a base of
    200 is not what the code pays; and a tier named after an inherited
    property gives [NaN]. *)
Example calculateReward_instances :
  Rewards.calculateReward
    {| Rewards.aiConfidence := Float64.literal 58 100;
       Rewards.isRegionalExclusive := false |} "bronze"
  = Float64.Fin {| Float64.mant := 328; Float64.expo := 0 |}
  /\ Rewards.stated_reward 300 (Qfloor ((58 # 100) * 50)) false 1 = 329%Z
  /\ Float64.floor (Float64.mul (Float64.literal 6 100) (Float64.of_Z 50))
     = Float64.Fin {| Float64.mant := 3; Float64.expo := 0 |}
  /\ Float64.exact_floor_times 50
       {| Float64.mant := 8646911284551352; Float64.expo := -57 |} = 2%Z
  /\ Float64.literal 6 100
     = Float64.Fin {| Float64.mant := 8646911284551352; Float64.expo := -57 |}
  /\ Rewards.stated_reward 200 0 false 1 = 200%Z
  /\ Rewards.calculateReward
       {| Rewards.aiConfidence := Float64.of_Z 0;
          Rewards.isRegionalExclusive := false |} "bronze"
     = Float64.Fin {| Float64.mant := 300; Float64.expo := 0 |}
  /\ Rewards.calculateReward
       {| Rewards.aiConfidence := Float64.literal 8 10;
          Rewards.isRegionalExclusive := true |} "constructor"
     = Float64.NaN.
Proof. repeat split; vm_compute; reflexivity. Qed.

(** ** Tier selection *)




(** The selection of the specification on the example's record and on
    the record of the counterexample. *)
Example stated_selection_instances :
  Tiers.stated_selection (Tiers.case_thresholds Tiers.gold_needs_80)
    {| Tiers.total_submissions := 25; Tiers.quality_score := 8;
       Tiers.approval_rate := 85 |} = Tiers.gold
  /\ Tiers.stated_selection (Tiers.case_thresholds Tiers.gold_needs_80)
       {| Tiers.total_submissions := 5; Tiers.quality_score := 9;
          Tiers.approval_rate := 100 |} = Tiers.bronze
  /\ Tiers.stated_selection (Tiers.case_thresholds Tiers.gold_needs_80)
       {| Tiers.total_submissions := 25; Tiers.quality_score := 8;
          Tiers.approval_rate := 48 |} = Tiers.silver
  /\ Tiers.updateUserTier 25 8 = Tiers.gold.
Proof. repeat split; reflexivity. Qed.


(* ===================================================================== *)
(** * Further properties of the repository facade                         *)
(* ===================================================================== *)

(** The builder in the specification's terms. *)
Lemma buildWhereClause_spec (filters : FilterOptions) :
  clause (buildWhereClause filters) = where_of (spec_conditions filters 1)
  /\ params (buildWhereClause filters) = spec_params filters.
Proof.
  destruct (where_loop_spec filters where_init) as (Hc & Hp & _).
  cbn zeta in Hc, Hp. cbn [where_init conditions acc_params paramIndex app] in Hc, Hp.
  unfold buildWhereClause. cbn [clause params]. rewrite Hc, Hp. split; reflexivity.
Qed.

(** ** Storage failures *)

(** The code of a wrapped error is never missing or empty. *)
Lemma wrap_code (e : error) :
  exists c, wrap e = DatabaseError (message_of e) (Some c) /\ c <> "".
Proof.
  unfold wrap. destruct (code_of e) as [[| a c] |]; cbn.
  - exists "UNKNOWN". split; [reflexivity | discriminate].
  - exists (String a c). split; [reflexivity | discriminate].
  - exists "UNKNOWN". split; [reflexivity | discriminate].
Qed.

Lemma query_error (d : driver) (text : string) (ps : list value) (e : error) :
  Connection.query d text ps = inl e ->
  exists m c, e = DatabaseError m (Some c) /\ c <> "".
Proof.
  unfold Connection.query. destruct (d text ps) as [e0 | r]; [| discriminate].
  intros [= <-]. destruct (wrap_code e0) as (c & -> & Hc). eauto.
Qed.

(** Whatever the store does, [findById], [delete], [count], [exists] and
    [create] fail only with a [DatabaseError] that carries the operation's
    own message and a non-empty code, never with the driver's error. *)
Theorem facade_failures_are_wrapped
        (d : driver) (tableName primaryKey id : string)
        (filters : FilterOptions) (data : Row) (e : error) :
  (Facade.findById d tableName primaryKey id = inl e ->
   Facade.storage_failure ("Failed to find " ++ tableName ++ " by ID") e)
  /\ (Facade.delete d tableName primaryKey id = inl e ->
      Facade.storage_failure ("Failed to delete " ++ tableName) e)
  /\ (Facade.count d tableName filters = inl e ->
      Facade.storage_failure ("Failed to count " ++ tableName) e)
  /\ (Facade.exists_ d tableName primaryKey id = inl e ->
      Facade.storage_failure ("Failed to check existence in " ++ tableName) e)
  /\ (create d tableName data = inl e ->
      Facade.storage_failure ("Failed to create " ++ tableName) e
      \/ e = DatabaseError ("Duplicate entry in " ++ tableName) (Some "23505")).
Proof.
  unfold Facade.storage_failure.
  split; [| split; [| split; [| split]]].
  - unfold Facade.findById.
    destruct (Connection.query d _ _) as [e0 | r] eqn:E; [| discriminate].
    intros [= <-]. destruct (query_error _ _ _ _ E) as (m & c & -> & Hc).
    exists c. split; [reflexivity | exact Hc].
  - unfold Facade.delete.
    destruct (Connection.query d _ _) as [e0 | r] eqn:E; [| discriminate].
    intros [= <-]. destruct (query_error _ _ _ _ E) as (m & c & -> & Hc).
    exists c. split; [reflexivity | exact Hc].
  - unfold Facade.count.
    destruct (Connection.query d _ _) as [e0 | r] eqn:E; [| discriminate].
    intros [= <-]. destruct (query_error _ _ _ _ E) as (m & c & -> & Hc).
    exists c. split; [reflexivity | exact Hc].
  - unfold Facade.exists_.
    destruct (Connection.query d _ _) as [e0 | r] eqn:E; [| discriminate].
    intros [= <-]. destruct (query_error _ _ _ _ E) as (m & c & -> & Hc).
    exists c. split; [reflexivity | exact Hc].
  - unfold create.
    destruct (Connection.query d _ _) as [e0 | r] eqn:E.
    + destruct (query_error _ _ _ _ E) as (m & c & -> & Hc). cbn.
      destruct (String.eqb_spec c "23505") as [-> | Hne].
      * intros [= <-]. right. reflexivity.
      * intros [= <-]. left. exists c. split; [reflexivity | exact Hc].
    + destruct (rows r) as [| r0 rs]; [| discriminate].
      cbn. intros [= <-]. left. exists "NO_ROWS_RETURNED".
      split; [reflexivity | discriminate].
Qed.

Lemma facade_failures_are_wrapped_witness :
  Facade.storage_failure "Failed to find products by ID"
    (DatabaseError "Failed to find products by ID" (Some "UNKNOWN")).
Proof.
  exact (proj1 (facade_failures_are_wrapped
                  (refusing "connection terminated" None)
                  "products" "id" "42" [] []
                  (DatabaseError "Failed to find products by ID" (Some "UNKNOWN")))
               eq_refl).
Defined.

(** ** update *)

(** [update] refuses an empty patch with a [ValidationError] whatever the
    store would answer; otherwise it returns the first row the store
    returns, reports [NotFoundError] exactly when the store returns no
    row, and wraps every failure of the store as [DatabaseError]. *)
Theorem update_outcomes
        (d : driver) (tableName primaryKey id : string) (data : Row) :
  Facade.update d tableName primaryKey id [] =
    inl (ValidationError "No data provided for update")
  /\ match Facade.update d tableName primaryKey id data with
     | inr row =>
         data <> []
         /\ exists result more,
              d (Facade.update_text tableName primaryKey data)
                (VStr id :: map snd data) = inr result
              /\ rows result = row :: more
     | inl (ValidationError _) => data = []
     | inl (NotFoundError m) =>
         m = message_of (newNotFoundError tableName (Some id))
         /\ exists result,
              d (Facade.update_text tableName primaryKey data)
                (VStr id :: map snd data) = inr result
              /\ rows result = []
     | inl e => Facade.storage_failure ("Failed to update " ++ tableName) e
     end.
Proof.
  split; [reflexivity |].
  destruct data as [| kv data]; [reflexivity |].
  unfold Facade.update.
  set (text := Facade.update_text tableName primaryKey (kv :: data)).
  set (ps := VStr id :: map snd (kv :: data)).
  destruct (Connection.query d text ps) as [e0 | result] eqn:E.
  - destruct (query_error _ _ _ _ E) as (m & c & -> & Hc).
    cbn. exists c. split; [reflexivity | exact Hc].
  - unfold Connection.query in E.
    destruct (d text ps) as [e1 | r1] eqn:Ed; [discriminate |].
    injection E as ->.
    destruct (rows result) as [| row more] eqn:Er.
    + cbn. split; [reflexivity |]. exists result. split; [reflexivity | exact Er].
    + split; [discriminate |]. exists result, more.
      split; [reflexivity | exact Er].
Qed.

Lemma update_fields_pass_validation
      (d : driver) (tableName primaryKey id : string)
      (field : string * value) (data : Row) (m : string) :
  Facade.update d tableName primaryKey id (field :: data)
  <> inl (ValidationError m).
Proof.
  unfold Facade.update.
  destruct (Connection.query d _ _) as [e0 | result] eqn:E.
  - destruct (query_error _ _ _ _ E) as (m0 & c & -> & _). discriminate.
  - destruct (rows result); discriminate.
Qed.

(** [updateVerificationStatus] always sends a patch of two or three
    fields, numbered from [$2], whose text does not depend on the status,
    the time or the score; so it never fails validation. *)
Theorem updateVerificationStatus_patch
        (d : driver) (now : Z) (productId status : string) (score : value) :
  Facade.updateVerificationStatus d now productId status None =
    Facade.update d "products" "id" productId
      [("verification_status", VStr status); ("last_verified_at", VDate now)]
  /\ Facade.update_text "products" "id"
       [("verification_status", VStr status); ("last_verified_at", VDate now)] =
     nl ++ "      UPDATE products" ++
     nl ++ "      SET verification_status = $2, last_verified_at = $3" ++
     nl ++ "      WHERE id = $1" ++
     nl ++ "      RETURNING *" ++
     nl ++ "    "
  /\ Facade.update_text "products" "id"
       [("verification_status", VStr status); ("last_verified_at", VDate now);
        ("ai_confidence_score", score)] =
     nl ++ "      UPDATE products" ++
     nl ++ "      SET verification_status = $2, last_verified_at = $3, ai_confidence_score = $4" ++
     nl ++ "      WHERE id = $1" ++
     nl ++ "      RETURNING *" ++
     nl ++ "    "
  /\ (forall conf m,
        Facade.updateVerificationStatus d now productId status conf
        <> inl (ValidationError m)).
Proof.
  split; [reflexivity |]. split; [reflexivity |]. split; [reflexivity |].
  intros conf m H.
  unfold Facade.updateVerificationStatus in H.
  destruct conf; exact (update_fields_pass_validation _ _ _ _ _ _ _ H).
Qed.

(** ** The user updates *)

(** When the store finds no user, [updateUserTier] and [updateEarnings]
    throw [NotFoundError] inside their [try] and catch it themselves: the
    caller gets a [DatabaseError] without a code, where [update] of the
    base repository hands [NotFoundError] on. *)
Theorem missing_user_reported_as_DatabaseError
        (d : driver) (userId : string) (amount : value)
        (tiers earnings : QueryResult) :
  d UserOps.tier_text [VStr userId] = inr tiers -> rows tiers = [] ->
  d UserOps.earnings_text [VStr userId; amount] = inr earnings ->
  rows earnings = [] ->
  UserOps.updateUserTier d userId =
    inl (DatabaseError "Failed to update user tier" None)
  /\ UserOps.updateEarnings d userId amount =
       inl (DatabaseError "Failed to update user earnings" None)
  /\ (forall field data,
        Facade.update (answering []) "users" "id" userId (field :: data) =
          inl (newNotFoundError "users" (Some userId))).
Proof.
  intros Ht Hrt He Hre.
  unfold UserOps.updateUserTier, UserOps.updateEarnings, UserOps.first_user_row,
    Connection.query.
  rewrite Ht, He, Hrt, Hre. repeat split.
Qed.

Lemma missing_user_reported_as_DatabaseError_witness :
  UserOps.updateUserTier (answering []) "u-404" =
    inl (DatabaseError "Failed to update user tier" None).
Proof.
  exact (proj1 (missing_user_reported_as_DatabaseError
                  (answering []) "u-404" (VNum 50)
                  {| rows := []; rowCount := 0 |} {| rows := []; rowCount := 0 |}
                  eq_refl eq_refl eq_refl eq_refl)).
Defined.

(** No outcome of [updateUserTier] or [updateEarnings] is a
    [NotFoundError]: every error is a [DatabaseError] with the method's
    message. *)
Theorem user_update_errors
        (d : driver) (userId : string) (amount : value) (e : error) :
  (UserOps.updateUserTier d userId = inl e ->
   exists c, e = DatabaseError "Failed to update user tier" c)
  /\ (UserOps.updateEarnings d userId amount = inl e ->
      exists c, e = DatabaseError "Failed to update user earnings" c).
Proof.
  unfold UserOps.updateUserTier, UserOps.updateEarnings, UserOps.rethrow_as_database.
  split.
  - destruct (UserOps.first_user_row d _ _ _); [| discriminate].
    intros [= <-]. eauto.
  - destruct (UserOps.first_user_row d _ _ _); [| discriminate].
    intros [= <-]. eauto.
Qed.

(** ** count *)

Section ParseInt.

Import Facade.



Lemma to_uint_nonnil (n : nat) : Nat.to_uint n <> Decimal.Nil.
Proof.
  intros H.
  pose proof (DecimalNat.Unsigned.to_of (Nat.to_uint n)) as E.
  rewrite DecimalNat.Unsigned.of_to in E. rewrite H in E at 1.
  symmetry in E. exact (DecimalFacts.unorm_nonnil _ E).
Qed.


End ParseInt.


(** ** transaction *)

Section Transactions.

Import Callbacks.

Variable rule : table_rule.


Lemma ret_stays_in_tx {A : Type} (a : A) : stays_in_tx (ret a).
Proof. intros s w H. cbn. eauto. Qed.

Lemma throw_stays_in_tx {A : Type} (e : error) : stays_in_tx (@throw A e).
Proof. intros s w H. cbn. eauto. Qed.


End Transactions.



(** ** Pagination edges *)

(** Without a non-zero limit and a non-zero offset, [buildLimitClause]
    gives the empty clause whatever the page is: the page number is
    ignored and the whole result set is returned. *)
Theorem buildLimitClause_page_needs_limit
        (A : Type) (rows : list A) (pg : PaginationOptions) :
  truthy (limit pg) = None -> truthy (offset pg) = None ->
  buildLimitClause pg = {| clause := ""; params := [] |}
  /\ paginate pg rows = Some rows.
Proof.
  intros Hl Ho.
  assert (E : buildLimitClause pg = {| clause := ""; params := [] |}).
  { unfold buildLimitClause. rewrite Hl, Ho.
    destruct (truthy (page pg)); reflexivity. }
  split; [exact E |]. unfold paginate. rewrite E. reflexivity.
Qed.

Lemma buildLimitClause_page_needs_limit_witness :
  paginate {| page := Some 3%Z; limit := None; offset := None |} [0; 1; 2; 3]
  = Some [0; 1; 2; 3].
Proof.
  exact (proj2 (buildLimitClause_page_needs_limit nat [0; 1; 2; 3]
                  {| page := Some 3%Z; limit := None; offset := None |}
                  eq_refl eq_refl)).
Defined.

(** With a positive limit and no offset of its own, page 0 is read as "no
    page" and gives the first [l] rows, and a negative page derives a
    negative OFFSET, which the store refuses. *)
Theorem buildLimitClause_page_below_one
        (A : Type) (rows : list A) (pg : PaginationOptions) (l p : Z) :
  limit pg = Some l -> (0 < l)%Z -> truthy (offset pg) = None ->
  page pg = Some p -> (p <= 0)%Z ->
  paginate pg rows =
    if (p =? 0)%Z then Some (firstn (Z.to_nat l) rows) else None.
Proof.
  intros Hl Hlpos Ho Hp Hple.
  assert (Htl : truthy (limit pg) = Some l).
  { unfold truthy. rewrite Hl. destruct (Z.eqb_spec l 0); [lia | reflexivity]. }
  assert (E : buildLimitClause pg =
              if (p =? 0)%Z
              then {| clause := " LIMIT $1"; params := [VNum l] |}
              else {| clause := " LIMIT $1 OFFSET $2";
                      params := [VNum l; page_offset p l] |}).
  { unfold buildLimitClause. rewrite Htl, Ho. unfold truthy. rewrite Hp.
    destruct (p =? 0)%Z; reflexivity. }
  unfold paginate, run_limit_clause. rewrite E.
  destruct (Z.eqb_spec p 0) as [-> | Hne].
  - cbn -[apply_window]. unfold apply_window. cbn [w_offset w_limit].
    destruct (Z.ltb_spec l 0); [lia |]. reflexivity.
  - destruct (Float64Facts.page_offset_negative p l ltac:(lia) Hlpos)
      as [[z [Hz Hneg]] | [n Hn]].
    + rewrite Hz. cbn -[apply_window]. unfold apply_window.
      cbn [w_offset w_limit].
      destruct (Z.ltb_spec z 0); [reflexivity | lia].
    + rewrite Hn. reflexivity.
Qed.

Lemma buildLimitClause_page_below_one_witness :
  paginate {| page := Some (-1)%Z; limit := Some 2%Z; offset := None |}
           [0; 1; 2; 3] = None.
Proof.
  refine (buildLimitClause_page_below_one nat [0; 1; 2; 3]
            {| page := Some (-1)%Z; limit := Some 2%Z; offset := None |}
            2%Z (-1)%Z eq_refl _ eq_refl eq_refl _); lia.
Defined.

(** ** find *)

(** [find] hands the store the filter values followed by the values of
    the limit clause, while the clause numbers its placeholders from 1: the
    value that [LIMIT $1] names is the limit only when no filter value is
    bound, and the first filter value otherwise. *)
Theorem find_limit_binding
        (tableName primaryKey : string) (filters : FilterOptions)
        (sorts : list SortOptions) (pg : PaginationOptions) (l : Z) :
  truthy (limit pg) = Some l ->
  let q := find tableName primaryKey filters sorts pg in
  (exists tail, clause (buildLimitClause pg) = " LIMIT $1" ++ tail)
  /\ dataParams q = (spec_params filters ++ params (buildLimitClause pg))%list
  /\ totalParams q = spec_params filters
  /\ bound_int (params (buildLimitClause pg)) "$1" = Some l
  /\ nth_error (dataParams q) 0 =
       match spec_params filters with
       | v :: _ => Some v
       | [] => Some (VNum l)
       end.
Proof.
  intros Hl. cbv zeta.
  destruct (buildWhereClause_spec filters) as (_ & Hp).
  unfold find. cbn [dataParams totalParams]. rewrite Hp. unfold push.
  assert (Hb : exists tail more,
             buildLimitClause pg =
               {| clause := " LIMIT $1" ++ tail; params := VNum l :: more |}).
  { unfold buildLimitClause. rewrite Hl.
    destruct (truthy (offset pg)) as [o |];
      [| destruct (truthy (page pg)) as [p |]];
      eexists; eexists; unfold push_clause, push; cbn; reflexivity. }
  destruct Hb as (tail & more & ->). cbn [clause params].
  split; [exists tail; reflexivity |]. split; [reflexivity |].
  split; [reflexivity |]. split; [reflexivity |].
  destruct (spec_params filters); reflexivity.
Qed.

Lemma find_limit_binding_witness :
  nth_error
    (dataParams (find "products" "id" [("is_npd", VBool true)] []
                      {| page := None; limit := Some 20%Z; offset := None |})) 0
  = Some (VBool true).
Proof.
  exact (proj2 (proj2 (proj2 (proj2
    (find_limit_binding "products" "id" [("is_npd", VBool true)] []
       {| page := None; limit := Some 20%Z; offset := None |} 20%Z eq_refl))))).
Defined.

(** ** String helpers *)

Lemma append_assoc (a b c : string) : (a ++ b) ++ c = a ++ b ++ c.
Proof. induction a as [| x a IH]; cbn; [reflexivity | rewrite IH; reflexivity]. Qed.

Lemma append_nil_r (a : string) : a ++ "" = a.
Proof. induction a as [| x a IH]; cbn; [reflexivity | rewrite IH; reflexivity]. Qed.

(** ** search: parameter positions *)

Section SearchPositions.

Import SearchSpec.

Lemma step_query_aligned sf st : aligned st -> aligned (step_query sf st).
Proof.
  unfold aligned, step_query. intros H.
  destruct (ProductSearch.query sf) as [q |]; [| exact H].
  destruct (truthy_str (Some q)); [| exact H].
  cbn [s_paramIndex s_params]. unfold push. rewrite length_app, H. cbn. lia.
Qed.

Lemma step_in_aligned column xs st : aligned st -> aligned (step_in column xs st).
Proof.
  unfold aligned, step_in. intros H.
  destruct xs as [[| x rest] |]; try exact H.
  cbn [s_paramIndex s_params]. unfold push.
  rewrite length_app, length_map, H. cbn. lia.
Qed.

Lemma step_between_aligned column mk r st :
  aligned st -> aligned (step_between column mk r st).
Proof.
  unfold aligned, step_between. intros H.
  destruct r as [[lo hi] |]; [| exact H].
  cbn [s_paramIndex s_params]. unfold push. rewrite length_app, H. cbn. lia.
Qed.

Lemma step_flag_aligned column b st : aligned st -> aligned (step_flag column b st).
Proof.
  unfold aligned, step_flag. intros H.
  destruct b as [v |]; [| exact H].
  cbn [s_paramIndex s_params]. unfold push. rewrite length_app, H. cbn. lia.
Qed.

Lemma search_where_aligned (sf : SearchFilters) : aligned (search_where sf).
Proof.
  unfold search_where.
  repeat first
    [ apply step_between_aligned
    | apply step_flag_aligned
    | apply step_in_aligned
    | apply step_query_aligned ].
  reflexivity.
Qed.

End SearchPositions.

(** The numbers [search] writes behind LIMIT and OFFSET are the 1-based
    positions of the limit and the offset in the parameter list of the
    data statement; the limit it sends is never 0; and the count statement
    takes the filter parameters only, the same text and the same values
    whatever the pagination. *)
Theorem search_limit_positions (sf : SearchFilters) (pg pg' : PaginationOptions) :
  let q := search sf pg in
  let i := s_paramIndex (search_where sf) in
  let lim := or_num (limit pg) 20 in
  (exists head off,
      mainQuery q =
        head ++ "LIMIT " ++ decimal i ++ " OFFSET " ++ decimal (i + 1) ++ nl ++ "    "
      /\ mainParams q = (countParams q ++ [VNum lim; VNum off])%list
      /\ nth_error (mainParams q) (i - 1) = Some (VNum lim)
      /\ nth_error (mainParams q) (i + 1 - 1) = Some (VNum off))
  /\ lim <> 0%Z
  /\ countQuery (search sf pg') = countQuery q
  /\ countParams (search sf pg') = countParams q.
Proof.
  cbv zeta. pose proof (search_where_aligned sf) as Hal. unfold SearchSpec.aligned in Hal.
  split; [| split; [| split; reflexivity]].
  - exists (nl ++ "      SELECT * FROM products" ++
            nl ++ "      " ++ where_of (whereConditions (search_where sf)) ++
            nl ++ "      " ++
            (if truthy_str (ProductSearch.query sf) then ranked_order
             else "ORDER BY created_at DESC") ++
            nl ++ "      ").
    eexists. unfold search. cbn [mainQuery mainParams countParams].
    split; [| split; [reflexivity | split]].
    + rewrite !append_assoc. reflexivity.
    + unfold push. rewrite Hal. cbn [Nat.sub].
      rewrite Nat.sub_0_r, nth_error_app2 by lia.
      rewrite Nat.sub_diag. reflexivity.
    + unfold push. rewrite Hal.
      replace (S (length (s_params (search_where sf))) + 1 - 1)
        with (S (length (s_params (search_where sf)))) by lia.
      rewrite nth_error_app2 by lia.
      replace (S (length (s_params (search_where sf)))
               - length (s_params (search_where sf))) with 1 by lia.
      reflexivity.
  - unfold or_num, truthy. destruct (limit pg) as [z |]; [| discriminate].
    destruct (Z.eqb_spec z 0); [discriminate | assumption].
Qed.

(** ** The placeholders of the WHERE clause *)

Section Placeholders.

Import Facade Scan.

Lemma placeholders_of_free (a b : string) :
  includes a "$" = false -> placeholders_of (a ++ b) = placeholders_of b.
Proof.
  induction a as [| x a IH]; cbn [append includes placeholders_of];
    [reflexivity |].
  rewrite orb_false_iff. intros [Hx Ha]. rewrite Hx. exact (IH Ha).
Qed.

Lemma read_digits_stop (rest : string) (acc : option Z) :
  ends_number rest = true -> read_digits rest acc = acc.
Proof.
  destruct rest as [| c rest]; [reflexivity |]. cbn.
  rewrite negb_true_iff. intros ->. reflexivity.
Qed.

Lemma read_digits_uint_app (d : Decimal.uint) (rest : string) :
  ends_number rest = true ->
  forall a : nat,
    read_digits (NilEmpty.string_of_uint d ++ rest) (Some (Z.of_nat a)) =
      Some (Z.of_nat (Nat.of_uint_acc d a)).
Proof.
  intros Hrest.
  induction d; intros a;
    cbn [NilEmpty.string_of_uint append read_digits Nat.of_uint_acc];
    [apply read_digits_stop, Hrest | ..];
    (match goal with
     | |- context [is_digit ?c] => change (is_digit c) with true
     end;
     cbv iota; rewrite <- IHd; do 2 f_equal;
     rewrite Nat.tail_mul_spec; unfold digit_value;
     match goal with
     | |- context [nat_of_ascii ?c - 48] =>
         let v := eval vm_compute in (nat_of_ascii c - 48) in
         change (nat_of_ascii c - 48) with v
     end; lia).
Qed.

Lemma read_digits_decimal_app (n : nat) (rest : string) :
  ends_number rest = true ->
  read_digits (decimal n ++ rest) None = Some (Z.of_nat n).
Proof.
  intros Hrest. unfold decimal.
  pose proof (to_uint_nonnil n) as Hn.
  rewrite <- (DecimalNat.Unsigned.of_to n) at 2.
  destruct (Nat.to_uint n) as [| d | d | d | d | d | d | d | d | d | d];
    [contradiction | ..];
    cbn [NilEmpty.string_of_uint append read_digits];
    (match goal with
     | |- context [is_digit ?c] => change (is_digit c) with true
     end;
     cbv iota; unfold Nat.of_uint; cbn [Nat.of_uint_acc];
     rewrite <- (read_digits_uint_app d rest Hrest); do 2 f_equal).
Qed.

Lemma placeholders_of_placeholder (n : nat) (rest : string) :
  ends_number rest = true ->
  placeholders_of (placeholder n ++ rest) = n :: placeholders_of rest.
Proof.
  intros Hrest. unfold placeholder. rewrite append_assoc.
  cbn [append placeholders_of Ascii.eqb Bool.eqb]. cbv iota.
  rewrite (read_digits_decimal_app n rest Hrest), Nat2Z.id.
  rewrite placeholders_of_free by apply includes_decimal. reflexivity.
Qed.

Lemma placeholders_of_list (l : list nat) (rest : string) :
  ends_number rest = true ->
  placeholders_of (join ", " (map placeholder l) ++ rest) =
    (l ++ placeholders_of rest)%list.
Proof.
  intros Hrest. induction l as [| x l IH]; [reflexivity |].
  destruct l as [| y l].
  - apply placeholders_of_placeholder, Hrest.
  - change (join ", " (map placeholder (x :: y :: l)))
      with (placeholder x ++ ", " ++ join ", " (map placeholder (y :: l))).
    rewrite !append_assoc.
    rewrite placeholders_of_placeholder by reflexivity.
    rewrite placeholders_of_free by reflexivity.
    cbn [app]. f_equal. exact IH.
Qed.

Lemma placeholders_of_condition (key : string) (v : value) (first : nat)
      (rest : string) :
  present v = true -> includes key "$" = false -> ends_number rest = true ->
  placeholders_of (spec_condition key v first ++ rest) =
    (seq first (length (bound_values v)) ++ placeholders_of rest)%list.
Proof.
  intros Hv Hkey Hrest. unfold spec_condition.
  destruct v as [ | | b | z | s | t | vs | n ]; try discriminate Hv;
    unfold is_wildcard_string, in_condition, ilike_condition, eq_condition;
    try destruct (includes s "%");
    cbn [bound_values length seq];
    rewrite !append_assoc;
    rewrite (placeholders_of_free key) by exact Hkey;
    try (rewrite placeholders_of_free by reflexivity;
         apply placeholders_of_placeholder, Hrest).
  rewrite placeholders_of_free by reflexivity.
  rewrite placeholders_of_list by reflexivity.
  rewrite placeholders_of_free by reflexivity. reflexivity.
Qed.

Lemma join_cons (sep c : string) (tl : list string) (rest : string) :
  join sep (c :: tl) ++ rest =
    c ++ match tl with
         | [] => rest
         | _ => sep ++ join sep tl ++ rest
         end.
Proof.
  unfold join. cbn [String.concat]. destruct tl; [reflexivity |].
  rewrite !append_assoc. reflexivity.
Qed.

Lemma placeholders_of_conditions (filters : FilterOptions) :
  plain_keys filters ->
  forall (first : nat) (rest : string),
    ends_number rest = true ->
    placeholders_of (join " AND " (spec_conditions filters first) ++ rest) =
      (seq first (length (spec_params filters)) ++ placeholders_of rest)%list.
Proof.
  induction 1 as [| [key v] filters Hkey Hkeys IH]; intros first rest Hrest;
    [reflexivity |].
  cbn [fst] in Hkey. unfold spec_params in *.
  cbn [spec_conditions flat_map snd]. rewrite length_app, seq_app, <- app_assoc.
  destruct (present v) eqn:Hv.
  - rewrite join_cons.
    specialize (IH (first + length (bound_values v)) rest Hrest).
    destruct (spec_conditions filters (first + length (bound_values v)))
      as [| c tl] eqn:E.
    + rewrite placeholders_of_condition by assumption.
      f_equal. exact IH.
    + rewrite placeholders_of_condition by (assumption || reflexivity).
      f_equal. rewrite placeholders_of_free by reflexivity. exact IH.
  - assert (Hb : bound_values v = []) by (destruct v; try discriminate Hv; reflexivity).
    rewrite Hb. cbn [length seq app]. rewrite Nat.add_0_r. apply IH, Hrest.
Qed.

End Placeholders.

(** For field names without [$], the placeholders that the text of
    [buildWhereClause] refers to are exactly [$1 .. $n], each once and in
    order, where [n] is the number of parameters returned with it. *)
Theorem buildWhereClause_placeholders (filters : FilterOptions) :
  Scan.plain_keys filters ->
  Scan.placeholders_of (clause (buildWhereClause filters)) =
    seq 1 (length (params (buildWhereClause filters))).
Proof.
  intros Hkeys.
  destruct (buildWhereClause_spec filters) as (Hc & Hp).
  rewrite Hc, Hp. unfold where_of.
  pose proof (placeholders_of_conditions filters Hkeys 1 "" eq_refl) as H.
  rewrite append_nil_r, app_nil_r in H.
  destruct (spec_conditions filters 1) as [| c tl].
  - exact H.
  - rewrite placeholders_of_free by reflexivity. exact H.
Qed.

Lemma buildWhereClause_placeholders_witness :
  Scan.placeholders_of
    (clause (buildWhereClause
               [("brand", VArr [VStr "ABC"; VStr "XYZ"]); ("name", VStr "%choco%");
                ("sku", VNull); ("is_npd", VBool true)]))
  = [1; 2; 3; 4].
Proof.
  refine (buildWhereClause_placeholders
            [("brand", VArr [VStr "ABC"; VStr "XYZ"]); ("name", VStr "%choco%");
             ("sku", VNull); ("is_npd", VBool true)] _).
  repeat constructor.
Defined.

(** ** The submission route: what a request changes *)


(** A 500 that leaves a row behind: the INSERT is taken, the UPDATE of
    the count fails. *)
Example post_submission_500_keeps_row :
  let req := {| user := "u1"; product_name := "Choco Munch";
                Submissions.brand := "ABC"; optional_fields_valid := true |} in
  let st := {| npd_submissions := [];
               Submissions.total_submissions := fun _ => 0%Z |} in
  let out := post_submission_on Requests.update_failing 100 req st in
  fst out = Status500 "Failed to create submission"
  /\ npd_submissions (snd out) =
       [{| row_id := 1; user_id := "u1";
           submitted_product_name := "Choco Munch";
           submitted_brand := "ABC"; created_at := 100 |}]
  /\ Submissions.total_submissions (snd out) "u1" = 0%Z.
Proof. cbv zeta. repeat split. Qed.

Section Window.

Import Requests.

Variable req : request.
Hypothesis name_plain : backslash_free (product_name req).
Hypothesis brand_plain : backslash_free (Submissions.brand req).




End Window.



(** ** GET /my-submissions *)

(** The listing binds every value, whatever the query strings are: its
    text refers to [$1 .. $n] in order, [n] being the number of parameters
    sent with it, the last two of which are [parseInt(limit)] and
    [(parseInt(page) - 1) * parseInt(limit)], computed in binary64
    arithmetic ([NaN] included); the count statement refers to the filter
    parameters alone.  Where the two strings read as integers [p] and [l]
    with [p - 1] and [(p - 1) * l] below [2^53] in absolute value, the
    offset sent is [(p - 1) * l]. *)
Theorem my_submissions_placeholders
        (userId : string) (page limit status : option string) :
  let q := MySubmissions.build userId page limit status in
  let pageNumber := MySubmissions.parseInt (MySubmissions.or_default page "1") in
  let limitNumber :=
    MySubmissions.parseInt (MySubmissions.or_default limit "20") in
  Scan.placeholders_of (MySubmissions.listText q) =
    seq 1 (length (MySubmissions.listParams q))
  /\ Scan.placeholders_of (MySubmissions.totalText q) =
       seq 1 (length (MySubmissions.totalParams q))
  /\ MySubmissions.listParams q =
       (MySubmissions.totalParams q
        ++ [num limitNumber;
            num (Float64.mul (Float64.sub pageNumber (Float64.of_Z 1))
                             limitNumber)])%list
  /\ hd_error (MySubmissions.totalParams q) = Some (VStr userId)
  /\ (forall p l : Z,
        pageNumber = Float64.Fin {| Float64.mant := p; Float64.expo := 0 |} ->
        limitNumber = Float64.Fin {| Float64.mant := l; Float64.expo := 0 |} ->
        Float64.safe (p - 1) -> Float64.safe ((p - 1) * l) ->
        MySubmissions.listParams q =
          (MySubmissions.totalParams q ++ [VNum l; VNum ((p - 1) * l)])%list).
Proof.
  cbv zeta.
  assert (H : forall p l : Z,
             MySubmissions.parseInt (MySubmissions.or_default page "1")
             = Float64.Fin {| Float64.mant := p; Float64.expo := 0 |} ->
             MySubmissions.parseInt (MySubmissions.or_default limit "20")
             = Float64.Fin {| Float64.mant := l; Float64.expo := 0 |} ->
             Float64.safe (p - 1) -> Float64.safe ((p - 1) * l) ->
             [num (MySubmissions.parseInt (MySubmissions.or_default limit "20"));
              num (Float64.mul
                     (Float64.sub
                        (MySubmissions.parseInt (MySubmissions.or_default page "1"))
                        (Float64.of_Z 1))
                     (MySubmissions.parseInt (MySubmissions.or_default limit "20")))]
             = [VNum l; VNum ((p - 1) * l)]).
  { intros p l -> -> Sp Spl.
    rewrite (Float64Facts.round_exact 1 eq_refl : Float64.of_Z 1 = _).
    unfold Float64.sub, Float64.neg, Float64.add, Float64.mul.
    cbn [Float64.mant Float64.expo Z.min Z.compare Z.sub Z.opp Z.add].
    change (2 ^ 0)%Z with 1%Z. rewrite !Z.mul_1_r.
    replace (p + -1)%Z with (p - 1)%Z by lia.
    rewrite (Float64Facts.round_exact (p - 1) Sp).
    cbn [Float64.mant Float64.expo Z.add].
    rewrite (Float64Facts.round_exact ((p - 1) * l) Spl).
    unfold num, Float64.integral. cbn [Float64.mant Float64.expo Z.leb Z.compare].
    change (2 ^ 0)%Z with 1%Z. rewrite !Z.mul_1_r. reflexivity. }
  unfold MySubmissions.build.
  destruct status as [[| c s] |]; cbn [truthy_str];
    (split; [reflexivity |]); (split; [reflexivity |]);
    (split; [reflexivity |]); (split; [reflexivity |]);
    intros p l Hp Hl Sp Spl;
    cbn [MySubmissions.listParams MySubmissions.totalParams]; unfold push;
    rewrite (H p l Hp Hl Sp Spl); reflexivity.
Qed.

(** What [parseInt] makes of a query string: a hexadecimal prefix is
    honoured, text after the digits is dropped, and a string without a
    leading digit gives [NaN], which is then sent as the limit and the
    offset. *)
Example my_submissions_parsing :
  MySubmissions.parseInt "0x2"
  = Float64.Fin {| Float64.mant := 2; Float64.expo := 0 |}
  /\ MySubmissions.parseInt " -12px"
     = Float64.Fin {| Float64.mant := -12; Float64.expo := 0 |}
  /\ MySubmissions.parseInt "" = Float64.NaN
  /\ MySubmissions.parseInt "9007199254740993"
     = Float64.Fin {| Float64.mant := 4503599627370496; Float64.expo := 1 |}
  /\ MySubmissions.listParams
       (MySubmissions.build "u1" (Some "3") None None)
     = [VStr "u1"; VNum 20; VNum 40]
  /\ MySubmissions.listParams
       (MySubmissions.build "u1" (Some "94906268") (Some "94906267") None)
     = [VStr "u1"; VNum 94906267; VNum 9007199515875288]
  /\ MySubmissions.listParams
       (MySubmissions.build "u1" (Some "two") None (Some "pending"))
     = [VStr "u1"; VStr "pending"; VNum 20; VNumber Float64.NaN].
Proof. repeat split; vm_compute; reflexivity. Qed.

Lemma Qceiling_div (a b : Z) :
  (0 < b)%Z -> Qceiling (inject_Z a / inject_Z b) = ((a + b - 1) / b)%Z.
Proof.
  intros Hb. destruct b as [| p | p]; try lia.
  unfold Qceiling, Qfloor, Qdiv, Qinv, Qmult, Qopp, inject_Z. cbn [Qnum Qden].
  rewrite Z.mul_1_r, Pos.mul_1_l.
  Z.to_euclidean_division_equations. nia.
Qed.

(** For a positive page size and a non-negative total, [hasNextPage]
    holds exactly when rows lie beyond the current page, the pages cover
    all rows with no page to spare, and [hasPreviousPage] holds exactly
    from page 2 on. *)
Theorem my_submissions_paging (page limit total : Z) :
  (0 < limit)%Z -> (0 <= total)%Z ->
  exists p,
    MySubmissions.paging page limit total = Some p
    /\ (MySubmissions.hasNextPage p = true <-> (page * limit < total)%Z)
    /\ (MySubmissions.hasPreviousPage p = true <-> (1 < page)%Z)
    /\ (total <= MySubmissions.totalPages p * limit)%Z
    /\ ((MySubmissions.totalPages p - 1) * limit < total \/ total = 0)%Z
    /\ (0 <= MySubmissions.totalPages p)%Z.
Proof.
  intros Hl Ht. unfold MySubmissions.paging.
  destruct (Z.eqb_spec limit 0); [lia |].
  eexists. split; [reflexivity |].
  cbn [MySubmissions.hasNextPage MySubmissions.hasPreviousPage MySubmissions.totalPages].
  rewrite (Qceiling_div total limit Hl), !Z.ltb_lt.
  assert (Hd : (limit * ((total + limit - 1) / limit) <= total + limit - 1
                < limit * ((total + limit - 1) / limit) + limit)%Z).
  { pose proof (Z.div_mod (total + limit - 1) limit ltac:(lia)).
    pose proof (Z.mod_pos_bound (total + limit - 1) limit Hl). lia. }
  repeat split; nia.
Qed.

Lemma my_submissions_paging_witness :
  exists p,
    MySubmissions.paging 2 20 45 = Some p
    /\ MySubmissions.hasNextPage p = true
    /\ MySubmissions.totalPages p = 3%Z.
Proof.
  destruct (my_submissions_paging 2 20 45 ltac:(lia) ltac:(lia))
    as (p & Hp & Hnext & _).
  exists p. split; [exact Hp |]. split; [apply Hnext; lia |].
  injection Hp as <-. reflexivity.
Defined.

(** ** The reward: bounds *)

(** For a confidence in [0, 1]: a tier string that names a property
    inherited from [Object.prototype] (['constructor'], ['toString'], ...)
    makes the reward [NaN]; for every other tier string the reward is a
    whole number between 300 and 520. *)
Theorem calculateReward_range
        (confidence : Float64.float) (regional : bool) (userTier : string) :
  Float64.le Float64.zero confidence ->
  Float64.le confidence Float64.one ->
  (In userTier Rewards.object_prototype_keys ->
   Rewards.calculateReward
     {| Rewards.aiConfidence := Float64.Fin confidence;
        Rewards.isRegionalExclusive := regional |} userTier = Float64.NaN)
  /\ (~ In userTier Rewards.object_prototype_keys ->
      exists reward : Z,
        Rewards.calculateReward
          {| Rewards.aiConfidence := Float64.Fin confidence;
             Rewards.isRegionalExclusive := regional |} userTier
        = Float64.Fin {| Float64.mant := reward; Float64.expo := 0 |}
        /\ (300 <= reward <= 520)%Z).
Proof.
  intros H0 H1.
  destruct (Float64Facts.quality_bonus_bounds confidence H0 H1)
    as (z & Hz & Hb & _).
  rewrite calculateReward_steps. cbn [Rewards.aiConfidence
                                      Rewards.isRegionalExclusive].
  rewrite Hz.
  destruct (reward_after_bonus z regional userTier Hb) as [Hin Hout].
  split; [exact Hin |].
  intros Hnot. destruct (Hout Hnot) as [E R].
  eexists. split; [exact E | exact R].
Qed.

Lemma calculateReward_range_witness :
  Rewards.calculateReward
    {| Rewards.aiConfidence :=
         Float64.Fin {| Float64.mant := 1; Float64.expo := -1 |};
       Rewards.isRegionalExclusive := true |} "toString" = Float64.NaN.
Proof.
  refine (proj1 (calculateReward_range
                   {| Float64.mant := 1; Float64.expo := -1 |} true "toString"
                   _ _) _).
  - unfold Float64.le. cbn. lia.
  - unfold Float64.le. cbn. lia.
  - cbn. tauto.
Defined.


(** ** The tier ladder *)

Section TierLadder.

Import Tiers TierFacts.

Lemma threshold_kept (n s1 s2 : Z) (t q1 q2 : Q) :
  (s1 <= s2)%Z -> (q1 <= q2)%Q ->
  (n <=? s1)%Z && Qle_bool t q1 = true ->
  (n <=? s2)%Z && Qle_bool t q2 = true.
Proof.
  intros Hs Hq. rewrite !andb_true_iff, !Z.leb_le, !Qle_bool_iff.
  intros [H1 H2]. split; [lia | eapply Qle_trans; eassumption].
Qed.

End TierLadder.

(** More submissions at a quality no lower never lower the tier that the
    CASE of [updateUserTier] assigns. *)
Theorem updateUserTier_monotone (s1 s2 : Z) (q1 q2 : Q) :
  (s1 <= s2)%Z -> (q1 <= q2)%Q ->
  TierFacts.rank (Tiers.updateUserTier s1 q1)
  <= TierFacts.rank (Tiers.updateUserTier s2 q2).
Proof.
  intros Hs Hq. unfold Tiers.updateUserTier.
  pose proof (threshold_kept 100 s1 s2 9 q1 q2 Hs Hq) as H100.
  pose proof (threshold_kept 50 s1 s2 (85 # 10) q1 q2 Hs Hq) as H50.
  pose proof (threshold_kept 25 s1 s2 8 q1 q2 Hs Hq) as H25.
  pose proof (threshold_kept 10 s1 s2 7 q1 q2 Hs Hq) as H10.
  destruct ((100 <=? s1)%Z && Qle_bool 9 q1);
    [rewrite (H100 eq_refl); reflexivity |].
  destruct ((50 <=? s1)%Z && Qle_bool (85 # 10) q1).
  { rewrite (H50 eq_refl).
    destruct ((100 <=? s2)%Z && Qle_bool 9 q2); cbn; lia. }
  destruct ((25 <=? s1)%Z && Qle_bool 8 q1).
  { rewrite (H25 eq_refl).
    destruct ((100 <=? s2)%Z && Qle_bool 9 q2);
      destruct ((50 <=? s2)%Z && Qle_bool (85 # 10) q2); cbn; lia. }
  destruct ((10 <=? s1)%Z && Qle_bool 7 q1).
  { rewrite (H10 eq_refl).
    destruct ((100 <=? s2)%Z && Qle_bool 9 q2);
      destruct ((50 <=? s2)%Z && Qle_bool (85 # 10) q2);
      destruct ((25 <=? s2)%Z && Qle_bool 8 q2); cbn; lia. }
  cbn. lia.
Qed.

Lemma updateUserTier_monotone_witness :
  TierFacts.rank (Tiers.updateUserTier 12 (75 # 10))
  <= TierFacts.rank (Tiers.updateUserTier 60 (88 # 10)).
Proof.
  apply (updateUserTier_monotone 12 60 (75 # 10) (88 # 10)); [lia | discriminate].
Defined.


(** ** createUser *)

(** [createUser] answers [DuplicateError] as soon as the lookup by email
    or phone returns a row, whatever the hash function and whatever the
    store would answer to the INSERT; it fails only with that
    [DuplicateError] or with a [DatabaseError] of the lookup or of the
    insert. *)
Theorem createUser_outcomes
        (hash : string -> string) (d : driver) (userData : CreateUserData)
        (found : QueryResult) (existing : Row) (more : list Row) (e : error) :
  d find_user_text [VStr (email userData); VStr (phone userData)] = inr found ->
  rows found = existing :: more ->
  createUser hash d userData =
    inl (DuplicateError "User with email or phone already exists")
  /\ (forall d',
        createUser hash d' userData = inl e ->
        e = DuplicateError "User with email or phone already exists"
        \/ (exists c, e = DatabaseError "Failed to find user by email or phone" c)
        \/ (exists c, e = DatabaseError "Failed to create user" c)).
Proof.
  intros Hfind Hrows. split.
  - unfold createUser, findByEmailOrPhone, Connection.query.
    rewrite Hfind, Hrows. reflexivity.
  - intros d'. unfold createUser, findByEmailOrPhone.
    destruct (Connection.query d' find_user_text _) as [e0 | r0].
    + intros [= <-]. right. left. eauto.
    + destruct (hd_error (rows r0)).
      * intros [= <-]. left. reflexivity.
      * destruct (Connection.query d' insert_user_text _) as [e1 | r1];
          [| discriminate].
        destruct (code_of e1) as [c |].
        -- destruct (String.eqb c "23505"); intros [= <-];
             [left; reflexivity | right; right; eauto].
        -- intros [= <-]. right. right. eauto.
Qed.

Lemma createUser_outcomes_witness :
  createUser (fun p => p)
    (answering [[("email", VStr "a@b.c")]])
    {| email := "a@b.c"; phone := "1"; password := "pw"; full_name := "A" |}
  = inl (DuplicateError "User with email or phone already exists").
Proof.
  exact (proj1 (createUser_outcomes (fun p => p)
                  (answering [[("email", VStr "a@b.c")]])
                  {| email := "a@b.c"; phone := "1"; password := "pw"; full_name := "A" |}
                  {| rows := [[("email", VStr "a@b.c")]]; rowCount := 1 |}
                  [("email", VStr "a@b.c")] []
                  (DuplicateError "User with email or phone already exists")
                  eq_refl eq_refl)).
Defined.

(** ** Callers of find *)

(** [getRecentNPDProducts] asks for a limit, so for every non-zero limit
    its statement reads [LIMIT $1] while parameter 1 is the [is_npd] value
    [true] and the limit is parameter 3: the text refers to [$1, $2, $1].
    The two callers that do not paginate refer to [$1, $2] and send
    exactly those two values. *)
Theorem find_callers_placeholders (lim : option Z) (userId tier : string) :
  (match lim with Some l => l | None => 20%Z end) <> 0%Z ->
  let recent := Callers.getRecentNPDProducts lim in
  Scan.placeholders_of (dataQuery recent) = [1; 2; 1]
  /\ dataParams recent =
       [VBool true; VStr "verified";
        VNum (match lim with Some l => l | None => 20%Z end)]
  /\ Scan.placeholders_of (dataQuery (Callers.getProductsByDiscoverer userId)) = [1; 2]
  /\ dataParams (Callers.getProductsByDiscoverer userId) = [VStr userId; VBool true]
  /\ Scan.placeholders_of (dataQuery (Callers.getUsersByTier tier)) = [1; 2]
  /\ dataParams (Callers.getUsersByTier tier) = [VStr tier; VBool true].
Proof.
  intros Hl. cbv zeta.
  set (l := match lim with Some l => l | None => 20%Z end) in *.
  assert (E : buildLimitClause
                {| page := None; limit := Some l; offset := None |} =
              {| clause := " LIMIT $1"; params := [VNum l] |}).
  { unfold buildLimitClause, truthy. cbn [limit offset page].
    destruct (Z.eqb_spec l 0); [contradiction | reflexivity]. }
  split; [| split; [| repeat split;
    unfold Callers.getProductsByDiscoverer, Callers.getUsersByTier, find,
      buildWhereClause;
    cbn [fold_left where_step];
    try destruct (includes userId "%"); try destruct (includes tier "%");
    reflexivity]].
  - unfold Callers.getRecentNPDProducts, find. fold l. rewrite E. reflexivity.
  - unfold Callers.getRecentNPDProducts, find. fold l. rewrite E. reflexivity.
Qed.

Lemma find_callers_placeholders_witness :
  Scan.placeholders_of (dataQuery (Callers.getRecentNPDProducts None)) = [1; 2; 1].
Proof.
  refine (proj1 (find_callers_placeholders None "u1" "gold" _)). discriminate.
Defined.

(** ** The placeholders of INSERT and UPDATE *)

Section WritePlaceholders.

Import Scan Callers.

Lemma value_placeholders_seq (n : nat) :
  value_placeholders n = join ", " (map placeholder (seq 1 n)).
Proof.
  unfold value_placeholders. f_equal.
  rewrite <- seq_shift, map_map. apply map_ext.
  intros i. rewrite Nat.add_1_r. reflexivity.
Qed.

Lemma placeholders_of_assignments (fields : list string) :
  Forall plain_name fields ->
  forall (start : nat) (rest : string),
    ends_number rest = true ->
    placeholders_of
      (join ", "
            (map (fun fi => fst fi ++ " = " ++ placeholder (snd fi + 2))
                 (combine fields (seq start (length fields)))) ++ rest) =
      (seq (start + 2) (length fields) ++ placeholders_of rest)%list.
Proof.
  induction 1 as [| f fields Hf _ IH]; intros start rest Hrest; [reflexivity |].
  cbn [length seq combine map fst snd]. rewrite join_cons.
  specialize (IH (S start) rest Hrest).
  rewrite !append_assoc.
  rewrite (placeholders_of_free f) by exact Hf.
  rewrite placeholders_of_free by reflexivity.
  destruct fields as [| g fields].
  - cbn [length seq combine map].
    rewrite placeholders_of_placeholder by exact Hrest. reflexivity.
  - remember (g :: fields) as fs eqn:Efs.
    assert (Hne : map (fun fi : string * nat => fst fi ++ " = " ++ placeholder (snd fi + 2))
                      (combine fs (seq (S start) (length fs))) <> []).
    { subst fs. discriminate. }
    destruct (map _ (combine fs (seq (S start) (length fs)))) as [| c tl] eqn:E;
      [contradiction |].
    rewrite placeholders_of_placeholder by reflexivity.
    rewrite placeholders_of_free by reflexivity.
    rewrite IH. reflexivity.
Qed.

End WritePlaceholders.

(** For table, key and column names without [$]: the INSERT of [create]
    and of [bulkInsert] refers to [$1 .. $n] in the order of the columns,
    [n] being the number of values sent; the UPDATE refers to
    [$2 .. $(n+1)] for its columns and then to [$1], and is sent the id
    followed by the values. *)
Theorem write_statement_placeholders
        (tableName primaryKey : string) (data : Row) :
  Callers.plain_name tableName -> Callers.plain_name primaryKey ->
  Forall Callers.plain_name (map fst data) ->
  Scan.placeholders_of (create_text tableName data) = seq 1 (length (map snd data))
  /\ Scan.placeholders_of (bulk_text tableName data) = seq 1 (length (map snd data))
  /\ Scan.placeholders_of (Facade.update_text tableName primaryKey data) =
       (seq 2 (length (map snd data)) ++ [1])%list.
Proof.
  intros Ht Hk Hf. unfold Callers.plain_name in *.
  assert (Hj : includes (join ", " (map fst data)) "$" = false).
  { apply includes_join; [reflexivity | exact Hf]. }
  rewrite length_map.
  split; [| split].
  - unfold create_text. rewrite value_placeholders_seq.
    rewrite placeholders_of_free by reflexivity.
    rewrite placeholders_of_free by reflexivity.
    rewrite (placeholders_of_free tableName) by exact Ht.
    rewrite placeholders_of_free by reflexivity.
    rewrite (placeholders_of_free (join ", " (map fst data))) by exact Hj.
    rewrite placeholders_of_free by reflexivity.
    rewrite placeholders_of_free by reflexivity.
    rewrite placeholders_of_free by reflexivity.
    rewrite placeholders_of_list by reflexivity.
    rewrite app_nil_r. reflexivity.
  - unfold bulk_text. rewrite value_placeholders_seq.
    rewrite placeholders_of_free by reflexivity.
    rewrite placeholders_of_free by reflexivity.
    rewrite (placeholders_of_free tableName) by exact Ht.
    rewrite placeholders_of_free by reflexivity.
    rewrite (placeholders_of_free (join ", " (map fst data))) by exact Hj.
    rewrite placeholders_of_free by reflexivity.
    rewrite placeholders_of_free by reflexivity.
    rewrite placeholders_of_free by reflexivity.
    rewrite placeholders_of_list by reflexivity.
    rewrite app_nil_r. reflexivity.
  - unfold Facade.update_text, Facade.setClause.
    rewrite placeholders_of_free by reflexivity.
    rewrite placeholders_of_free by reflexivity.
    rewrite (placeholders_of_free tableName) by exact Ht.
    rewrite placeholders_of_free by reflexivity.
    rewrite placeholders_of_free by reflexivity.
    pose proof (placeholders_of_assignments (map fst data) Hf 0) as Ha.
    rewrite Ha by reflexivity. rewrite length_map. cbn [Nat.add].
    f_equal.
    rewrite placeholders_of_free by reflexivity.
    rewrite placeholders_of_free by reflexivity.
    rewrite (placeholders_of_free primaryKey) by exact Hk.
    reflexivity.
Qed.

Lemma write_statement_placeholders_witness :
  Scan.placeholders_of
    (Facade.update_text "products" "id"
       [("verification_status", VStr "verified"); ("last_verified_at", VDate 0)])
  = [2; 3; 1].
Proof.
  refine (proj2 (proj2 (write_statement_placeholders "products" "id"
            [("verification_status", VStr "verified"); ("last_verified_at", VDate 0)]
            eq_refl eq_refl _))).
  repeat constructor.
Defined.

(** ** The hard reject is exact on literal texts *)

Section Exact.

Import Patterns Requests.

Lemma special_false (c : ascii) :
  special c = false -> c <> "%"%char /\ c <> "_"%char /\ c <> "\"%char.
Proof.
  unfold special. rewrite !orb_false_iff.
  intros [[H1 H2] H3]. repeat split; intros ->; discriminate.
Qed.

Lemma lower_special (c : ascii) : special c = false -> special (lower c) = false.
Proof.
  destruct c as [[] [] [] [] [] [] [] []]; vm_compute; intros H;
    first [reflexivity | discriminate H].
Qed.

Lemma like_literal (p : list ascii) :
  Forall (fun c => special c = false) p ->
  forall s, like p s = Some true <-> s = p.
Proof.
  induction 1 as [| c p Hc _ IH]; intros s.
  - destruct s; cbn; split; congruence.
  - destruct (special_false c Hc) as (H1 & H2 & H3).
    destruct s as [| x s].
    + rewrite like_plain_nil by assumption. split; discriminate.
    + rewrite like_plain by assumption.
      destruct (Ascii.eqb_spec x c) as [-> | Hne].
      * rewrite IH. split; congruence.
      * split; [discriminate | congruence].
Qed.

Lemma literal_backslash_free (s : string) : literal s -> backslash_free s.
Proof.
  unfold literal, backslash_free. intros H Hin.
  rewrite Forall_forall in H. specialize (H _ Hin). discriminate H.
Qed.

Lemma ilike_literal (text pattern : string) :
  literal pattern ->
  (ilike text pattern = Some true <-> lower_string text = lower_string pattern).
Proof.
  intros H. unfold ilike. apply like_literal.
  unfold lower_string. apply Forall_map.
  eapply Forall_impl; [| exact H]. intros c. apply lower_special.
Qed.

Variable now : Z.
Variable req : request.
Hypothesis name_literal : literal (product_name req).
Hypothesis brand_literal : literal (Submissions.brand req).

Lemma duplicate_row_literal (r : submission) :
  duplicate_row now req r = Some true <-> exact_recent_match now req r.
Proof.
  unfold duplicate_row, exact_recent_match.
  destruct (String.eqb_spec (user_id r) (user req)) as [Hu | Hu];
    [| split; [discriminate | intros [H _]; contradiction]].
  pose proof (ilike_literal (submitted_product_name r) _ name_literal) as Hn.
  pose proof (ilike_literal (submitted_brand r) _ brand_literal) as Hb.
  destruct (ilike (submitted_product_name r) (product_name req)) as [[] |].
  - destruct (ilike (submitted_brand r) (Submissions.brand req)) as [[] |].
    + split.
      * intros [= Ht]. apply Z.ltb_lt in Ht.
        repeat split; [exact Hu | apply Hn | apply Hb | exact Ht]; reflexivity.
      * intros (_ & _ & _ & Ht). f_equal. apply Z.ltb_lt. exact Ht.
    + split; [discriminate |]. intros (_ & _ & Hb' & _).
      apply Hb in Hb'. discriminate Hb'.
    + split; [discriminate |]. intros (_ & _ & Hb' & _).
      apply Hb in Hb'. discriminate Hb'.
  - split; [discriminate |]. intros (_ & Hn' & _). apply Hn in Hn'. discriminate Hn'.
  - split; [discriminate |]. intros (_ & Hn' & _). apply Hn in Hn'. discriminate Hn'.
Qed.

Lemma duplicateCheck_literal (table : list submission) :
  exists found,
    duplicateCheck now req table = Some found
    /\ (found <> [] <-> exists r, In r table /\ exact_recent_match now req r).
Proof.
  induction table as [| r table (found & Hf & Hiff)].
  - exists []. split; [reflexivity |]. split; [congruence | intros (r & [] & _)].
  - cbn [duplicateCheck]. rewrite Hf.
    destruct (duplicate_row_total now req
                (literal_backslash_free _ name_literal)
                (literal_backslash_free _ brand_literal) r) as [b Hb].
    pose proof (duplicate_row_literal r) as Hr. rewrite Hb in *.
    destruct b.
    + exists (r :: found). split; [reflexivity |]. split; [| discriminate].
      intros _. exists r. split; [left; reflexivity | apply Hr; reflexivity].
    + exists found. split; [reflexivity |]. rewrite Hiff. split.
      * intros (r' & Hin & Hm). exists r'. split; [right; exact Hin | exact Hm].
      * intros (r' & [<- | Hin] & Hm).
        -- apply Hr in Hm. discriminate Hm.
        -- exists r'. split; assumption.
Qed.

End Exact.

(** For a well-formed request in ASCII whose name and brand hold no
    [%], [_] or backslash, against stored names and brands in ASCII, the
    route answers 409 exactly when the same user has a row with the same
    name and brand up to the case of the letters A-Z, created less than
    24 hours ago, provided the store answers the duplicate check; this
    holds whether or not the store takes the writes. *)
Theorem hard_reject_exact
        (a : acceptance) (now : Z) (req : request) (st : store) :
  Requests.well_formed req ->
  Forall Requests.ascii_row (npd_submissions st) ->
  Patterns.literal (product_name req) ->
  Patterns.literal (Submissions.brand req) ->
  select_answered a st = true ->
  (fst (post_submission_on a now req st) =
     Status409 "Similar submission already exists within 24 hours"
   <-> exists r, In r (npd_submissions st) /\ exact_recent_match now req r).
Proof.
  intros (_ & _ & Hn & Hb & Ho) _ Hname Hbrand Hsel.
  unfold post_submission_on.
  apply Nat.leb_le in Hn, Hb. rewrite Hn, Hb, Ho, Hsel. cbn [andb negb].
  destruct (duplicateCheck_literal now req Hname Hbrand (npd_submissions st))
    as (found & -> & Hiff).
  rewrite <- Hiff. destruct found.
  - split; [| congruence].
    destruct (insert_accepted a st _); cbn [negb fst]; [| discriminate].
    destruct (update_accepted a _ _); cbn [negb fst]; discriminate.
  - cbn [fst]. split; [discriminate | intros _; reflexivity].
Qed.

Lemma hard_reject_exact_witness :
  fst (post_submission_on accepting 4600
         {| user := "u1"; product_name := "choco munch";
            Submissions.brand := "abc"; optional_fields_valid := true |}
         {| npd_submissions :=
              [{| row_id := 1; user_id := "u1";
                  submitted_product_name := "Choco Munch";
                  submitted_brand := "ABC"; created_at := 1000 |}];
            Submissions.total_submissions := fun _ => 1%Z |})
  = Status409 "Similar submission already exists within 24 hours".
Proof.
  refine (proj2 (hard_reject_exact accepting 4600
            {| user := "u1"; product_name := "choco munch";
               Submissions.brand := "abc"; optional_fields_valid := true |}
            {| npd_submissions :=
                 [{| row_id := 1; user_id := "u1";
                     submitted_product_name := "Choco Munch";
                     submitted_brand := "ABC"; created_at := 1000 |}];
               Submissions.total_submissions := fun _ => 1%Z |} _ _ _ _ _) _).
  - unfold Requests.well_formed, Requests.ascii_text.
    repeat split; cbn; try lia; repeat constructor.
  - unfold Requests.ascii_row, Requests.ascii_text.
    repeat constructor.
  - repeat constructor.
  - repeat constructor.
  - reflexivity.
  - eexists. split; [left; reflexivity |]. repeat split.
Defined.

Lemma hard_reject_backslash_free_witness :
  rejected
    (post_submission 4600
       {| user := "u1"; product_name := "100% Choco";
          Submissions.brand := "ABC"; optional_fields_valid := true |}
       {| npd_submissions :=
            [{| row_id := 1; user_id := "u1";
                submitted_product_name := "100% choco";
                submitted_brand := "abc"; created_at := 1000 |}];
          Submissions.total_submissions := fun _ => 1%Z |})
    {| npd_submissions :=
         [{| row_id := 1; user_id := "u1";
             submitted_product_name := "100% choco";
             submitted_brand := "abc"; created_at := 1000 |}];
       Submissions.total_submissions := fun _ => 1%Z |}.
Proof.
  refine (hard_reject_backslash_free 4600
            {| user := "u1"; product_name := "100% Choco";
               Submissions.brand := "ABC"; optional_fields_valid := true |}
            _ _ _ _).
  - unfold backslash_free. cbn. intros H.
    repeat (destruct H as [H | H]; [discriminate H |]). exact H.
  - unfold backslash_free. cbn. intros H.
    repeat (destruct H as [H | H]; [discriminate H |]). exact H.
  - eexists. split; [left; reflexivity |]. repeat split.
Defined.

Lemma buildWhereClause_text_by_shape_witness :
  clause (buildWhereClause [("name", VStr "%choco%"); ("brand", VArr [VStr "A"])])
  = clause (buildWhereClause [("name", VStr "x%"); ("brand", VArr [VNum 7])]).
Proof.
  apply buildWhereClause_text_by_shape.
  repeat constructor.
Defined.

(** ** Wildcards in a submitted name *)

Section Wildcards.

Import Patterns.

Lemma like_percent_only (p : list ascii) :
  p <> [] -> Forall (fun c => c = "%"%char) p ->
  forall s, like p s = Some true.
Proof.
  induction p as [| c p IH]; [contradiction |].
  intros _ Hall s. inversion Hall as [| ? ? Hc Hp]; subst.
  destruct p as [| c' p].
  - induction s as [| x s IHs]; rewrite like_percent; [reflexivity |].
    cbn [like]. exact IHs.
  - rewrite like_percent. rewrite (IH ltac:(discriminate) Hp s). reflexivity.
Qed.

Lemma lower_percent (l : list ascii) :
  Forall (fun c => c = "%"%char) l -> map lower l = l.
Proof.
  induction 1 as [| c l -> _ IH]; [reflexivity |]. cbn [map]. rewrite IH.
  reflexivity.
Qed.

Lemma ilike_wildcards (text pattern : string) :
  wildcards pattern -> ilike text pattern = Some true.
Proof.
  intros [Hlen Hall]. unfold ilike, lower_string.
  rewrite (lower_percent _ Hall). apply like_percent_only; [| exact Hall].
  destruct pattern; [cbn in Hlen; lia | discriminate].
Qed.

End Wildcards.

(** The name and the brand of a request are used as patterns: a request
    whose name and brand consist of [%] characters is answered 409 as
    soon as the user has any row from the last 24 hours, whatever that
    row's name and brand, and leaves the store as it was. *)
Theorem wildcard_request_blocked
        (now : Z) (req : request) (st : store) (r : submission) :
  Patterns.wildcards (product_name req) ->
  Patterns.wildcards (Submissions.brand req) ->
  optional_fields_valid req = true ->
  In r (npd_submissions st) -> user_id r = user req ->
  (now - day < created_at r)%Z ->
  post_submission now req st =
    (Status409 "Similar submission already exists within 24 hours", st).
Proof.
  intros Hn Hb Ho Hin Hu Ht.
  assert (Hrow : forall x, exists b, duplicate_row now req x = Some b).
  { intros x. unfold duplicate_row. destruct (String.eqb _ _); [| eauto].
    rewrite (ilike_wildcards _ _ Hn), (ilike_wildcards _ _ Hb). eauto. }
  assert (Hr : duplicate_row now req r = Some true).
  { unfold duplicate_row. rewrite Hu, String.eqb_refl.
    rewrite (ilike_wildcards _ _ Hn), (ilike_wildcards _ _ Hb).
    f_equal. apply Z.ltb_lt. exact Ht. }
  assert (Hfound : exists x found,
             duplicateCheck now req (npd_submissions st) = Some (x :: found)).
  { clear Ho. induction (npd_submissions st) as [| x table IH]; [destruct Hin |].
    assert (Htot : exists found, duplicateCheck now req table = Some found).
    { clear IH Hin. induction table as [| y table [found IHt]]; [cbn; eauto |].
      cbn [duplicateCheck]. rewrite IHt.
      destruct (Hrow y) as [[] ->]; eauto. }
    cbn [duplicateCheck]. destruct Htot as [found Hf].
    destruct Hin as [-> | Hin].
    - rewrite Hr, Hf. eauto.
    - destruct (IH Hin) as (x' & found' & ->).
      destruct (Hrow x) as [[] ->]; eauto. }
  destruct Hfound as (x & found & Hf).
  unfold post_submission, post_submission_on.
  destruct Hn as [Hn _]. destruct Hb as [Hb _].
  apply Nat.leb_le in Hn, Hb. rewrite Hn, Hb, Ho.
  cbn [andb negb accepting select_answered]. rewrite Hf. reflexivity.
Qed.

Lemma wildcard_request_blocked_witness :
  fst (post_submission 4600
         {| user := "u1"; product_name := "%%"; Submissions.brand := "%%";
            optional_fields_valid := true |}
         {| npd_submissions :=
              [{| row_id := 1; user_id := "u1";
                  submitted_product_name := "Choco Munch";
                  submitted_brand := "ABC"; created_at := 1000 |}];
            Submissions.total_submissions := fun _ => 1%Z |})
  = Status409 "Similar submission already exists within 24 hours".
Proof.
  refine (f_equal fst (wildcard_request_blocked 4600
            {| user := "u1"; product_name := "%%"; Submissions.brand := "%%";
               optional_fields_valid := true |}
            {| npd_submissions :=
                 [{| row_id := 1; user_id := "u1";
                     submitted_product_name := "Choco Munch";
                     submitted_brand := "ABC"; created_at := 1000 |}];
               Submissions.total_submissions := fun _ => 1%Z |}
            {| row_id := 1; user_id := "u1";
               submitted_product_name := "Choco Munch";
               submitted_brand := "ABC"; created_at := 1000 |}
            _ _ eq_refl _ eq_refl _)).
  - split; [cbn; lia | repeat constructor].
  - split; [cbn; lia | repeat constructor].
  - left. reflexivity.
  - reflexivity.
Defined.
